(** * EduAgent AI Tutor: a shallow embedding of the backend core

    The development follows the TypeScript backend (entities [Message] and
    [Conversation], the use case [ChatUseCase], the framework service
    [GeminiService]) and the legacy JavaScript module [agentLogic.js].

    Conventions of the embedding.
    - A JavaScript string is a [string]; its characters are the UTF-16 code
      units below 256 (the Latin-1 range).  [String.prototype.trim] and
      [toLowerCase] are written out for that range.
    - A JavaScript number that the code uses as an integer is a [Z].
    - A computation that may [throw] returns [JsResult A = Thrown + A].
    - Effects (the remote provider, the clock, [setTimeout] delays) are
      threaded through an explicit [World]; a computation with effects has
      type [Eff A = World -> JsResult A * World], so the effects performed
      before an exception are kept, as they are in JavaScript.
    - Logging calls are not modelled: they have no influence on results. *)

From Stdlib Require Import ZArith List String Ascii Bool Lia DecimalString.
Import ListNotations.

Local Open Scope string_scope.
Local Open Scope Z_scope.

(* ===================================================================== *)
(** ** JavaScript strings *)
(* ===================================================================== *)

Module Js.

(** [WhiteSpace] and [LineTerminator] code units below 256: TAB, LF, VT,
    FF, CR, SPACE and NO-BREAK SPACE. *)
Definition isWhiteSpace (c : ascii) : bool :=
  let n := N_of_ascii c in
  (((9 <=? n) && (n <=? 13)) || (n =? 32) || (n =? 160))%N.

Fixpoint trimStart (s : string) : string :=
  match s with
  | EmptyString => EmptyString
  | String c r => if isWhiteSpace c then trimStart r else s
  end.

Fixpoint trimEnd (s : string) : string :=
  match s with
  | EmptyString => EmptyString
  | String c r =>
      match trimEnd r with
      | EmptyString => if isWhiteSpace c then EmptyString else String c EmptyString
      | r' => String c r'
      end
  end.

(** [String.prototype.trim]. *)
Definition trim (s : string) : string := trimEnd (trimStart s).

(** The [length] property. *)
Definition length (s : string) : Z := Z.of_nat (String.length s).

(** Truthiness of a string: every string but the empty one. *)
Definition truthy (s : string) : bool :=
  match s with EmptyString => false | String _ _ => true end.

Definition lowerChar (c : ascii) : ascii :=
  let n := N_of_ascii c in
  if (((65 <=? n) && (n <=? 90))
      || ((192 <=? n) && (n <=? 214))
      || ((216 <=? n) && (n <=? 222)))%N
  then ascii_of_N (n + 32) else c.

(** [String.prototype.toLowerCase]. *)
Fixpoint toLowerCase (s : string) : string :=
  match s with
  | EmptyString => EmptyString
  | String c r => String (lowerChar c) (toLowerCase r)
  end.

(** [s.startsWith(p)]. *)
Fixpoint startsWith (p s : string) : bool :=
  match p, s with
  | EmptyString, _ => true
  | String a p', String b s' => Ascii.eqb a b && startsWith p' s'
  | String _ _, EmptyString => false
  end.

(** [s.includes(p)]. *)
Fixpoint includes (s p : string) : bool :=
  startsWith p s
  || match s with
     | EmptyString => false
     | String _ r => includes r p
     end.

(** [s.substring(n)] for [n] within the string. *)
Fixpoint drop (n : nat) (s : string) : string :=
  match n, s with
  | O, _ => s
  | S k, String _ r => drop k r
  | S _, EmptyString => EmptyString
  end.

Fixpoint repeat (c : ascii) (n : nat) : string :=
  match n with
  | O => EmptyString
  | S k => String c (repeat c k)
  end.

(** [String(n)] for an integer [n]. *)
Definition ofZ (n : Z) : string := NilZero.string_of_int (Z.to_int n).

End Js.

(* ===================================================================== *)
(** ** Thrown values, results, and the state-and-exception monad *)
(* ===================================================================== *)

(** The classes of [Error] the program can meet: the built-in ones, the
    [AppError] hierarchy of [shared/errors/AppError.ts], and any class of
    a library ([ForeignErrorC], with its name). *)
Inductive ErrorClass : Type :=
| ErrorC
| RangeErrorC
| TypeErrorC
| ValidationErrorC
| RateLimitErrorC
| GeminiApiErrorC
| InternalErrorC
| UnauthorizedErrorC
| NotFoundErrorC
| ForeignErrorC (name : string).

(** An instance of [Error]: its class, its [message] and its [cause]. *)
#[warnings="-register-all"]
Inductive JsError : Type :=
| MkError (cls : ErrorClass) (message : string) (cause : option JsError).

Definition errClass (e : JsError) : ErrorClass :=
  match e with MkError c _ _ => c end.
Definition errMessage (e : JsError) : string :=
  match e with MkError _ m _ => m end.
Definition errCause (e : JsError) : option JsError :=
  match e with MkError _ _ c => c end.

(** What a [throw] can carry: an [Error] instance, or any other value, kept
    by its string conversion [String(v)]. *)
Inductive Thrown : Type :=
| ThrownError (e : JsError)
| ThrownValue (text : string).

Definition JsResult (A : Type) : Type := (Thrown + A)%type.

(** [error instanceof Error ? error : new Error(String(error))]. *)
Definition asError (error : Thrown) : JsError :=
  match error with
  | ThrownError e => e
  | ThrownValue text => MkError ErrorC text None
  end.

(** [error instanceof ValidationError] and [error instanceof GeminiApiError]. *)
Definition isValidationError (error : Thrown) : bool :=
  match error with
  | ThrownError (MkError ValidationErrorC _ _) => true
  | _ => false
  end.

Definition isGeminiApiError (error : Thrown) : bool :=
  match error with
  | ThrownError (MkError GeminiApiErrorC _ _) => true
  | _ => false
  end.

(** Computations over a state [S] that may throw; the state reached at the
    [throw] is part of the outcome. *)
Definition SE (S A : Type) : Type := S -> JsResult A * S.

Definition ret {S A} (a : A) : SE S A := fun s => (inr a, s).
Definition throw {S A} (e : JsError) : SE S A := fun s => (inl (ThrownError e), s).
Definition rethrow {S A} (t : Thrown) : SE S A := fun s => (inl t, s).
Definition bind {S A B} (m : SE S A) (k : A -> SE S B) : SE S B :=
  fun s =>
    match m s with
    | (inl t, s') => (inl t, s')
    | (inr a, s') => k a s'
    end.
Definition get {S} : SE S S := fun s => (inr s, s).
Definition modify {S} (f : S -> S) : SE S unit := fun s => (inr tt, f s).
(** A pure fallible computation, run without touching the state. *)
Definition lift {S A} (r : JsResult A) : SE S A := fun s => (r, s).
(** [try { body } catch (error) { handler(error) }]. *)
Definition tryCatch {S A} (body : SE S A) (handler : Thrown -> SE S A) : SE S A :=
  fun s =>
    match body s with
    | (inl t, s') => handler t s'
    | (inr a, s') => (inr a, s')
    end.

Declare Scope se_scope.
Delimit Scope se_scope with se.
Notation "x <- m ;; k" := (bind m (fun x => k))
  (at level 61, m at next level, right associativity) : se_scope.
Notation "m ;;; k" := (bind m (fun _ => k))
  (at level 61, right associativity) : se_scope.

(** Pure bind on results. *)
Definition andThen {A B} (r : JsResult A) (k : A -> JsResult B) : JsResult B :=
  match r with
  | inl t => inl t
  | inr a => k a
  end.

(* ===================================================================== *)
(** ** shared/errors/AppError.ts *)
(* ===================================================================== *)

Module AppError.

Inductive ErrorCode : Type :=
| VALIDATION_ERROR
| RATE_LIMIT_EXCEEDED
| GEMINI_API_ERROR
| INTERNAL_ERROR
| UNAUTHORIZED
| NOT_FOUND.

Definition ValidationError (message : string) : JsError :=
  MkError ValidationErrorC message None.

Definition GeminiApiError (message : string) (originalError : option JsError) : JsError :=
  MkError GeminiApiErrorC ("Gemini API Error: " ++ message) originalError.

Definition InternalError (message : string) (originalError : option JsError) : JsError :=
  MkError InternalErrorC message originalError.

(** The [code] and [statusCode] each subclass passes to [AppError]. *)
Definition code (c : ErrorClass) : option ErrorCode :=
  match c with
  | ValidationErrorC => Some VALIDATION_ERROR
  | RateLimitErrorC => Some RATE_LIMIT_EXCEEDED
  | GeminiApiErrorC => Some GEMINI_API_ERROR
  | InternalErrorC => Some INTERNAL_ERROR
  | UnauthorizedErrorC => Some UNAUTHORIZED
  | NotFoundErrorC => Some NOT_FOUND
  | _ => None
  end.

Definition statusCode (c : ErrorClass) : option Z :=
  match c with
  | ValidationErrorC => Some 400
  | RateLimitErrorC => Some 429
  | GeminiApiErrorC => Some 502
  | InternalErrorC => Some 500
  | UnauthorizedErrorC => Some 401
  | NotFoundErrorC => Some 404
  | _ => None
  end.

End AppError.

(* ===================================================================== *)
(** ** The built-in [Date] *)
(* ===================================================================== *)

Module JsDate.

(** A [Date] holds a time value, an integral number of milliseconds since
    the epoch within the range of [TimeClip], or is an Invalid Date. *)
Inductive Date : Type :=
| Valid (t : Z)
| Invalid.

Definition maxTime : Z := 8640000000000000.
Definition msPerDay : Z := 86400000.

Definition TimeClip (t : Z) : Date :=
  if Z.abs t <=? maxTime then Valid t else Invalid.

(** Year, month (1..12) and day of the month of a day number, in the
    proleptic Gregorian calendar ([YearFromTime], [MonthFromTime] and
    [DateFromTime] of ECMAScript, computed per 400-year era). *)
Definition civilOfDayOfEra (doe : Z) : Z * Z * Z :=
  let yoe := (doe - doe / 1460 + doe / 36524 - doe / 146096) / 365 in
  let doy := doe - (365 * yoe + yoe / 4 - yoe / 100) in
  let mp := (5 * doy + 2) / 153 in
  let d := doy - (153 * mp + 2) / 5 + 1 in
  let m := if mp <? 10 then mp + 3 else mp - 9 in
  (yoe + (if m <=? 2 then 1 else 0), m, d).

Definition civilFromDays (day : Z) : Z * Z * Z :=
  let z := day + 719468 in
  let '(y, m, d) := civilOfDayOfEra (z mod 146097) in
  (y + 400 * (z / 146097), m, d).

(** [MakeDay] on a year, a month (1..12) and a day of the month. *)
Definition daysFromCivil (y m d : Z) : Z :=
  let y' := if m <=? 2 then y - 1 else y in
  let era := y' / 400 in
  let yoe := y' mod 400 in
  let doy := (153 * (if 2 <? m then m - 3 else m + 9) + 2) / 5 + d - 1 in
  let doe := yoe * 365 + yoe / 4 - yoe / 100 + doy in
  era * 146097 + doe - 719468.

Definition isLeap (y : Z) : bool :=
  (y mod 4 =? 0) && (negb (y mod 100 =? 0) || (y mod 400 =? 0)).

Definition daysInMonth (y m : Z) : Z :=
  if m =? 2 then (if isLeap y then 29 else 28)
  else if (m =? 4) || (m =? 6) || (m =? 9) || (m =? 11) then 30
  else 31.

Definition digitChar (d : Z) : ascii := ascii_of_N (48 + Z.to_N d).

(** [n] in decimal on exactly [width] digits. *)
Fixpoint pad (width : nat) (n : Z) : string :=
  match width with
  | O => EmptyString
  | S w => pad w (n / 10) ++ String (digitChar (n mod 10)) EmptyString
  end.

(** Years 0 to 9999 take four digits, the others a sign and six. *)
Definition formatYear (y : Z) : string :=
  if (0 <=? y) && (y <=? 9999) then pad 4 y
  else (if y <? 0 then "-" else "+") ++ pad 6 (Z.abs y).

(** [Date.prototype.toISOString]: a [RangeError] on an Invalid Date. *)
Definition toISOString (date : Date) : JsResult string :=
  match date with
  | Invalid => inl (ThrownError (MkError RangeErrorC "Invalid time value" None))
  | Valid t =>
      let '(y, m, d) := civilFromDays (t / msPerDay) in
      let ms := t mod msPerDay in
      inr (formatYear y ++ "-" ++ pad 2 m ++ "-" ++ pad 2 d
           ++ "T" ++ pad 2 (ms / 3600000)
           ++ ":" ++ pad 2 (ms / 60000 mod 60)
           ++ ":" ++ pad 2 (ms / 1000 mod 60)
           ++ "." ++ pad 3 (ms mod 1000) ++ "Z")
  end.

Definition isDigit (c : ascii) : bool :=
  let n := N_of_ascii c in ((48 <=? n) && (n <=? 57))%N.

Definition digitVal (c : ascii) : Z := Z.of_N (N_of_ascii c) - 48.

(** Reads exactly [width] decimal digits. *)
Fixpoint readDigits (width : nat) (acc : Z) (s : string) : option (Z * string) :=
  match width with
  | O => Some (acc, s)
  | S w =>
      match s with
      | String c r => if isDigit c then readDigits w (10 * acc + digitVal c) r else None
      | EmptyString => None
      end
  end.

Definition expect (c : ascii) (s : string) : option string :=
  match s with
  | String c' r => if Ascii.eqb c c' then Some r else None
  | EmptyString => None
  end.

Definition readYear (s : string) : option (Z * string) :=
  match s with
  | String c r =>
      if Ascii.eqb c "+" then readDigits 6 0 r
      else if Ascii.eqb c "-" then
        match readDigits 6 0 r with
        | Some (y, r') => if y =? 0 then None else Some (- y, r')
        | None => None
        end
      else readDigits 4 0 s
  | EmptyString => None
  end.

Notation "'let?' p ':=' e 'in' k" :=
  (match e with Some p => k | None => None end)
  (at level 10, p pattern, e at level 200, k at level 200).

(** The complete date-time form of the Date Time String Format,
    [YYYY-MM-DDTHH:mm:ss.sssZ] with a four-digit or an expanded year,
    with every field in range. *)
Definition parseIso (s : string) : option Z :=
  let? (y, s) := readYear s in
  let? s := expect "-" s in
  let? (m, s) := readDigits 2 0 s in
  let? s := expect "-" s in
  let? (d, s) := readDigits 2 0 s in
  let? s := expect "T" s in
  let? (hh, s) := readDigits 2 0 s in
  let? s := expect ":" s in
  let? (mi, s) := readDigits 2 0 s in
  let? s := expect ":" s in
  let? (ss, s) := readDigits 2 0 s in
  let? s := expect "." s in
  let? (ms, s) := readDigits 3 0 s in
  let? s := expect "Z" s in
  match s with
  | EmptyString =>
      if (1 <=? m) && (m <=? 12) && (1 <=? d) && (d <=? daysInMonth y m)
         && (hh <=? 23) && (mi <=? 59) && (ss <=? 59)
      then Some (daysFromCivil y m d * msPerDay
                 + hh * 3600000 + mi * 60000 + ss * 1000 + ms)
      else None
  | String _ _ => None
  end.

(** [new Date(s)] on a string.  A string in the complete date-time form
    is read as such; for every other string the result is what the engine
    makes of it ([other]: the shorter forms of the format and the
    implementation-defined fallback). *)
Definition ofString (other : string -> Date) (s : string) : Date :=
  match parseIso s with
  | Some t => TimeClip t
  | None => other s
  end.

End JsDate.

Definition Date : Type := JsDate.Date.

(* ===================================================================== *)
(** ** The world: the remote provider and the clock *)
(* ===================================================================== *)

(** A turn in the provider's format, [{ role, parts: [{ text }] }]. *)
Record GeminiTurn : Type := MkGeminiTurn {
  turnRole : string;
  turnParts : list string
}.

(** The two entry points of the provider's SDK that the service uses:
    [model.startChat({ history }).sendMessage(prompt)] and
    [model.generateContent(prompt)]. *)
Inductive SdkCall : Type :=
| SendMessage (history : list GeminiTurn) (prompt : string)
| GenerateContent (prompt : string).

(** The world records the calls made to the provider, in order, and the
    clock in milliseconds. *)
Record World : Type := MkWorld {
  calls : list SdkCall;
  clock : Z
}.

Definition Eff (A : Type) : Type := SE World A.

(** [new Date()]. *)
Definition now (w : World) : Date := JsDate.TimeClip (clock w).

(** The provider: what a call returns (or throws) in a given world, and the
    time the call takes. *)
Definition Provider : Type := World -> SdkCall -> JsResult string * Z.

Definition callSdk (provider : Provider) (call : SdkCall) : Eff string :=
  fun w =>
    let '(r, elapsed) := provider w call in
    (r, {| calls := calls w ++ [call]; clock := clock w + elapsed |}).

(* ===================================================================== *)
(** ** shared/types *)
(* ===================================================================== *)

Inductive AgentPersona : Type := EXPLAINER | EXAMPLE_PROVIDER.

Inductive MessageRole : Type := USER | ASSISTANT | SYSTEM.

Definition AgentPersona_value (p : AgentPersona) : string :=
  match p with
  | EXPLAINER => "explainer"
  | EXAMPLE_PROVIDER => "example_provider"
  end.

Definition MessageRole_value (r : MessageRole) : string :=
  match r with
  | USER => "user"
  | ASSISTANT => "assistant"
  | SYSTEM => "system"
  end.

(** A message as it travels in requests and in JSON.  The [timestamp] is a
    string, a [Date], or missing, as [Message.fromJSON] accepts it. *)
Record MessageData : Type := MkMessageData {
  dataRole : MessageRole;
  dataContent : string;
  dataTimestamp : option (string + Date);
  dataAgentPersona : option AgentPersona
}.

Record ChatRequest : Type := MkChatRequest {
  reqMessage : string;
  conversationHistory : option (list MessageData);
  reqSubject : option string;
  reqTopic : option string
}.

Record ChatResponse : Type := MkChatResponse {
  respMessage : string;
  respAgentPersona : AgentPersona;
  respTimestamp : Date
}.

(* ===================================================================== *)
(** ** entities/Message.ts *)
(* ===================================================================== *)

Module Message.

Record t : Type := Mk {
  role : MessageRole;
  content : string;
  timestamp : Date;
  agentPersona : option AgentPersona
}.

(** The object [toJSON] returns. *)
Record JSON : Type := MkJSON {
  jsonRole : MessageRole;
  jsonContent : string;
  jsonTimestamp : string;
  jsonAgentPersona : option AgentPersona
}.

Definition maxLength : Z := 10000.

(** [validateContent]: the first test is [!content]; the [typeof] test
    cannot fail on a string. *)
Definition validateContent (content : string) : JsResult unit :=
  if negb (Js.truthy content) then
    inl (ThrownError (MkError ErrorC "Message content must be a non-empty string" None))
  else
    let trimmed := Js.trim content in
    if Js.length trimmed =? 0 then
      inl (ThrownError (MkError ErrorC "Message content cannot be empty" None))
    else if Js.length trimmed >? maxLength then
      inl (ThrownError (MkError ErrorC
             ("Message content exceeds maximum length of " ++ Js.ofZ maxLength ++ " characters")
             None))
    else inr tt.

(** The constructor.  The default of [timestamp], [new Date()], is
    supplied by the caller. *)
Definition new (role : MessageRole) (content : string) (timestamp : Date)
    (agentPersona : option AgentPersona) : JsResult t :=
  andThen (validateContent content) (fun _ =>
    inr {| role := role;
           content := Js.trim content;
           timestamp := timestamp;
           agentPersona := agentPersona |}).

(** [toJSON]: [agentPersona] is spread only when set (a persona is a
    non-empty string, hence truthy). *)
Definition toJSON (self : t) : JsResult JSON :=
  andThen (JsDate.toISOString (timestamp self)) (fun iso =>
    inr {| jsonRole := role self;
           jsonContent := content self;
           jsonTimestamp := iso;
           jsonAgentPersona := agentPersona self |}).

(** The JSON object seen as the argument of [fromJSON]. *)
Definition dataOfJSON (j : JSON) : MessageData :=
  {| dataRole := jsonRole j;
     dataContent := jsonContent j;
     dataTimestamp := Some (inl (jsonTimestamp j));
     dataAgentPersona := jsonAgentPersona j |}.

(** [fromJSON]: a missing or empty-string timestamp is falsy and gives
    [new Date()]; a string goes through [new Date(s)]. *)
Definition fromJSON (other : string -> Date) (current : Date) (data : MessageData)
  : JsResult t :=
  let timestamp :=
    match dataTimestamp data with
    | Some (inl s) => if Js.truthy s then JsDate.ofString other s else current
    | Some (inr d) => d
    | None => current
    end in
  new (dataRole data) (dataContent data) timestamp (dataAgentPersona data).

End Message.

(* ===================================================================== *)
(** ** entities/Conversation.ts *)
(* ===================================================================== *)

(** [Array.prototype.slice(start)] for an integer [start]: a negative
    [start] counts from the end. *)
Definition Array_slice_from {A} (start : Z) (l : list A) : list A :=
  let len := Z.of_nat (List.length l) in
  let k := if start <? 0 then Z.max (len + start) 0 else Z.min start len in
  skipn (Z.to_nat k) l.

(** [Array.prototype.map] with a callback that may throw: the elements
    are visited in order and the first exception ends the traversal. *)
Fixpoint Array_mapThrowing {A B} (f : A -> JsResult B) (l : list A) : JsResult (list B) :=
  match l with
  | [] => inr []
  | x :: r =>
      andThen (f x) (fun y =>
      andThen (Array_mapThrowing f r) (fun ys => inr (y :: ys)))
  end.

Module Conversation.

Record t : Type := Mk {
  messages : list Message.t;
  subject : option string;
  topic : option string;
  userId : option string;
  createdAt : Date;
  updatedAt : Date
}.

(** A method of the object: it reads and updates [this]. *)
Definition Method (A : Type) : Type := SE t A.

(** The constructor copies the initial messages. *)
Definition new (messages : list Message.t) (subject topic userId : option string)
    (current : Date) : t :=
  {| messages := messages;
     subject := subject;
     topic := topic;
     userId := userId;
     createdAt := current;
     updatedAt := current |}.

Definition maxHistory : Z := 100.

Definition validateMessageAddition (message : Message.t) : Method unit :=
  fun self =>
    if Z.of_nat (List.length (messages self)) >=? maxHistory then
      throw (MkError ErrorC
               ("Conversation history limit of " ++ Js.ofZ maxHistory ++ " messages reached")
               None) self
    else ret tt self.

Definition push (message : Message.t) (self : t) : t :=
  {| messages := (messages self ++ [message])%list;
     subject := subject self;
     topic := topic self;
     userId := userId self;
     createdAt := createdAt self;
     updatedAt := updatedAt self |}.

Definition touch (current : Date) (self : t) : t :=
  {| messages := messages self;
     subject := subject self;
     topic := topic self;
     userId := userId self;
     createdAt := createdAt self;
     updatedAt := current |}.

(** [addMessage]; [current] is the [new Date()] of its last statement. *)
Definition addMessage (message : Message.t) (current : Date) : Method unit :=
  (validateMessageAddition message ;;;
   modify (push message) ;;;
   modify (touch current))%se.

(** A client calling [addMessage] repeatedly on the same object,
    catching what it throws. *)
Definition addAll (l : list (Message.t * Date)) (self : t) : t :=
  fold_left (fun self md => snd (addMessage (fst md) (snd md) self)) l self.

(** [getRecentMessages(count)] is [this._messages.slice(-count)]. *)
Definition getRecentMessages (count : Z) (self : t) : list Message.t :=
  Array_slice_from (- count) (messages self).

Definition getGeminiFormat (self : t) : list GeminiTurn :=
  map (fun msg =>
         {| turnRole := match Message.role msg with USER => "user" | _ => "model" end;
            turnParts := [Message.content msg] |})
      (messages self).

(** The object [toJSON] returns. *)
Record JSON : Type := MkJSON {
  jsonMessages : list Message.JSON;
  jsonSubject : option string;
  jsonTopic : option string;
  jsonUserId : option string;
  jsonCreatedAt : string;
  jsonUpdatedAt : string
}.

(** [...(field && { field })]: the key is present when the field is set
    and is not the empty string. *)
Definition spread (field : option string) : option string :=
  match field with
  | Some value => if Js.truthy value then Some value else None
  | None => None
  end.

(** [toJSON]: the properties are evaluated in the order of the object
    literal, the messages first, then the two dates. *)
Definition toJSON (self : t) : JsResult JSON :=
  andThen (Array_mapThrowing Message.toJSON (messages self)) (fun jsonMessages =>
  andThen (JsDate.toISOString (createdAt self)) (fun jsonCreatedAt =>
  andThen (JsDate.toISOString (updatedAt self)) (fun jsonUpdatedAt =>
    inr {| jsonMessages := jsonMessages;
           jsonSubject := spread (subject self);
           jsonTopic := spread (topic self);
           jsonUserId := spread (userId self);
           jsonCreatedAt := jsonCreatedAt;
           jsonUpdatedAt := jsonUpdatedAt |}))).

End Conversation.

(* ===================================================================== *)
(** ** adapters/interfaces/IGeminiService.ts *)
(* ===================================================================== *)

Class IGeminiService : Type := {
  generateResponse : string -> list GeminiTurn -> Eff string
}.

(* ===================================================================== *)
(** ** frameworks/gemini/GeminiService.ts *)
(* ===================================================================== *)

Module GeminiService.

Definition maxRetries : Z := 3.
Definition retryDelay : Z := 1000.

Definition nonRetryablePatterns : list string :=
  ["api key"; "authentication"; "unauthorized"; "quota"; "billing"; "invalid"].

(** [isNonRetryableError]: [false] on a value that is not an [Error]. *)
Definition isNonRetryableError (error : Thrown) : bool :=
  match error with
  | ThrownValue _ => false
  | ThrownError e =>
      let message := Js.toLowerCase (errMessage e) in
      existsb (fun pattern => Js.includes message pattern) nonRetryablePatterns
  end.

(** [delay(ms)]: the clock advances by [ms]. *)
Definition delay (ms : Z) : Eff unit :=
  modify (fun w => {| calls := calls w; clock := clock w + ms |}).

(** The body of the [try] block: a chat session when there is a
    history, a single prompt otherwise. *)
Definition attemptCall (provider : Provider) (prompt : string)
    (history : list GeminiTurn) : Eff string :=
  if Z.of_nat (List.length history) >? 0
  then callSdk provider (SendMessage history prompt)
  else callSdk provider (GenerateContent prompt).

(** [lastError?.message || 'Unknown error']. *)
Definition lastMessage (lastError : option JsError) : string :=
  match lastError with
  | Some e => if Js.truthy (errMessage e) then errMessage e else "Unknown error"
  | None => "Unknown error"
  end.

(** The [for] loop from [attempt] on, with [remaining] iterations to go
    ([remaining = maxRetries - attempt + 1]), followed by the final
    [throw]. *)
Fixpoint retryLoop (provider : Provider) (prompt : string) (history : list GeminiTurn)
    (remaining : nat) (attempt : Z) (lastError : option JsError) : Eff string :=
  match remaining with
  | O =>
      throw (AppError.GeminiApiError
               ("Failed to generate response after " ++ Js.ofZ maxRetries
                ++ " attempts: " ++ lastMessage lastError)
               lastError)
  | S remaining' =>
      (* [inr text]: the [return text] of the [try] block; [inl lastError]:
         the [catch] block fell through to the next iteration *)
      (outcome <-
         tryCatch
           (text <- attemptCall provider prompt history ;;
            ret (inr text))
           (fun error =>
              let lastError := asError error in
              if isNonRetryableError error then
                throw (AppError.GeminiApiError
                         ("Non-retryable error: " ++ errMessage lastError)
                         (Some lastError))
              else
                (if attempt <? maxRetries
                 then delay (retryDelay * attempt)
                 else ret tt) ;;;
                ret (inl lastError)) ;;
       match outcome with
       | inr text => ret text
       | inl lastError =>
           retryLoop provider prompt history remaining' (attempt + 1) (Some lastError)
       end)%se
  end.

Definition generateResponse (provider : Provider) (prompt : string)
    (history : list GeminiTurn) : Eff string :=
  retryLoop provider prompt history (Z.to_nat maxRetries) 1 None.

End GeminiService.

(** [class GeminiService implements IGeminiService]. *)
#[global] Instance GeminiService_implements (provider : Provider) : IGeminiService :=
  Build_IGeminiService (GeminiService.generateResponse provider).

(* ===================================================================== *)
(** ** usecases/ChatUseCase.ts *)
(* ===================================================================== *)

Module ChatUseCase.

Section WithService.

(** The service given to the constructor, and what the engine makes of
    a timestamp string outside the complete date-time form. *)
Context (geminiService : IGeminiService).
Variable other : string -> Date.

(** [validateRequest]: the request is an object and its message a
    string by their types, which leaves the [!request.message] test. *)
Definition validateRequest (request : ChatRequest) : JsResult unit :=
  if negb (Js.truthy (reqMessage request)) then
    inl (ThrownError (AppError.ValidationError
           "Invalid request: message is required and must be a string"))
  else
    let trimmedMessage := Js.trim (reqMessage request) in
    if Js.length trimmedMessage =? 0 then
      inl (ThrownError (AppError.ValidationError
             "Invalid request: message cannot be empty"))
    else if Js.length trimmedMessage >? 5000 then
      inl (ThrownError (AppError.ValidationError
             "Invalid request: message exceeds maximum length of 5000 characters"))
    else inr tt.

(** [Array.prototype.map] with a callback that may throw: the first
    exception ends the traversal. *)
Fixpoint mapResult {A B} (f : A -> JsResult B) (l : list A) : JsResult (list B) :=
  match l with
  | [] => inr []
  | x :: r =>
      andThen (f x) (fun y =>
      andThen (mapResult f r) (fun ys => inr (y :: ys)))
  end.

Definition createConversation (request : ChatRequest) : Eff Conversation.t :=
  fun w =>
    let messages :=
      match conversationHistory request with
      | Some history =>
          mapResult (fun msg =>
                       Message.fromJSON other (now w)
                         {| dataRole := dataRole msg;
                            dataContent := dataContent msg;
                            dataTimestamp := dataTimestamp msg;
                            dataAgentPersona := dataAgentPersona msg |})
                    history
      | None => inr []
      end in
    (andThen messages (fun messages =>
       inr (Conversation.new messages (reqSubject request) (reqTopic request) None (now w))),
     w).

Definition systemPrompt (persona : AgentPersona) : string :=
  match persona with
  | EXPLAINER =>
      "You are an expert teacher who explains concepts clearly and concisely. Focus on breaking down complex ideas into understandable parts."
  | EXAMPLE_PROVIDER =>
      "You are a practical teacher who provides real-world examples and applications. Focus on giving concrete examples that illustrate the concepts being discussed."
  end.

Definition newline : string := String (ascii_of_N 10) EmptyString.

(** The prompt of [generateAgentResponse]; reading [content] of the
    last message throws a [TypeError] when there is no message. *)
Definition buildPrompt (conversation : Conversation.t) (systemPrompt : string)
  : JsResult string :=
  match last (map Some (Conversation.messages conversation)) None with
  | Some m =>
      inr (systemPrompt ++ newline ++ newline ++ "User's question: " ++ Message.content m)
  | None =>
      inl (ThrownError (MkError TypeErrorC
             "Cannot read properties of undefined (reading 'content')" None))
  end.

Definition generateAgentResponse (conversation : Conversation.t)
    (persona : AgentPersona) (systemPrompt : string) : Eff ChatResponse :=
  tryCatch
    (let history := Conversation.getGeminiFormat conversation in
     prompt <- lift (buildPrompt conversation systemPrompt) ;;
     (* [history.slice(0, -1)]: all but the last turn *)
     responseText <- generateResponse prompt (removelast history) ;;
     w <- get ;;
     ret {| respMessage := responseText;
            respAgentPersona := persona;
            respTimestamp := now w |})%se
    (fun error =>
       throw (AppError.GeminiApiError
                ("Failed to generate response from " ++ AgentPersona_value persona ++ " agent")
                (Some (asError error)))).

(** One of the two [try { ... responses.push(...) } catch { }] blocks. *)
Definition tryAgent (conversation : Conversation.t) (persona : AgentPersona)
    (responses : list ChatResponse) : Eff (list ChatResponse) :=
  tryCatch
    (response <- generateAgentResponse conversation persona (systemPrompt persona) ;;
     ret (responses ++ [response])%list)%se
    (fun _ => ret responses).

Definition generateAgentResponses (conversation : Conversation.t)
  : Eff (list ChatResponse) :=
  (let responses := [] in
   responses <- tryAgent conversation EXPLAINER responses ;;
   responses <- tryAgent conversation EXAMPLE_PROVIDER responses ;;
   if Z.of_nat (List.length responses) =? 0 then
     throw (AppError.GeminiApiError "Failed to generate responses from all agents" None)
   else ret responses)%se.

(** Runs a method on a conversation held in a local variable and gives
    the object back after the call. *)
Definition invoke {A} (m : Conversation.Method A) (conversation : Conversation.t)
  : Eff (A * Conversation.t) :=
  fun w =>
    match m conversation with
    | (inl t, _) => (inl t, w)
    | (inr a, conversation') => (inr (a, conversation'), w)
    end.

(** The [try] block of [execute]. *)
Definition executeBody (request : ChatRequest) : Eff (list ChatResponse) :=
  (lift (validateRequest request) ;;;
   conversation <- createConversation request ;;
   w <- get ;;
   userMessage <- lift (Message.new USER (reqMessage request) (now w) None) ;;
   w <- get ;;
   r <- invoke (Conversation.addMessage userMessage (now w)) conversation ;;
   let conversation := snd r in
   responses <- generateAgentResponses conversation ;;
   ret responses)%se.

Definition execute (request : ChatRequest) : Eff (list ChatResponse) :=
  tryCatch
    (executeBody request)
    (fun error =>
       if isValidationError error || isGeminiApiError error then
         rethrow error
       else
         throw (AppError.GeminiApiError "Failed to process chat request"
                  (Some (asError error)))).

End WithService.

End ChatUseCase.

(* ===================================================================== *)
(** ** The legacy combined-call path: agentLogic.js and server.js *)
(* ===================================================================== *)

Module AgentLogic.

(** The capture of a lazy [([\s\S]*?)] followed by the literal [stop]:
    the shortest prefix of [s] after which [stop] occurs. *)
Fixpoint lazyUntil (stop : string) (s : string) : option string :=
  if Js.startsWith stop s then Some EmptyString
  else
    match s with
    | EmptyString => None
    | String c r =>
        match lazyUntil stop r with
        | Some capture => Some (String c capture)
        | None => None
        end
    end.

(** [s.match(/<start>([\s\S]*?)<stop>/)]: the first group of the
    leftmost match, [None] for [null]. *)
Fixpoint matchLazy (start stop : string) (s : string) : option string :=
  match
    (if Js.startsWith start s
     then lazyUntil stop (Js.drop (String.length start) s)
     else None)
  with
  | Some capture => Some capture
  | None =>
      match s with
      | EmptyString => None
      | String _ r => matchLazy start stop r
      end
  end.

(** [s.match] on the pattern made of the literal [start] and a greedy
    group of any characters: the group takes the rest of the string
    after the leftmost [start]. *)
Fixpoint matchGreedy (start : string) (s : string) : option string :=
  if Js.startsWith start s then Some (Js.drop (String.length start) s)
  else
    match s with
    | EmptyString => None
    | String _ r => matchGreedy start r
    end.

Record Responses : Type := MkResponses {
  explainerResponse : string;
  exampleResponse : string
}.

(** [if (m && m[1]) { field = m[1].trim(); }] over a default. *)
Definition orDefault (default : string) (m : option string) : string :=
  match m with
  | Some capture => if Js.truthy capture then Js.trim capture else default
  | None => default
  end.

Definition newline : string := String (ascii_of_N 10) EmptyString.

Definition explainerFallback : string :=
  "I'm sorry, I couldn't generate a clear explanation for that topic right now. Please try rephrasing your question.".

Definition exampleFallback : string :=
  "I'm sorry, I couldn't generate a suitable example for that topic right now.".

(** The parsing steps of [orchestrateAgents] in agentLogic.js: a lazy
    group between ["Explainer: "] and a newline followed by ["Example:"],
    and a greedy group after ["Example: "]. *)
Definition parse (combinedGeminiResponse : string) : Responses :=
  let explainerMatch :=
    matchLazy "Explainer: " (newline ++ "Example:") combinedGeminiResponse in
  let exampleMatch := matchGreedy "Example: " combinedGeminiResponse in
  {| explainerResponse := orDefault explainerFallback explainerMatch;
     exampleResponse := orDefault exampleFallback exampleMatch |}.

(** The placeholder [orchestrateAgents] of server.js: a lazy group
    between ["Explanation: "] and ["Example:"], and a greedy group after
    ["Example: "], both with the [s] flag. *)
Definition parsePlaceholder (fullText : string) : Responses :=
  let explanationMatch := matchLazy "Explanation: " "Example:" fullText in
  let exampleMatch := matchGreedy "Example: " fullText in
  {| explainerResponse :=
       orDefault "I'm having trouble explaining that right now." explanationMatch;
     exampleResponse :=
       orDefault "I don't have an example for that at the moment." exampleMatch |}.

End AgentLogic.

(* ===================================================================== *)
(** ** frameworks/express: the error handler and the chat route *)
(* ===================================================================== *)

Module ErrorHandler.

(** The values of the [ErrorCode] enumeration. *)
Definition ErrorCode_value (code : AppError.ErrorCode) : string :=
  match code with
  | AppError.VALIDATION_ERROR => "VALIDATION_ERROR"
  | AppError.RATE_LIMIT_EXCEEDED => "RATE_LIMIT_EXCEEDED"
  | AppError.GEMINI_API_ERROR => "GEMINI_API_ERROR"
  | AppError.INTERNAL_ERROR => "INTERNAL_ERROR"
  | AppError.UNAUTHORIZED => "UNAUTHORIZED"
  | AppError.NOT_FOUND => "NOT_FOUND"
  end.

Record ErrorResponse : Type := MkErrorResponse {
  error : string;
  message : string;
  timestamp : Date
}.

(** What [res.status(...).json(...)] sends. *)
Inductive Body : Type :=
| SuccessBody (success : bool) (responses : list ChatResponse)
| ErrorBody (response : ErrorResponse).

Record HttpResponse : Type := MkHttpResponse {
  status : Z;
  body : Body
}.

(** [process.env.NODE_ENV === 'production']. *)
Definition isProduction (nodeEnv : option string) : bool :=
  match nodeEnv with
  | Some value => String.eqb value "production"
  | None => false
  end.

(** [errorHandler]: an [AppError] (an error of a class with a status code)
    gives its own status, code and message; any other error gives 500 and
    [INTERNAL_ERROR], with its message hidden in production. *)
Definition errorHandler (nodeEnv : option string) (error : JsError) (w : World)
  : HttpResponse :=
  match AppError.statusCode (errClass error), AppError.code (errClass error) with
  | Some statusCode, Some code =>
      {| status := statusCode;
         body := ErrorBody {| error := ErrorCode_value code;
                              message := errMessage error;
                              timestamp := now w |} |}
  | _, _ =>
      {| status := 500;
         body := ErrorBody {| error := "INTERNAL_ERROR";
                              message := if isProduction nodeEnv
                                         then "An internal server error occurred"
                                         else errMessage error;
                              timestamp := now w |} |}
  end.

End ErrorHandler.

Module ChatRoutes.

(** The handler of [POST /api/chat] behind [asyncHandler], followed by the
    error handler of the application: the request is built from the body,
    [execute] is awaited, and a rejection goes to [errorHandler].  The
    validation middleware in front of the handler is not part of this
    model.  The result is [None] when what was thrown is not an [Error],
    a case [errorHandler] is not declared for. *)
Definition postChat (geminiService : IGeminiService) (other : string -> Date)
    (nodeEnv : option string) (body : ChatRequest)
  : World -> option ErrorHandler.HttpResponse * World :=
  fun w =>
    let request :=
      {| reqMessage := reqMessage body;
         conversationHistory := conversationHistory body;
         reqSubject := reqSubject body;
         reqTopic := reqTopic body |} in
    match ChatUseCase.execute geminiService other request w with
    | (inr responses, w') =>
        (Some {| ErrorHandler.status := 200;
                 ErrorHandler.body := ErrorHandler.SuccessBody true responses |}, w')
    | (inl (ThrownError error), w') =>
        (Some (ErrorHandler.errorHandler nodeEnv error w'), w')
    | (inl (ThrownValue _), w') => (None, w')
    end.

End ChatRoutes.

(* ===================================================================== *)
(** ** frontend: components/ChatInterface.ts *)
(* ===================================================================== *)

Module ChatInterface.

Inductive Role : Type := user | assistant.

(** The [ChatMessage] of the frontend types. *)
Record ChatMessage : Type := MkChatMessage {
  role : Role;
  content : string;
  timestamp : Date;
  agentPersona : option AgentPersona
}.

(** The fields of the component that the handlers read and write; the
    DOM elements are left out, but for the value of the input. *)
Record State : Type := MkState {
  conversationHistory : list ChatMessage;
  isProcessing : bool;
  inputValue : string
}.

(** The request handed to [chatApi.sendMessage]. *)
Record Request : Type := MkRequest {
  requestMessage : string;
  requestHistory : list ChatMessage
}.

(** [addMessage], as far as the history goes: push, then keep the last
    50 messages. *)
Definition addMessage (message : ChatMessage) (history : list ChatMessage)
  : list ChatMessage :=
  let history := (history ++ [message])%list in
  if Z.of_nat (List.length history) >? 50
  then Array_slice_from (- 50) history
  else history.

(** [handleSendMessage] up to the call of the API: nothing happens on a
    blank input or while a request is in flight; otherwise the user's
    message is added, the input cleared, the processing flag set, and the
    request built from the text and the history of the component. *)
Definition beginSend (current : Date) (st : State) : State * option Request :=
  let messageText := Js.trim (inputValue st) in
  if negb (Js.truthy messageText) || isProcessing st then (st, None)
  else
    let userMessage :=
      {| role := user; content := messageText; timestamp := current;
         agentPersona := None |} in
    let history := addMessage userMessage (conversationHistory st) in
    ({| conversationHistory := history; isProcessing := true; inputValue := EmptyString |},
     Some {| requestMessage := messageText; requestHistory := history |}).

(** The [for] loop over the responses of a successful call, then the
    [finally] block. *)
Definition receive (timestampOf : ChatResponse -> Date) (responses : list ChatResponse)
    (st : State) : State :=
  {| conversationHistory :=
       fold_left
         (fun history agentResponse =>
            addMessage {| role := assistant;
                          content := respMessage agentResponse;
                          timestamp := timestampOf agentResponse;
                          agentPersona := Some (respAgentPersona agentResponse) |}
                       history)
         responses (conversationHistory st);
     isProcessing := false;
     inputValue := inputValue st |}.

(** The [catch] and [finally] blocks of a failed call. *)
Definition fail (st : State) : State :=
  {| conversationHistory := conversationHistory st;
     isProcessing := false;
     inputValue := inputValue st |}.

End ChatInterface.

(* ===================================================================== *)
(** ** Vocabulary of the statements and sample data *)
(* ===================================================================== *)

(** The number of messages of a conversation. *)
Definition size (self : Conversation.t) : Z :=
  Z.of_nat (List.length (Conversation.messages self)).

Definition sampleMessage (text : string) : Message.t :=
  Message.Mk USER text (JsDate.Valid 0) None.

Definition sampleConversation (n : nat) : Conversation.t :=
  Conversation.new (List.repeat (sampleMessage "hello") n) None None None (JsDate.Valid 0).

(** The prompt [generateAgentResponse] builds for a persona and a request:
    the persona's instructions, a blank line, and the trimmed message. *)
Definition promptFor (persona : AgentPersona) (request : ChatRequest) : string :=
  ChatUseCase.systemPrompt persona ++ ChatUseCase.newline ++ ChatUseCase.newline
  ++ "User's question: " ++ Js.trim (reqMessage request).

(** The conversation after [execute] has added the user's message at the
    instant [current]. *)
Definition withUserMessage (request : ChatRequest) (current : Date)
    (conversation : Conversation.t) : Conversation.t :=
  Conversation.touch current
    (Conversation.push (Message.Mk USER (Js.trim (reqMessage request)) current None)
       conversation).

(** The trimmed length of the message of a request. *)
Definition trimmedLength (request : ChatRequest) : Z :=
  Js.length (Js.trim (reqMessage request)).

(** A provider for the examples: a call whose prompt contains one of the
    [failing] texts throws an [Error] with the given message, every other
    call answers ["An answer."]; each call takes 10 ms. *)
Definition sampleProvider (failing : list string) (message : string) : Provider :=
  fun _ call =>
    let prompt :=
      match call with
      | SendMessage _ prompt => prompt
      | GenerateContent prompt => prompt
      end in
    if existsb (fun text => Js.includes prompt text) failing
    then (inl (ThrownError (MkError ErrorC message None)), 10)
    else (inr "An answer.", 10).

Definition sampleWorld : World := {| calls := []; clock := 1704067200000 |}.

Definition sampleRequest (message : string) (history : option (list MessageData))
  : ChatRequest :=
  {| reqMessage := message;
     conversationHistory := history;
     reqSubject := None;
     reqTopic := None |}.

(** An engine that makes an Invalid Date of every string outside the
    complete date-time form. *)
Definition strictEngine : string -> Date := fun _ => JsDate.Invalid.

Definition sampleHistory : list MessageData :=
  [MkMessageData ASSISTANT "Welcome!" (Some (inl "2024-01-01T00:00:00.000Z")) (Some EXPLAINER)].

(** The service of the application over a sample provider. *)
Definition sampleService (failing : list string) : IGeminiService :=
  GeminiService_implements (sampleProvider failing "fetch failed").

(** The call [generateResponse] makes to the provider at each attempt. *)
Definition sdkCallFor (prompt : string) (history : list GeminiTurn) : SdkCall :=
  match history with
  | [] => GenerateContent prompt
  | _ :: _ => SendMessage history prompt
  end.

(** The world after a call that took [elapsed] ms, and after a delay. *)
Definition afterCall (call : SdkCall) (elapsed : Z) (w : World) : World :=
  {| calls := calls w ++ [call]; clock := clock w + elapsed |}.

Definition afterDelay (ms : Z) (w : World) : World :=
  {| calls := calls w; clock := clock w + ms |}.

(** The first groups of the two [match] calls of [AgentLogic.parse]. *)
Definition explainerCapture (raw : string) : option string :=
  AgentLogic.matchLazy "Explainer: " (AgentLogic.newline ++ "Example:") raw.

Definition exampleCapture (raw : string) : option string :=
  AgentLogic.matchGreedy "Example: " raw.

(** [allBelow bits lo f]: [f] holds on every integer from [lo] up to
    [lo + 2 ^ bits], excluded. *)
Fixpoint allBelow (bits : nat) (lo : Z) (f : Z -> bool) : bool :=
  match bits with
  | O => f lo
  | S b => allBelow b lo f && allBelow b (lo + 2 ^ Z.of_nat b) f
  end.

(** The check of one day of a 400-year era: the calendar fields are in
    range and [daysFromCivil] gives the day back. *)
Definition eraCheck (doe : Z) : bool :=
  (146097 <=? doe)
  || let '(y, m, d) := JsDate.civilOfDayOfEra doe in
     (0 <=? y) && (y <=? 400) && (1 <=? m) && (m <=? 12)
     && (1 <=? d) && (d <=? JsDate.daysInMonth y m)
     && (JsDate.daysFromCivil y m d =? doe - 719468).

(** The turn of the provider's format that a message becomes. *)
Definition turnOf (m : Message.t) : GeminiTurn :=
  {| turnRole := match Message.role m with USER => "user" | _ => "model" end;
     turnParts := [Message.content m] |}.

(** A message as the constructor builds them, with a valid timestamp. *)
Definition constructed (m : Message.t) : Prop :=
  exists role content time persona,
    Message.new role content (JsDate.Valid time) persona = inr m
    /\ Z.abs time <= JsDate.maxTime.

(** A date that holds a time value. *)
Definition validDate (d : Date) : Prop :=
  exists time, d = JsDate.Valid time /\ Z.abs time <= JsDate.maxTime.

(** The request that restores a serialized conversation. *)
Definition requestOfJSON (message : string) (j : Conversation.JSON) : ChatRequest :=
  {| reqMessage := message;
     conversationHistory := Some (map Message.dataOfJSON (Conversation.jsonMessages j));
     reqSubject := Conversation.jsonSubject j;
     reqTopic := Conversation.jsonTopic j |}.

(** A provider for the examples that follows a script: its n-th call (in
    the order of the world's record) gives the n-th outcome of the script,
    and ["An answer."] once the script is over; each call takes 10 ms. *)
Definition scriptedProvider (script : list (JsResult string)) : Provider :=
  fun w _ => (nth (List.length (calls w)) script (inr "An answer."), 10).

Definition failure (message : string) : JsResult string :=
  inl (ThrownError (MkError ErrorC message None)).

(** A history entry whose content the [Message] constructor accepts. *)
Definition validEntry (d : MessageData) : Prop :=
  1 <= Js.length (Js.trim (dataContent d)) <= 10000.

(** A message restored from a history entry: same role and persona, the
    content trimmed. *)
Definition restoredFrom (d : MessageData) (m : Message.t) : Prop :=
  Message.role m = dataRole d
  /\ Message.content m = Js.trim (dataContent d)
  /\ Message.agentPersona m = dataAgentPersona d.

(** A provider that fails at every call with an error that may be
    retried, and one that answers every call. *)
Definition alwaysFailing (provider : Provider) : Prop :=
  forall w call, exists error elapsed,
    provider w call = (inl error, elapsed)
    /\ GeminiService.isNonRetryableError error = false.

Definition alwaysAnswering (provider : Provider) : Prop :=
  forall w call, exists text elapsed, provider w call = (inr text, elapsed).

(** The five messages an error response of the chat route can carry. *)
Definition routeErrorMessages : list string :=
  ["Invalid request: message is required and must be a string";
   "Invalid request: message cannot be empty";
   "Invalid request: message exceeds maximum length of 5000 characters";
   "Gemini API Error: Failed to generate responses from all agents";
   "Gemini API Error: Failed to process chat request"].

(** A provider that is down, and one that answers every call. *)
Definition downProvider (message : string) : Provider :=
  fun _ _ => (failure message, 10).

Definition answeringProvider (text : string) : Provider :=
  fun _ _ => (inr text, 10).

(** The world after the six calls of a request ["Why?"] without history
    to a provider that is down, and the response of the route. *)
Definition worldAfterSixCalls : World :=
  {| calls :=
       (List.repeat (GenerateContent (promptFor EXPLAINER (sampleRequest "Why?" None))) 3
        ++ List.repeat
             (GenerateContent (promptFor EXAMPLE_PROVIDER (sampleRequest "Why?" None))) 3)%list;
     clock := 1704067206060 |}.

Definition allAgentsFailed : ErrorHandler.ErrorResponse :=
  {| ErrorHandler.error := "GEMINI_API_ERROR";
     ErrorHandler.message := "Gemini API Error: Failed to generate responses from all agents";
     ErrorHandler.timestamp := JsDate.Valid 1704067206060 |}.

(** The last 50 elements of a list, all of them when there are fewer. *)
Definition last50 {A} (l : list A) : list A := skipn (List.length l - 50) l.

(** The message of the assistant that the frontend makes of a response. *)
Definition assistantMessage (timestampOf : ChatResponse -> Date) (r : ChatResponse)
  : ChatInterface.ChatMessage :=
  {| ChatInterface.role := ChatInterface.assistant;
     ChatInterface.content := respMessage r;
     ChatInterface.timestamp := timestampOf r;
     ChatInterface.agentPersona := Some (respAgentPersona r) |}.

(* ===================================================================== *)
(** * Properties *)
(* ===================================================================== *)

(** ** Strings *)

Section StringFacts.

Lemma length_nonneg (s : string) : 0 <= Js.length s.
Proof. unfold Js.length. lia. Qed.

Lemma length_zero_iff (s : string) : Js.length s = 0 <-> s = EmptyString.
Proof.
  unfold Js.length. destruct s as [|c r]; split; intro H;
    try reflexivity; discriminate.
Qed.

Lemma truthy_false_iff (s : string) : Js.truthy s = false <-> s = EmptyString.
Proof. destruct s; simpl; split; congruence. Qed.

Lemma trimStart_head (s : string) :
  match Js.trimStart s with
  | EmptyString => True
  | String c _ => Js.isWhiteSpace c = false
  end.
Proof.
  induction s as [|c r IH]; simpl; [exact I|].
  destruct (Js.isWhiteSpace c) eqn:E; [exact IH | exact E].
Qed.

Lemma trimStart_fixed (c : ascii) (r : string) :
  Js.isWhiteSpace c = false -> Js.trimStart (String c r) = String c r.
Proof. intros E. simpl. now rewrite E. Qed.

(** [trimEnd] keeps a first character that is not white space. *)
Lemma trimEnd_head (c : ascii) (r : string) :
  Js.isWhiteSpace c = false ->
  exists r', Js.trimEnd (String c r) = String c r'.
Proof.
  intros E. simpl. destruct (Js.trimEnd r).
  - rewrite E. now exists EmptyString.
  - eexists. reflexivity.
Qed.

Lemma trimEnd_idempotent (s : string) : Js.trimEnd (Js.trimEnd s) = Js.trimEnd s.
Proof.
  induction s as [|c r IH]; simpl; [reflexivity|].
  destruct (Js.trimEnd r) as [|c' r'] eqn:E.
  - destruct (Js.isWhiteSpace c) eqn:W; simpl; [reflexivity | now rewrite W].
  - simpl in IH |- *. simpl. rewrite IH. reflexivity.
Qed.

Lemma trim_idempotent (s : string) : Js.trim (Js.trim s) = Js.trim s.
Proof.
  unfold Js.trim.
  pose proof (trimStart_head s) as H.
  destruct (Js.trimStart s) as [|c r] eqn:E; [reflexivity|].
  destruct (trimEnd_head c r H) as [r' Hr']. rewrite Hr'.
  rewrite trimStart_fixed by exact H.
  rewrite <- Hr'. apply trimEnd_idempotent.
Qed.

Lemma trimStart_length (s : string) : Js.length (Js.trimStart s) <= Js.length s.
Proof.
  unfold Js.length. induction s as [|c r IH]; simpl; [lia|].
  destruct (Js.isWhiteSpace c); simpl; lia.
Qed.

Lemma trimEnd_length (s : string) : Js.length (Js.trimEnd s) <= Js.length s.
Proof.
  unfold Js.length. induction s as [|c r IH]; simpl; [lia|].
  destruct (Js.trimEnd r); [destruct (Js.isWhiteSpace c)|]; simpl in *; lia.
Qed.

Lemma trim_length (s : string) : Js.length (Js.trim s) <= Js.length s.
Proof.
  unfold Js.trim. pose proof (trimEnd_length (Js.trimStart s)).
  pose proof (trimStart_length s). lia.
Qed.

Lemma trim_truthy (s : string) : Js.truthy (Js.trim s) = true -> Js.truthy s = true.
Proof. destruct s; simpl; [discriminate | reflexivity]. Qed.

Lemma toLowerCase_app (a b : string) :
  Js.toLowerCase (a ++ b) = Js.toLowerCase a ++ Js.toLowerCase b.
Proof. induction a as [|c r IH]; simpl; [reflexivity | now rewrite IH]. Qed.

Lemma startsWith_app (p s : string) : Js.startsWith p (p ++ s) = true.
Proof.
  induction p as [|c r IH]; simpl; [reflexivity|].
  now rewrite Ascii.eqb_refl, IH.
Qed.

Lemma startsWith_inv (p s : string) :
  Js.startsWith p s = true -> exists post, s = p ++ post.
Proof.
  revert s. induction p as [|c r IH]; intros s H; simpl in *.
  - now exists s.
  - destruct s as [|b s']; [discriminate|].
    apply andb_true_iff in H as [Hc Hr].
    apply Ascii.eqb_eq in Hc. subst b.
    destruct (IH _ Hr) as [post ->]. now exists post.
Qed.

Lemma includes_startsWith (s p : string) :
  Js.startsWith p s = true -> Js.includes s p = true.
Proof. intro H. destruct s; simpl; rewrite H; reflexivity. Qed.

(** [includes] is the substring relation. *)
Lemma includes_spec (s p : string) :
  Js.includes s p = true <-> exists pre post, s = pre ++ p ++ post.
Proof.
  split.
  - induction s as [|c r IH]; simpl; intro H.
    + rewrite orb_false_r in H. apply startsWith_inv in H as [post ->].
      now exists EmptyString, post.
    + apply orb_true_iff in H as [H|H].
      * apply startsWith_inv in H as [post ->]. now exists EmptyString, post.
      * destruct (IH H) as (pre & post & ->). now exists (String c pre), post.
  - intros (pre & post & ->).
    induction pre as [|c r IH]; simpl.
    + apply includes_startsWith, startsWith_app.
    + rewrite IH. apply orb_true_r.
Qed.

End StringFacts.

(** ** Message *)

Section MessageFacts.

Variables (role : MessageRole) (timestamp : Date) (persona : option AgentPersona).

(** The constructor accepts a content exactly when its trimmed length is
    between 1 and [Message.maxLength], and stores the trimmed content. *)
Lemma Message_new_accepts (content : string) :
  1 <= Js.length (Js.trim content) <= Message.maxLength ->
  Message.new role content timestamp persona
  = inr (Message.Mk role (Js.trim content) timestamp persona).
Proof.
  unfold Message.maxLength. intros [Hlo Hhi].
  unfold Message.new, Message.validateContent, Message.maxLength.
  destruct (Js.truthy content) eqn:T; simpl.
  - destruct (Z.eqb_spec (Js.length (Js.trim content)) 0) as [E|_]; [lia|].
    rewrite Z.gtb_ltb.
    destruct (Z.ltb_spec 10000 (Js.length (Js.trim content))); [lia|].
    reflexivity.
  - apply truthy_false_iff in T. subst content. change (1 <= 0) in Hlo. lia.
Qed.

Lemma Message_new_rejects (content : string) :
  Js.length (Js.trim content) = 0 \/ Js.length (Js.trim content) > Message.maxLength ->
  exists message,
    Message.new role content timestamp persona
    = inl (ThrownError (MkError ErrorC message None)).
Proof.
  unfold Message.maxLength. intros H.
  unfold Message.new, Message.validateContent, Message.maxLength.
  destruct (Js.truthy content) eqn:T; simpl; [|eexists; reflexivity].
  destruct (Z.eqb_spec (Js.length (Js.trim content)) 0) as [E|NE];
    [eexists; reflexivity|].
  rewrite Z.gtb_ltb.
  destruct (Z.ltb_spec 10000 (Js.length (Js.trim content)));
    [eexists; reflexivity | lia].
Qed.

(** Whatever the constructor throws is a plain [Error]. *)
Lemma Message_new_throws (content : string) (t : Thrown) :
  Message.new role content timestamp persona = inl t ->
  exists message, t = ThrownError (MkError ErrorC message None).
Proof.
  unfold Message.new, Message.validateContent.
  destruct (Js.truthy content); simpl.
  - destruct (Js.length (Js.trim content) =? 0); simpl.
    + intros [= <-]. eexists; reflexivity.
    + destruct (Js.length (Js.trim content) >? Message.maxLength); simpl.
      * intros [= <-]. eexists; reflexivity.
      * discriminate.
  - intros [= <-]. eexists; reflexivity.
Qed.

(** A constructed message holds a trimmed content of 1 to
    [Message.maxLength] characters. *)
Lemma Message_new_inv (content : string) (m : Message.t) :
  Message.new role content timestamp persona = inr m ->
  m = Message.Mk role (Js.trim content) timestamp persona
  /\ 1 <= Js.length (Js.trim content) <= Message.maxLength.
Proof.
  intros H.
  pose proof (length_nonneg (Js.trim content)) as Hn.
  assert (Hmax : Message.maxLength = 10000) by reflexivity.
  destruct (Z.eq_dec (Js.length (Js.trim content)) 0) as [E|NE].
  - destruct (Message_new_rejects content (or_introl E)) as [msg Hr]. congruence.
  - destruct (Z_le_gt_dec (Js.length (Js.trim content)) Message.maxLength) as [Hle|Hgt].
    + assert (Hb : 1 <= Js.length (Js.trim content) <= Message.maxLength) by lia.
      rewrite (Message_new_accepts content Hb) in H. injection H as <-. now split.
    + destruct (Message_new_rejects content (or_intror Hgt)) as [msg Hr]. congruence.
Qed.

End MessageFacts.

(** C6.  The constructor's bound is 10000, not the documented 5000: a
    content of 5001 characters is accepted, and the message built holds all
    5001 characters. *)
Theorem Message_new_accepts_5001_characters :
  let content := Js.repeat "a" (Z.to_nat 5001) in
  Js.length (Js.trim content) = 5001
  /\ Message.new USER content (JsDate.Valid 0) None
     = inr (Message.Mk USER content (JsDate.Valid 0) None).
Proof. vm_compute. split; reflexivity. Qed.

(** ** Conversation *)

Section ConversationFacts.

Lemma addMessage_full (self : Conversation.t) (message : Message.t) (current : Date) :
  size self >= Conversation.maxHistory ->
  Conversation.addMessage message current self
  = (inl (ThrownError (MkError ErrorC "Conversation history limit of 100 messages reached" None)),
     self).
Proof.
  unfold Conversation.maxHistory. intros H.
  unfold Conversation.addMessage, bind, Conversation.validateMessageAddition,
    Conversation.maxHistory.
  fold (size self). rewrite Z.geb_leb.
  destruct (Z.leb_spec 100 (size self)); [reflexivity | lia].
Qed.

Lemma addMessage_room (self : Conversation.t) (message : Message.t) (current : Date) :
  size self < Conversation.maxHistory ->
  Conversation.addMessage message current self
  = (inr tt, Conversation.touch current (Conversation.push message self)).
Proof.
  unfold Conversation.maxHistory. intros H.
  unfold Conversation.addMessage, bind, Conversation.validateMessageAddition,
    Conversation.maxHistory.
  fold (size self). rewrite Z.geb_leb.
  destruct (Z.leb_spec 100 (size self)); [lia | reflexivity].
Qed.

Lemma addMessage_preserves_bound (self : Conversation.t) (message : Message.t)
    (current : Date) :
  size self <= Conversation.maxHistory ->
  size (snd (Conversation.addMessage message current self)) <= Conversation.maxHistory.
Proof.
  intros H.
  assert (Hmax : Conversation.maxHistory = 100) by reflexivity.
  destruct (Z_lt_ge_dec (size self) Conversation.maxHistory) as [Hlt|Hge].
  - rewrite addMessage_room by exact Hlt. unfold size in *. simpl.
    rewrite length_app. simpl. lia.
  - rewrite addMessage_full by exact Hge. exact H.
Qed.

Lemma addAll_preserves_bound (l : list (Message.t * Date)) (self : Conversation.t) :
  size self <= Conversation.maxHistory ->
  size (Conversation.addAll l self) <= Conversation.maxHistory.
Proof.
  revert self. induction l as [|[m d] l IH]; intros self H; simpl; [exact H|].
  apply IH, addMessage_preserves_bound, H.
Qed.

(** Without any assumption on the conversation: a call makes it no larger
    than 100 messages or than it was, whichever is larger. *)
Lemma addMessage_size_max (self : Conversation.t) (message : Message.t) (current : Date) :
  size (snd (Conversation.addMessage message current self))
  <= Z.max Conversation.maxHistory (size self).
Proof.
  assert (Hmax : Conversation.maxHistory = 100) by reflexivity.
  destruct (Z_lt_ge_dec (size self) Conversation.maxHistory) as [Hlt|Hge].
  - rewrite addMessage_room by exact Hlt. unfold size in *. simpl.
    rewrite length_app. simpl. lia.
  - rewrite addMessage_full by exact Hge. simpl. lia.
Qed.

Lemma addAll_size_max (l : list (Message.t * Date)) (self : Conversation.t) :
  size (Conversation.addAll l self) <= Z.max Conversation.maxHistory (size self).
Proof.
  revert self. induction l as [|[m d] l IH]; intros self; simpl; [lia|].
  specialize (IH (snd (Conversation.addMessage m d self))).
  pose proof (addMessage_size_max self m d). lia.
Qed.

(** A conversation that holds 100 messages or more is left as it is by
    any sequence of calls. *)
Lemma addAll_full (l : list (Message.t * Date)) (self : Conversation.t) :
  size self >= Conversation.maxHistory ->
  Conversation.addAll l self = self.
Proof.
  intros H. induction l as [|[m d] l IH]; simpl; [reflexivity|].
  rewrite addMessage_full by exact H. exact IH.
Qed.

End ConversationFacts.

(** C7.  [addMessage] on a conversation holding 100 messages (or more)
    throws and leaves the conversation as it was; below 100 it succeeds and
    the message is the new last element.  Hence no call and no sequence of
    calls takes a conversation beyond 100 messages or beyond the size it
    had, whichever is larger: a conversation that starts with at most 100
    messages, such as one constructed without initial messages, never
    exceeds 100, and one constructed with more keeps the size it has. *)
Theorem addMessage_respects_bound
    (self : Conversation.t) (message : Message.t) (current : Date) :
  (size self >= 100 ->
     (exists e, Conversation.addMessage message current self = (inl (ThrownError e), self))
     /\ forall l, Conversation.addAll l self = self)
  /\ (size self < 100 ->
        exists self',
          Conversation.addMessage message current self = (inr tt, self')
          /\ Conversation.messages self' = (Conversation.messages self ++ [message])%list)
  /\ (size (snd (Conversation.addMessage message current self)) <= Z.max 100 (size self)
      /\ forall l, size (Conversation.addAll l self) <= Z.max 100 (size self))
  /\ (size self <= 100 ->
        size (snd (Conversation.addMessage message current self)) <= 100
        /\ forall l, size (Conversation.addAll l self) <= 100)
  /\ (forall subject topic userId l,
        size (Conversation.addAll l (Conversation.new [] subject topic userId current)) <= 100).
Proof.
  split; [|split; [|split; [|split]]].
  - intros H. split.
    + eexists. apply addMessage_full. exact H.
    + intros l. apply addAll_full. exact H.
  - intros H. eexists. split; [apply addMessage_room; exact H | reflexivity].
  - split.
    + apply addMessage_size_max.
    + intros l. apply addAll_size_max.
  - intros H. split.
    + apply addMessage_preserves_bound. exact H.
    + intros l. apply addAll_preserves_bound. exact H.
  - intros subject topic userId l. apply addAll_preserves_bound.
    unfold Conversation.maxHistory. vm_compute. discriminate.
Qed.

Lemma addMessage_respects_bound_witness :
  ((exists e,
      Conversation.addMessage (sampleMessage "one more") (JsDate.Valid 1) (sampleConversation 100)
      = (inl (ThrownError e), sampleConversation 100))
   /\ forall l, Conversation.addAll l (sampleConversation 100) = sampleConversation 100)
  /\ (exists self',
        Conversation.addMessage (sampleMessage "one more") (JsDate.Valid 1) (sampleConversation 2)
        = (inr tt, self')
        /\ Conversation.messages self'
           = [sampleMessage "hello"; sampleMessage "hello"; sampleMessage "one more"])
  /\ (forall l, size (Conversation.addAll l (sampleConversation 99)) <= 100).
Proof.
  split; [|split].
  - apply (proj1 (addMessage_respects_bound (sampleConversation 100)
                    (sampleMessage "one more") (JsDate.Valid 1))).
    vm_compute. discriminate.
  - apply (proj1 (proj2 (addMessage_respects_bound (sampleConversation 2)
                           (sampleMessage "one more") (JsDate.Valid 1)))).
    vm_compute. reflexivity.
  - apply (proj1 (proj2 (proj2 (proj2 (addMessage_respects_bound (sampleConversation 99)
                                         (sampleMessage "one more") (JsDate.Valid 1)))))).
    vm_compute. discriminate.
Defined.

(** C7, the constructor.  The constructor copies the initial messages
    without looking at their number, and [createConversation] hands it
    every entry of the history of a request: a conversation built from 101
    messages holds 101, the one restored from a history of 150 entries
    holds 150, and [addMessage], which refuses to add to them, leaves them
    beyond the bound. *)
Theorem Conversation_new_exceeds_bound :
  size (Conversation.new (List.repeat (sampleMessage "hello") 101) None None None
          (JsDate.Valid 0)) = 101
  /\ (exists conversation,
        ChatUseCase.createConversation strictEngine
          (sampleRequest "What is recursion?"
             (Some (List.repeat (MkMessageData USER "hello" None None) 150)))
          sampleWorld
        = (inr conversation, sampleWorld)
        /\ size conversation = 150
        /\ size (snd (Conversation.addMessage (sampleMessage "one more") (JsDate.Valid 1)
                        conversation)) = 150).
Proof.
  split.
  - vm_compute. reflexivity.
  - eexists. split; [vm_compute; reflexivity|]. split; vm_compute; reflexivity.
Qed.

(** [getRecentMessages] with a positive count: the last [count] messages,
    all of them when there are fewer. *)
Lemma getRecentMessages_positive (count : Z) (self : Conversation.t) :
  1 <= count ->
  Conversation.getRecentMessages count self
  = skipn (List.length (Conversation.messages self) - Z.to_nat count)
          (Conversation.messages self).
Proof.
  intros H. unfold Conversation.getRecentMessages, Array_slice_from.
  destruct (Z.ltb_spec (- count) 0) as [_|?]; [|lia].
  f_equal. lia.
Qed.

(** C9.  With [count = 0] the argument of [slice] is [-0], that is [0], and
    the whole sequence comes back instead of the empty one. *)
Theorem getRecentMessages_zero_returns_all :
  let self := Conversation.new [sampleMessage "first"; sampleMessage "second"]
                None None None (JsDate.Valid 0) in
  Conversation.getRecentMessages 0 self = [sampleMessage "first"; sampleMessage "second"]
  /\ Conversation.getRecentMessages 0 self <> [].
Proof. vm_compute. split; [reflexivity | discriminate]. Qed.

(** ** ChatUseCase *)

Section ValidationFacts.

Lemma validateRequest_accepts (request : ChatRequest) :
  1 <= trimmedLength request <= 5000 ->
  ChatUseCase.validateRequest request = inr tt.
Proof.
  unfold trimmedLength. intros [Hlo Hhi]. unfold ChatUseCase.validateRequest.
  destruct (Js.truthy (reqMessage request)) eqn:T; simpl.
  - destruct (Z.eqb_spec (Js.length (Js.trim (reqMessage request))) 0); [lia|].
    rewrite Z.gtb_ltb.
    destruct (Z.ltb_spec 5000 (Js.length (Js.trim (reqMessage request)))); [lia|].
    reflexivity.
  - apply truthy_false_iff in T. rewrite T in Hlo. change (1 <= 0) in Hlo. lia.
Qed.

Lemma validateRequest_rejects (request : ChatRequest) :
  trimmedLength request = 0 \/ trimmedLength request > 5000 ->
  exists message,
    ChatUseCase.validateRequest request
    = inl (ThrownError (AppError.ValidationError message)).
Proof.
  unfold trimmedLength. intros H. unfold ChatUseCase.validateRequest.
  destruct (Js.truthy (reqMessage request)); simpl; [|eexists; reflexivity].
  destruct (Z.eqb_spec (Js.length (Js.trim (reqMessage request))) 0);
    [eexists; reflexivity|].
  rewrite Z.gtb_ltb.
  destruct (Z.ltb_spec 5000 (Js.length (Js.trim (reqMessage request))));
    [eexists; reflexivity | lia].
Qed.

Lemma validateRequest_inv (request : ChatRequest) :
  ChatUseCase.validateRequest request = inr tt ->
  1 <= trimmedLength request <= 5000.
Proof.
  intros H. pose proof (length_nonneg (Js.trim (reqMessage request))) as Hn.
  fold (trimmedLength request) in Hn.
  destruct (Z.eq_dec (trimmedLength request) 0) as [E|NE].
  - destruct (validateRequest_rejects request (or_introl E)). congruence.
  - destruct (Z_le_gt_dec (trimmedLength request) 5000) as [Hle|Hgt]; [lia|].
    destruct (validateRequest_rejects request (or_intror Hgt)). congruence.
Qed.

End ValidationFacts.

Section UseCaseFacts.

Context (geminiService : IGeminiService).
Variable other : string -> Date.

Lemma createConversation_world (request : ChatRequest) (w : World) :
  snd (ChatUseCase.createConversation other request w) = w.
Proof. reflexivity. Qed.

Lemma mapResult_throws {A B} (P : Thrown -> Prop) (f : A -> JsResult B) (l : list A) :
  (forall x t, f x = inl t -> P t) ->
  forall t, ChatUseCase.mapResult f l = inl t -> P t.
Proof.
  intros Hf. induction l as [|x r IH]; simpl; intros t H; [discriminate|].
  destruct (f x) as [t0|y] eqn:E; simpl in H.
  - injection H as <-. eapply Hf, E.
  - destruct (ChatUseCase.mapResult f r) as [t1|ys]; simpl in H; [|discriminate].
    injection H as <-. now apply IH.
Qed.

(** Restoring the history throws plain [Error]s only. *)
Lemma createConversation_throws (request : ChatRequest) (w w' : World) (t : Thrown) :
  ChatUseCase.createConversation other request w = (inl t, w') ->
  exists message, t = ThrownError (MkError ErrorC message None).
Proof.
  unfold ChatUseCase.createConversation.
  destruct (conversationHistory request) as [history|]; simpl; [|discriminate].
  destruct (ChatUseCase.mapResult _ history) as [t0|ms] eqn:E; simpl; [|discriminate].
  intros [= <- _].
  eapply (mapResult_throws
            (fun t => exists message, t = ThrownError (MkError ErrorC message None)));
    [|exact E].
  intros x t Hx. unfold Message.fromJSON in Hx.
  eapply Message_new_throws, Hx.
Qed.

Lemma buildPrompt_last (conversation : Conversation.t) (m : Message.t) (text : string) :
  ChatUseCase.buildPrompt (Conversation.push m conversation) text
  = inr (text ++ ChatUseCase.newline ++ ChatUseCase.newline
         ++ "User's question: " ++ Message.content m).
Proof.
  unfold ChatUseCase.buildPrompt, Conversation.push. simpl.
  rewrite map_app. simpl. rewrite last_last. reflexivity.
Qed.

Lemma getGeminiFormat_push (conversation : Conversation.t) (m : Message.t) :
  removelast (Conversation.getGeminiFormat (Conversation.push m conversation))
  = Conversation.getGeminiFormat conversation.
Proof.
  unfold Conversation.getGeminiFormat, Conversation.push. simpl.
  rewrite map_app. simpl. apply removelast_last.
Qed.

(** What [generateAgentResponse] does on the conversation of [execute]:
    one call of the service, with the persona's prompt and the restored
    history; a failure is wrapped in a [GeminiApiError]. *)
Lemma generateAgentResponse_run (request : ChatRequest) (current : Date)
    (conversation : Conversation.t) (persona : AgentPersona) (w : World) :
  ChatUseCase.generateAgentResponse geminiService
    (withUserMessage request current conversation) persona
    (ChatUseCase.systemPrompt persona) w
  = match generateResponse (promptFor persona request)
            (Conversation.getGeminiFormat conversation) w with
    | (inr text, w') => (inr (MkChatResponse text persona (now w')), w')
    | (inl t, w') =>
        (inl (ThrownError
                (AppError.GeminiApiError
                   ("Failed to generate response from " ++ AgentPersona_value persona
                    ++ " agent")
                   (Some (asError t)))), w')
    end.
Proof.
  unfold ChatUseCase.generateAgentResponse, withUserMessage, tryCatch, bind, lift.
  change (ChatUseCase.buildPrompt (Conversation.touch current ?c) ?p)
    with (ChatUseCase.buildPrompt c p).
  rewrite buildPrompt_last.
  change (Conversation.getGeminiFormat (Conversation.touch current ?c))
    with (Conversation.getGeminiFormat c).
  rewrite getGeminiFormat_push. simpl Message.content.
  fold (promptFor persona request).
  destruct (generateResponse (promptFor persona request)
              (Conversation.getGeminiFormat conversation) w) as [[t|text] w'];
    reflexivity.
Qed.

(** Whatever [generateAgentResponse] throws is a [GeminiApiError]. *)
Lemma generateAgentResponse_throws (conversation : Conversation.t)
    (persona : AgentPersona) (text : string) (w w' : World) (t : Thrown) :
  ChatUseCase.generateAgentResponse geminiService conversation persona text w = (inl t, w') ->
  isGeminiApiError t = true.
Proof.
  unfold ChatUseCase.generateAgentResponse, tryCatch, bind, lift.
  destruct (ChatUseCase.buildPrompt conversation text) as [t0|prompt].
  - intros [= <- _]. reflexivity.
  - destruct (generateResponse prompt _ w) as [[t0|r] w0].
    + intros [= <- _]. reflexivity.
    + discriminate.
Qed.

(** A [try]/[catch] block around one agent never throws. *)
Lemma tryAgent_total (conversation : Conversation.t) (persona : AgentPersona)
    (responses : list ChatResponse) (w : World) :
  exists responses' w',
    ChatUseCase.tryAgent geminiService conversation persona responses w
    = (inr responses', w').
Proof.
  unfold ChatUseCase.tryAgent, tryCatch, bind.
  destruct (ChatUseCase.generateAgentResponse _ _ _ _ w) as [[t|r] w'];
    eexists; eexists; reflexivity.
Qed.

(** [generateAgentResponses] throws the aggregate error only, and never
    returns an empty array. *)
Lemma generateAgentResponses_outcome (conversation : Conversation.t) (w : World) :
  exists w',
    ChatUseCase.generateAgentResponses geminiService conversation w
    = (inl (ThrownError
              (AppError.GeminiApiError "Failed to generate responses from all agents" None)),
       w')
    \/ exists responses,
        responses <> []
        /\ ChatUseCase.generateAgentResponses geminiService conversation w
           = (inr responses, w').
Proof.
  unfold ChatUseCase.generateAgentResponses, bind.
  destruct (tryAgent_total conversation EXPLAINER [] w) as (r1 & w1 & ->).
  destruct (tryAgent_total conversation EXAMPLE_PROVIDER r1 w1) as (r2 & w2 & ->).
  exists w2. destruct r2 as [|x r2]; simpl.
  - left. reflexivity.
  - right. exists (x :: r2). split; [discriminate|].
    destruct (Z.eqb_spec (Z.pos (Pos.of_succ_nat (Datatypes.length r2))) 0);
      [lia | reflexivity].
Qed.


Lemma validateRequest_throws (request : ChatRequest) (t : Thrown) :
  ChatUseCase.validateRequest request = inl t -> isValidationError t = true.
Proof.
  unfold ChatUseCase.validateRequest.
  destruct (Js.truthy (reqMessage request)); simpl.
  - destruct (Js.length (Js.trim (reqMessage request)) =? 0).
    + intros [= <-]. reflexivity.
    + destruct (Js.length (Js.trim (reqMessage request)) >? 5000).
      * intros [= <-]. reflexivity.
      * discriminate.
  - intros [= <-]. reflexivity.
Qed.

Lemma addMessage_throws (message : Message.t) (current : Date)
    (self self' : Conversation.t) (t : Thrown) :
  Conversation.addMessage message current self = (inl t, self') ->
  exists text, t = ThrownError (MkError ErrorC text None).
Proof.
  unfold Conversation.addMessage, bind, Conversation.validateMessageAddition.
  destruct (_ >=? _).
  - intros [= <- _]. eexists; reflexivity.
  - discriminate.
Qed.

Lemma bind_ret_r {S A} (m : SE S A) (s : S) : bind m (fun a => ret a) s = m s.
Proof. unfold bind, ret. destruct (m s) as [[t|a] s']; reflexivity. Qed.

(** Once the request is validated, the history restored and the user's
    message added, [execute] is left with the two agents. *)
Lemma executeBody_run (request : ChatRequest) (conversation : Conversation.t) (w : World) :
  ChatUseCase.validateRequest request = inr tt ->
  ChatUseCase.createConversation other request w = (inr conversation, w) ->
  size conversation < 100 ->
  ChatUseCase.executeBody geminiService other request w
  = ChatUseCase.generateAgentResponses geminiService
      (withUserMessage request (now w) conversation) w.
Proof.
  intros Hv Hc Hs. unfold ChatUseCase.executeBody.
  unfold bind at 1. unfold lift at 1. rewrite Hv.
  unfold bind at 1. rewrite Hc.
  unfold bind at 1. unfold get at 1.
  unfold bind at 1. unfold lift at 1.
  apply validateRequest_inv in Hv. unfold trimmedLength in Hv.
  rewrite Message_new_accepts by (unfold Message.maxLength; lia).
  unfold bind at 1. unfold get at 1.
  unfold bind at 1. unfold ChatUseCase.invoke.
  rewrite addMessage_room by exact Hs.
  cbv beta iota. simpl snd.
  apply bind_ret_r.
Qed.

(** What the [try] block of [execute] can throw: the [ValidationError]
    of [validateRequest], the plain [Error]s of the entities, and the
    [GeminiApiError] of [generateAgentResponses]. *)
Lemma executeBody_throws (request : ChatRequest) (w w' : World) (t : Thrown) :
  ChatUseCase.executeBody geminiService other request w = (inl t, w') ->
  (isValidationError t = true /\ ChatUseCase.validateRequest request = inl t /\ w' = w)
  \/ (exists text, t = ThrownError (MkError ErrorC text None))
  \/ isGeminiApiError t = true.
Proof.
  unfold ChatUseCase.executeBody.
  unfold bind at 1. unfold lift at 1.
  destruct (ChatUseCase.validateRequest request) as [t0|[]] eqn:Hv.
  { intros [= <- <-]. left. split; [|split]; try reflexivity.
    eapply validateRequest_throws, Hv. }
  unfold bind at 1.
  destruct (ChatUseCase.createConversation other request w) as [[t0|conversation] w0] eqn:Hc.
  { intros [= <- <-]. right; left. eapply createConversation_throws, Hc. }
  unfold bind at 1. unfold get at 1.
  unfold bind at 1. unfold lift at 1.
  destruct (Message.new USER (reqMessage request) (now w0) None) as [t0|m] eqn:Hm.
  { intros [= <- <-]. right; left. eapply Message_new_throws, Hm. }
  unfold bind at 1. unfold get at 1.
  unfold bind at 1. unfold ChatUseCase.invoke.
  destruct (Conversation.addMessage m (now w0) conversation) as [[t0|[]] c'] eqn:Ha.
  { intros [= <- <-]. right; left. eapply addMessage_throws, Ha. }
  cbv beta iota. simpl snd. rewrite bind_ret_r.
  destruct (generateAgentResponses_outcome c' w0) as [w1 [H|(rs & _ & H)]];
    rewrite H; [|discriminate].
  intros [= <- <-]. right; right. reflexivity.
Qed.

Lemma executeBody_nonempty (request : ChatRequest) (w w' : World)
    (responses : list ChatResponse) :
  ChatUseCase.executeBody geminiService other request w = (inr responses, w') ->
  responses <> [].
Proof.
  unfold ChatUseCase.executeBody.
  unfold bind at 1. unfold lift at 1.
  destruct (ChatUseCase.validateRequest request) as [t0|[]]; [discriminate|].
  unfold bind at 1.
  destruct (ChatUseCase.createConversation other request w) as [[t0|conversation] w0];
    [discriminate|].
  unfold bind at 1. unfold get at 1.
  unfold bind at 1. unfold lift at 1.
  destruct (Message.new USER (reqMessage request) (now w0) None) as [t0|m];
    [discriminate|].
  unfold bind at 1. unfold get at 1.
  unfold bind at 1. unfold ChatUseCase.invoke.
  destruct (Conversation.addMessage m (now w0) conversation) as [[t0|[]] c'];
    [discriminate|].
  cbv beta iota. simpl snd. rewrite bind_ret_r.
  destruct (generateAgentResponses_outcome c' w0) as [w1 [H|(rs & Hne & H)]];
    rewrite H; [discriminate|].
  intros [= <- _]. exact Hne.
Qed.

(** [execute] hands on a [ValidationError] or a [GeminiApiError] of its
    [try] block and wraps everything else. *)
Lemma execute_catch (request : ChatRequest) (w : World) :
  ChatUseCase.execute geminiService other request w
  = match ChatUseCase.executeBody geminiService other request w with
    | (inr responses, w') => (inr responses, w')
    | (inl t, w') =>
        if isValidationError t || isGeminiApiError t then (inl t, w')
        else (inl (ThrownError (AppError.GeminiApiError "Failed to process chat request"
                                  (Some (asError t)))), w')
    end.
Proof.
  unfold ChatUseCase.execute, tryCatch.
  destruct (ChatUseCase.executeBody geminiService other request w) as [[t|r] w'];
    [|reflexivity].
  destruct (isValidationError t || isGeminiApiError t); reflexivity.
Qed.

End UseCaseFacts.

Section AgentFacts.

Context (geminiService : IGeminiService).

Lemma tryAgent_run (request : ChatRequest) (current : Date)
    (conversation : Conversation.t) (persona : AgentPersona)
    (responses : list ChatResponse) (w : World) :
  ChatUseCase.tryAgent geminiService (withUserMessage request current conversation)
    persona responses w
  = match generateResponse (promptFor persona request)
            (Conversation.getGeminiFormat conversation) w with
    | (inr text, w') => (inr (responses ++ [MkChatResponse text persona (now w')])%list, w')
    | (inl _, w') => (inr responses, w')
    end.
Proof.
  unfold ChatUseCase.tryAgent, tryCatch, bind.
  rewrite generateAgentResponse_run.
  destruct (generateResponse (promptFor persona request)
              (Conversation.getGeminiFormat conversation) w) as [[t|text] w'];
    reflexivity.
Qed.

Lemma isGeminiApiError_not_validation (t : Thrown) :
  isGeminiApiError t = true -> isValidationError t = false.
Proof. destruct t as [[[] m c]|v]; simpl; congruence. Qed.

Lemma isValidationError_class (t : Thrown) :
  isValidationError t = true ->
  exists e, t = ThrownError e /\ errClass e = ValidationErrorC.
Proof.
  destruct t as [[[] m c]|v]; simpl; try discriminate.
  intros _. eexists. split; reflexivity.
Qed.

Lemma isGeminiApiError_class (t : Thrown) :
  isGeminiApiError t = true ->
  exists e, t = ThrownError e /\ errClass e = GeminiApiErrorC.
Proof.
  destruct t as [[[] m c]|v]; simpl; try discriminate.
  intros _. eexists. split; reflexivity.
Qed.

End AgentFacts.

(** C3.  With [L] the length of the trimmed message: when [1 <= L <= 5000]
    the validation passes and [execute] never fails with a
    [ValidationError]; when [L = 0] or [L > 5000], [execute] fails with a
    [ValidationError] and the world is the one it started in, whatever the
    service: no remote call was made. *)
Theorem execute_validates_message
    (geminiService : IGeminiService) (other : string -> Date) (request : ChatRequest) :
  (1 <= trimmedLength request <= 5000 ->
     ChatUseCase.validateRequest request = inr tt
     /\ forall w t w',
          ChatUseCase.execute geminiService other request w = (inl t, w') ->
          isValidationError t = false)
  /\ (trimmedLength request = 0 \/ trimmedLength request > 5000 ->
      forall w, exists message,
        ChatUseCase.execute geminiService other request w
        = (inl (ThrownError (AppError.ValidationError message)), w)).
Proof.
  split.
  - intros HL. pose proof (validateRequest_accepts request HL) as Hv.
    split; [exact Hv|].
    intros w t w'. rewrite execute_catch.
    destruct (ChatUseCase.executeBody geminiService other request w) as [[t0|r] w0] eqn:Hb;
      [|discriminate].
    destruct (executeBody_throws _ _ _ _ _ _ Hb) as [(_ & Hv' & _)|[(text & ->)|Hg]].
    + congruence.
    + simpl. intros [= <- _]. reflexivity.
    + rewrite Hg, orb_true_r. intros [= <- _].
      apply isGeminiApiError_not_validation, Hg.
  - intros HL w. destruct (validateRequest_rejects request HL) as [message Hv].
    exists message. rewrite execute_catch.
    unfold ChatUseCase.executeBody. unfold bind at 1. unfold lift at 1.
    rewrite Hv. reflexivity.
Qed.

Lemma execute_validates_message_witness :
  (ChatUseCase.validateRequest (sampleRequest "  What is recursion?  " None) = inr tt
   /\ forall w t w',
        ChatUseCase.execute (sampleService [])
          strictEngine (sampleRequest "  What is recursion?  " None) w = (inl t, w') ->
        isValidationError t = false)
  /\ (exists message,
        ChatUseCase.execute (sampleService [])
          strictEngine (sampleRequest "   " None) sampleWorld
        = (inl (ThrownError (AppError.ValidationError message)), sampleWorld)).
Proof.
  split.
  - apply (proj1 (execute_validates_message (sampleService [])
                    strictEngine (sampleRequest "  What is recursion?  " None))).
    vm_compute. split; discriminate.
  - apply (proj2 (execute_validates_message (sampleService [])
                    strictEngine (sampleRequest "   " None))).
    left. reflexivity.
Defined.

(** C10.  A failure of [execute] is a [ValidationError] or a
    [GeminiApiError]; an exception of any other kind raised in its [try]
    block comes out wrapped in a [GeminiApiError] whose cause it is. *)
Theorem execute_error_kinds
    (geminiService : IGeminiService) (other : string -> Date) (request : ChatRequest)
    (w : World) :
  (forall t w',
     ChatUseCase.execute geminiService other request w = (inl t, w') ->
     exists e, t = ThrownError e
               /\ (errClass e = ValidationErrorC \/ errClass e = GeminiApiErrorC))
  /\ (forall t0 w',
        ChatUseCase.executeBody geminiService other request w = (inl t0, w') ->
        isValidationError t0 = false ->
        isGeminiApiError t0 = false ->
        ChatUseCase.execute geminiService other request w
        = (inl (ThrownError (MkError GeminiApiErrorC
                               "Gemini API Error: Failed to process chat request"
                               (Some (asError t0)))), w')).
Proof.
  split.
  - intros t w'. rewrite execute_catch.
    destruct (ChatUseCase.executeBody geminiService other request w) as [[t0|r] w0];
      [|discriminate].
    destruct (isValidationError t0) eqn:Hv; simpl.
    + intros [= <- _]. destruct (isValidationError_class _ Hv) as (e & -> & Hc).
      exists e. auto.
    + destruct (isGeminiApiError t0) eqn:Hg.
      * intros [= <- _]. destruct (isGeminiApiError_class _ Hg) as (e & -> & Hc).
        exists e. auto.
      * intros [= <- _]. eexists. split; [reflexivity|]. right. reflexivity.
  - intros t0 w' Hb Hv Hg. rewrite execute_catch, Hb, Hv, Hg. reflexivity.
Qed.

Lemma execute_error_kinds_witness :
  ChatUseCase.execute (sampleService []) strictEngine
    (sampleRequest "What is recursion?" (Some [MkMessageData USER "   " None None]))
    sampleWorld
  = (inl (ThrownError
            (MkError GeminiApiErrorC "Gemini API Error: Failed to process chat request"
               (Some (MkError ErrorC "Message content cannot be empty" None)))),
     sampleWorld).
Proof.
  apply (proj2 (execute_error_kinds (sampleService []) strictEngine
                  (sampleRequest "What is recursion?"
                     (Some [MkMessageData USER "   " None None]))
                  sampleWorld)
               (ThrownError (MkError ErrorC "Message content cannot be empty" None))
               sampleWorld);
    reflexivity.
Defined.

(** C2.  Once the request is validated and the conversation built: if the
    service fails for the explainer and succeeds for the example provider,
    [execute] returns the single response of the example provider; if it
    fails for both, [execute] fails with the aggregate [GeminiApiError];
    and [execute] never returns an empty array. *)
Theorem execute_isolates_agent_failure
    (geminiService : IGeminiService) (other : string -> Date) (request : ChatRequest)
    (conversation : Conversation.t) (w w1 : World) (t1 : Thrown) :
  ChatUseCase.validateRequest request = inr tt ->
  ChatUseCase.createConversation other request w = (inr conversation, w) ->
  size conversation < 100 ->
  generateResponse (promptFor EXPLAINER request)
    (Conversation.getGeminiFormat conversation) w = (inl t1, w1) ->
  (forall text w2,
     generateResponse (promptFor EXAMPLE_PROVIDER request)
       (Conversation.getGeminiFormat conversation) w1 = (inr text, w2) ->
     ChatUseCase.execute geminiService other request w
     = (inr [MkChatResponse text EXAMPLE_PROVIDER (now w2)], w2))
  /\ (forall t2 w2,
        generateResponse (promptFor EXAMPLE_PROVIDER request)
          (Conversation.getGeminiFormat conversation) w1 = (inl t2, w2) ->
        ChatUseCase.execute geminiService other request w
        = (inl (ThrownError
                  (AppError.GeminiApiError "Failed to generate responses from all agents"
                     None)), w2))
  /\ (forall responses w',
        ChatUseCase.execute geminiService other request w = (inr responses, w') ->
        responses <> []).
Proof.
  intros Hv Hc Hs H1.
  pose proof (executeBody_run geminiService other request conversation w Hv Hc Hs) as Hb.
  unfold ChatUseCase.generateAgentResponses in Hb.
  unfold bind at 1 in Hb. rewrite tryAgent_run, H1 in Hb.
  unfold bind at 1 in Hb. rewrite tryAgent_run in Hb.
  split; [|split].
  - intros text w2 H2. rewrite execute_catch, Hb, H2. reflexivity.
  - intros t2 w2 H2. rewrite execute_catch, Hb, H2. reflexivity.
  - intros responses w'. rewrite execute_catch.
    destruct (ChatUseCase.executeBody geminiService other request w) as [[t|r] w0] eqn:E.
    + destruct (isValidationError t || isGeminiApiError t); discriminate.
    + intros [= <- _]. eapply executeBody_nonempty, E.
Qed.

Lemma execute_isolates_agent_failure_witness :
  (exists w2,
     ChatUseCase.execute (sampleService ["expert teacher"]) strictEngine
       (sampleRequest "  What is recursion?  " (Some sampleHistory)) sampleWorld
     = (inr [MkChatResponse "An answer." EXAMPLE_PROVIDER (now w2)], w2)
     /\ now w2 = JsDate.Valid 1704067203040)
  /\ (exists w2,
        ChatUseCase.execute (sampleService ["teacher"]) strictEngine
          (sampleRequest "  What is recursion?  " (Some sampleHistory)) sampleWorld
        = (inl (ThrownError
                  (AppError.GeminiApiError "Failed to generate responses from all agents"
                     None)), w2)).
Proof.
  split.
  - eexists. split.
    + eapply (proj1 (execute_isolates_agent_failure (sampleService ["expert teacher"])
                       strictEngine
                       (sampleRequest "  What is recursion?  " (Some sampleHistory))
                       _ sampleWorld _ _ ltac:(reflexivity) ltac:(reflexivity)
                       ltac:(reflexivity) ltac:(vm_compute; reflexivity))).
      vm_compute. reflexivity.
    + reflexivity.
  - eexists.
    eapply (proj1 (proj2 (execute_isolates_agent_failure (sampleService ["teacher"])
                            strictEngine
                            (sampleRequest "  What is recursion?  " (Some sampleHistory))
                            _ sampleWorld _ _ ltac:(reflexivity) ltac:(reflexivity)
                            ltac:(reflexivity) ltac:(vm_compute; reflexivity)))).
    vm_compute. reflexivity.
Defined.

(** C5.  Once the request is validated and the conversation built: if the
    service succeeds for both personas, [execute] returns exactly two
    responses, the explainer's first and the example provider's second,
    whatever time each call took. *)
Theorem execute_orders_responses
    (geminiService : IGeminiService) (other : string -> Date) (request : ChatRequest)
    (conversation : Conversation.t) (w w1 w2 : World) (text1 text2 : string) :
  ChatUseCase.validateRequest request = inr tt ->
  ChatUseCase.createConversation other request w = (inr conversation, w) ->
  size conversation < 100 ->
  generateResponse (promptFor EXPLAINER request)
    (Conversation.getGeminiFormat conversation) w = (inr text1, w1) ->
  generateResponse (promptFor EXAMPLE_PROVIDER request)
    (Conversation.getGeminiFormat conversation) w1 = (inr text2, w2) ->
  ChatUseCase.execute geminiService other request w
  = (inr [MkChatResponse text1 EXPLAINER (now w1);
          MkChatResponse text2 EXAMPLE_PROVIDER (now w2)], w2).
Proof.
  intros Hv Hc Hs H1 H2.
  pose proof (executeBody_run geminiService other request conversation w Hv Hc Hs) as Hb.
  unfold ChatUseCase.generateAgentResponses in Hb.
  unfold bind at 1 in Hb. rewrite tryAgent_run, H1 in Hb.
  unfold bind at 1 in Hb. rewrite tryAgent_run, H2 in Hb.
  rewrite execute_catch, Hb. reflexivity.
Qed.

Lemma execute_orders_responses_witness :
  exists w1 w2,
    ChatUseCase.execute (sampleService []) strictEngine
      (sampleRequest "  What is recursion?  " (Some sampleHistory)) sampleWorld
    = (inr [MkChatResponse "An answer." EXPLAINER (now w1);
            MkChatResponse "An answer." EXAMPLE_PROVIDER (now w2)], w2)
    /\ now w1 = JsDate.Valid 1704067200010
    /\ now w2 = JsDate.Valid 1704067200020.
Proof.
  eexists. eexists. split.
  - eapply (execute_orders_responses (sampleService []) strictEngine
              (sampleRequest "  What is recursion?  " (Some sampleHistory))).
    + reflexivity.
    + reflexivity.
    + reflexivity.
    + vm_compute. reflexivity.
    + vm_compute. reflexivity.
  - split; reflexivity.
Defined.

(** ** GeminiService *)

Section RetryFacts.

Variable provider : Provider.
Variables (prompt : string) (history : list GeminiTurn).

Let call := sdkCallFor prompt history.

Lemma attemptCall_run (w : World) :
  GeminiService.attemptCall provider prompt history w
  = (fst (provider w call), afterCall call (snd (provider w call)) w).
Proof.
  unfold GeminiService.attemptCall, call, sdkCallFor, callSdk, afterCall.
  destruct history as [|h r]; simpl.
  - destruct (provider w (GenerateContent prompt)); reflexivity.
  - destruct (provider w (SendMessage (h :: r) prompt)); reflexivity.
Qed.

(** An attempt that succeeds ends the loop with its text. *)
Lemma retryLoop_success (remaining : nat) (attempt : Z) (lastError : option JsError)
    (w : World) (text : string) (elapsed : Z) :
  provider w call = (inr text, elapsed) ->
  GeminiService.retryLoop provider prompt history (S remaining) attempt lastError w
  = (inr text, afterCall call elapsed w).
Proof.
  intros H. simpl. unfold bind, tryCatch. rewrite attemptCall_run, H. reflexivity.
Qed.

(** An attempt that fails with a non-retryable error ends the loop at
    once: no delay, no further call. *)
Lemma retryLoop_non_retryable (remaining : nat) (attempt : Z) (lastError : option JsError)
    (w : World) (error : Thrown) (elapsed : Z) :
  provider w call = (inl error, elapsed) ->
  GeminiService.isNonRetryableError error = true ->
  GeminiService.retryLoop provider prompt history (S remaining) attempt lastError w
  = (inl (ThrownError
            (AppError.GeminiApiError
               ("Non-retryable error: " ++ errMessage (asError error))
               (Some (asError error)))),
     afterCall call elapsed w).
Proof.
  intros H Hn. simpl. unfold bind, tryCatch. rewrite attemptCall_run, H. simpl.
  rewrite Hn. reflexivity.
Qed.

(** An attempt that fails otherwise waits [retryDelay * attempt] ms,
    unless it was the last one, and goes to the next attempt. *)
Lemma retryLoop_retry (remaining : nat) (attempt : Z) (lastError : option JsError)
    (w : World) (error : Thrown) (elapsed : Z) :
  provider w call = (inl error, elapsed) ->
  GeminiService.isNonRetryableError error = false ->
  GeminiService.retryLoop provider prompt history (S remaining) attempt lastError w
  = GeminiService.retryLoop provider prompt history remaining (attempt + 1)
      (Some (asError error))
      (if attempt <? GeminiService.maxRetries
       then afterDelay (GeminiService.retryDelay * attempt) (afterCall call elapsed w)
       else afterCall call elapsed w).
Proof.
  intros H Hn. simpl. unfold bind at 1. unfold tryCatch. unfold bind at 1.
  rewrite attemptCall_run, H. simpl fst. simpl snd. cbv iota beta.
  rewrite Hn. unfold bind at 1.
  destruct (attempt <? GeminiService.maxRetries); reflexivity.
Qed.

(** A message that contains a marker, whatever the case of its letters,
    is non-retryable. *)
Lemma isNonRetryableError_marker (e : JsError) (marker pre mid post : string) :
  In marker GeminiService.nonRetryablePatterns ->
  errMessage e = pre ++ mid ++ post ->
  Js.toLowerCase mid = marker ->
  GeminiService.isNonRetryableError (ThrownError e) = true.
Proof.
  intros Hin Hm Hl. unfold GeminiService.isNonRetryableError.
  apply existsb_exists. exists marker. split; [exact Hin|].
  apply includes_spec. rewrite Hm, !toLowerCase_app, Hl.
  eexists. eexists. reflexivity.
Qed.

End RetryFacts.

(** C1.  Three attempts that fail with errors that are not non-retryable
    exhaust the loop: the provider has been called exactly three times and
    the error thrown is of class [GeminiApiError], its message names the
    three attempts and the message of the third error, and its cause is
    the error of the third attempt.  An [Error] whose message contains one
    of the markers, whatever the case of its letters, ends the first
    attempt with an error of class [GeminiApiError] whose message
    announces a non-retryable error and whose cause is that error, after
    that single call and without delay; the two errors are distinct. *)
Theorem generateResponse_retry_policy
    (provider : Provider) (prompt : string) (history : list GeminiTurn) (w : World) :
  (forall e1 d1 e2 d2 e3 d3,
     provider w (sdkCallFor prompt history) = (inl e1, d1) ->
     GeminiService.isNonRetryableError e1 = false ->
     provider (afterDelay 1000 (afterCall (sdkCallFor prompt history) d1 w))
       (sdkCallFor prompt history) = (inl e2, d2) ->
     GeminiService.isNonRetryableError e2 = false ->
     provider (afterDelay 2000 (afterCall (sdkCallFor prompt history) d2
                (afterDelay 1000 (afterCall (sdkCallFor prompt history) d1 w))))
       (sdkCallFor prompt history) = (inl e3, d3) ->
     GeminiService.isNonRetryableError e3 = false ->
     exists w3,
       GeminiService.generateResponse provider prompt history w
       = (inl (ThrownError
                 (MkError GeminiApiErrorC
                    ("Gemini API Error: Failed to generate response after 3 attempts: "
                     ++ GeminiService.lastMessage (Some (asError e3)))
                    (Some (asError e3)))), w3)
       /\ calls w3 = (calls w ++ [sdkCallFor prompt history; sdkCallFor prompt history;
                                  sdkCallFor prompt history])%list
       /\ clock w3 = clock w + d1 + 1000 + d2 + 2000 + d3)
  /\ (forall e d marker pre mid post,
        provider w (sdkCallFor prompt history) = (inl (ThrownError e), d) ->
        In marker GeminiService.nonRetryablePatterns ->
        errMessage e = pre ++ mid ++ post ->
        Js.toLowerCase mid = marker ->
        GeminiService.generateResponse provider prompt history w
        = (inl (ThrownError
                  (MkError GeminiApiErrorC
                     ("Gemini API Error: Non-retryable error: " ++ errMessage e)
                     (Some e))),
           afterCall (sdkCallFor prompt history) d w))
  /\ (forall m1 c1 m2 c2,
        MkError GeminiApiErrorC ("Gemini API Error: Non-retryable error: " ++ m1) c1
        <> MkError GeminiApiErrorC
             ("Gemini API Error: Failed to generate response after 3 attempts: " ++ m2) c2).
Proof.
  split; [|split].
  - intros e1 d1 e2 d2 e3 d3 H1 N1 H2 N2 H3 N3.
    eexists. split; [|split].
    + unfold GeminiService.generateResponse.
      change (Z.to_nat GeminiService.maxRetries) with 3%nat.
      rewrite (retryLoop_retry provider prompt history _ _ _ _ _ _ H1 N1).
      change (1 <? GeminiService.maxRetries) with true. cbv iota.
      change (GeminiService.retryDelay * 1) with 1000.
      rewrite (retryLoop_retry provider prompt history _ _ _ _ _ _ H2 N2).
      change (1 + 1 <? GeminiService.maxRetries) with true. cbv iota.
      change (GeminiService.retryDelay * (1 + 1)) with 2000.
      rewrite (retryLoop_retry provider prompt history _ _ _ _ _ _ H3 N3).
      change (1 + 1 + 1 <? GeminiService.maxRetries) with false. cbv iota.
      reflexivity.
    + simpl. rewrite <- !app_assoc. reflexivity.
    + simpl. lia.
  - intros e d marker pre mid post H Hin Hm Hl.
    unfold GeminiService.generateResponse.
    change (Z.to_nat GeminiService.maxRetries) with 3%nat.
    rewrite (retryLoop_non_retryable provider prompt history _ _ _ _ _ _ H
               (isNonRetryableError_marker e marker pre mid post Hin Hm Hl)).
    reflexivity.
  - intros m1 c1 m2 c2. simpl. intros H. discriminate H.
Qed.

Lemma generateResponse_retry_policy_witness :
  (exists w3,
     GeminiService.generateResponse (sampleProvider ["recursion"] "fetch failed")
       "What is recursion?" [] sampleWorld
     = (inl (ThrownError
               (MkError GeminiApiErrorC
                  "Gemini API Error: Failed to generate response after 3 attempts: fetch failed"
                  (Some (MkError ErrorC "fetch failed" None)))), w3)
     /\ calls w3 = [GenerateContent "What is recursion?"; GenerateContent "What is recursion?";
                    GenerateContent "What is recursion?"]
     /\ clock w3 = clock sampleWorld + 10 + 1000 + 10 + 2000 + 10)
  /\ GeminiService.generateResponse (sampleProvider ["recursion"] "Daily QUOTA exceeded")
       "What is recursion?" [] sampleWorld
     = (inl (ThrownError
               (MkError GeminiApiErrorC
                  "Gemini API Error: Non-retryable error: Daily QUOTA exceeded"
                  (Some (MkError ErrorC "Daily QUOTA exceeded" None)))),
        afterCall (GenerateContent "What is recursion?") 10 sampleWorld).
Proof.
  split.
  - apply (proj1 (generateResponse_retry_policy (sampleProvider ["recursion"] "fetch failed")
                    "What is recursion?" [] sampleWorld)
             (ThrownError (MkError ErrorC "fetch failed" None)) 10
             (ThrownError (MkError ErrorC "fetch failed" None)) 10
             (ThrownError (MkError ErrorC "fetch failed" None)) 10);
      reflexivity.
  - apply (proj1 (proj2 (generateResponse_retry_policy
                           (sampleProvider ["recursion"] "Daily QUOTA exceeded")
                           "What is recursion?" [] sampleWorld))
             (MkError ErrorC "Daily QUOTA exceeded" None) 10
             "quota" "Daily " "QUOTA" " exceeded").
    + reflexivity.
    + simpl. right. right. right. left. reflexivity.
    + reflexivity.
    + reflexivity.
Defined.

(** ** The legacy parser *)

Section ParserFacts.

Lemma lazyUntil_includes (stop s capture : string) :
  AgentLogic.lazyUntil stop s = Some capture -> Js.includes s stop = true.
Proof.
  revert capture. induction s as [|c r IH]; intros capture; simpl.
  - destruct (Js.startsWith stop EmptyString); [reflexivity | discriminate].
  - destruct (Js.startsWith stop (String c r)); [reflexivity|].
    destruct (AgentLogic.lazyUntil stop r) as [cap|]; [|discriminate].
    intros _. simpl. eapply IH. reflexivity.
Qed.

Lemma includes_drop (n : nat) (s p : string) :
  Js.includes (Js.drop n s) p = true -> Js.includes s p = true.
Proof.
  revert s. induction n as [|n IH]; intros s; simpl; [trivial|].
  destruct s as [|c r]; [trivial|].
  intros H. simpl. rewrite (IH _ H). apply orb_true_r.
Qed.

(** A match of the lazy pattern needs both literals in the text. *)
Lemma matchLazy_includes (start stop s capture : string) :
  AgentLogic.matchLazy start stop s = Some capture ->
  Js.includes s start = true /\ Js.includes s stop = true.
Proof.
  revert capture. induction s as [|c r IH]; intros capture; simpl.
  - destruct (Js.startsWith start EmptyString) eqn:Hs; [|discriminate].
    destruct (AgentLogic.lazyUntil stop (Js.drop (String.length start) EmptyString))
      as [cap|] eqn:Hl; [|discriminate].
    intros _. split; [now rewrite orb_true_l|].
    apply lazyUntil_includes in Hl.
    apply (includes_drop _ EmptyString) in Hl. exact Hl.
  - destruct (Js.startsWith start (String c r)) eqn:Hs.
    + destruct (AgentLogic.lazyUntil stop (Js.drop (String.length start) (String c r)))
        as [cap|] eqn:Hl.
      * intros _. split; [reflexivity|].
        apply lazyUntil_includes in Hl.
        apply (includes_drop _ (String c r)) in Hl. exact Hl.
      * intros H. destruct (IH _ H) as [H1 H2]. split; [reflexivity|].
        simpl in H2 |- *. rewrite H2. apply orb_true_r.
    + intros H. destruct (IH _ H) as [H1 H2]. split.
      * rewrite H1. reflexivity.
      * rewrite H2. apply orb_true_r.
Qed.

Lemma matchGreedy_includes (start s capture : string) :
  AgentLogic.matchGreedy start s = Some capture -> Js.includes s start = true.
Proof.
  revert capture. induction s as [|c r IH]; intros capture; simpl.
  - destruct (Js.startsWith start EmptyString); [reflexivity | discriminate].
  - destruct (Js.startsWith start (String c r)); [reflexivity|].
    intros H. simpl. eapply IH, H.
Qed.

End ParserFacts.

(** C4, as stated: on ["Explanation: X\nExample: Y"] the parser of
    agentLogic.js does not find its marker ["Explainer: "] and returns the
    fallback explanation, not ["X"]; and a group made of white space only,
    empty once trimmed, is truthy, so that the field is the empty string
    and not the fallback. *)
Lemma parse_Explanation_marker_not_recognised :
  AgentLogic.parse ("Explanation: X" ++ AgentLogic.newline ++ "Example: Y")
  = AgentLogic.MkResponses AgentLogic.explainerFallback "Y"
  /\ AgentLogic.parse ("Explanation: X" ++ AgentLogic.newline ++ "Example: Y")
     <> AgentLogic.MkResponses "X" "Y"
  /\ exampleCapture "Example:    " = Some "   "
  /\ Js.trim "   " = EmptyString
  /\ AgentLogic.exampleResponse (AgentLogic.parse "Example:    ") = EmptyString
  /\ AgentLogic.exampleResponse (AgentLogic.parse "Example:    ")
     <> AgentLogic.exampleFallback.
Proof. vm_compute. repeat split; try reflexivity; discriminate. Qed.

(** C4, amended.  With the marker ["Explainer: "] the two sections are
    returned; ["Example: Y only"] gives the fallback explanation and
    ["Y only"]; a field whose marker is absent from the text, or whose
    group is the empty string, is the fallback of that field.  [parse] is a
    total function: it returns both fields on every text. *)
Theorem parse_sections_and_fallbacks :
  AgentLogic.parse ("Explainer: X" ++ AgentLogic.newline ++ "Example: Y")
  = AgentLogic.MkResponses "X" "Y"
  /\ AgentLogic.parse "Example: Y only"
     = AgentLogic.MkResponses AgentLogic.explainerFallback "Y only"
  /\ (forall raw,
        Js.includes raw "Explainer: " = false
        \/ Js.includes raw (AgentLogic.newline ++ "Example:") = false
        \/ explainerCapture raw = Some EmptyString ->
        AgentLogic.explainerResponse (AgentLogic.parse raw) = AgentLogic.explainerFallback)
  /\ (forall raw,
        Js.includes raw "Example: " = false \/ exampleCapture raw = Some EmptyString ->
        AgentLogic.exampleResponse (AgentLogic.parse raw) = AgentLogic.exampleFallback).
Proof.
  split; [vm_compute; reflexivity|].
  split; [vm_compute; reflexivity|].
  split.
  - intros raw H.
    change (AgentLogic.explainerResponse (AgentLogic.parse raw))
      with (AgentLogic.orDefault AgentLogic.explainerFallback (explainerCapture raw)).
    destruct (explainerCapture raw) as [capture|] eqn:E; [|reflexivity].
    unfold explainerCapture in E.
    destruct (matchLazy_includes _ _ _ _ E) as [H1 H2].
    destruct H as [H|[H|H]]; [congruence | congruence |].
    injection H as ->. reflexivity.
  - intros raw H.
    change (AgentLogic.exampleResponse (AgentLogic.parse raw))
      with (AgentLogic.orDefault AgentLogic.exampleFallback (exampleCapture raw)).
    destruct (exampleCapture raw) as [capture|] eqn:E; [|reflexivity].
    unfold exampleCapture in E.
    pose proof (matchGreedy_includes _ _ _ E) as H1.
    destruct H as [H|H]; [congruence|].
    injection H as ->. reflexivity.
Qed.

Lemma parse_sections_and_fallbacks_witness :
  AgentLogic.explainerResponse (AgentLogic.parse "Recursion is when a function calls itself.")
  = AgentLogic.explainerFallback
  /\ AgentLogic.exampleResponse (AgentLogic.parse "Explainer: X")
     = AgentLogic.exampleFallback
  /\ AgentLogic.explainerResponse
       (AgentLogic.parse ("Explainer: " ++ AgentLogic.newline ++ "Example: Y"))
     = AgentLogic.explainerFallback.
Proof.
  split; [|split].
  - apply (proj1 (proj2 (proj2 parse_sections_and_fallbacks))).
    left. reflexivity.
  - apply (proj2 (proj2 (proj2 parse_sections_and_fallbacks))).
    left. reflexivity.
  - apply (proj1 (proj2 (proj2 parse_sections_and_fallbacks))).
    right. right. reflexivity.
Defined.

(** The placeholder parser of server.js, whose marker is ["Explanation: "],
    returns both sections on that text. *)
Example parsePlaceholder_Explanation_marker :
  AgentLogic.parsePlaceholder ("Explanation: X" ++ AgentLogic.newline ++ "Example: Y")
  = AgentLogic.MkResponses "X" "Y".
Proof. vm_compute. reflexivity. Qed.

(** ** Date: the ISO form read back *)

Section CalendarFacts.

Lemma allBelow_spec (bits : nat) (lo : Z) (f : Z -> bool) :
  allBelow bits lo f = true ->
  forall k, lo <= k < lo + 2 ^ Z.of_nat bits -> f k = true.
Proof.
  revert lo. induction bits as [|b IH]; intros lo H k Hk.
  - simpl in H. change (2 ^ Z.of_nat 0) with 1 in Hk.
    assert (k = lo) by lia. now subst.
  - simpl in H. apply andb_true_iff in H as [Hl Hr].
    rewrite Nat2Z.inj_succ, Z.pow_succ_r in Hk by lia.
    destruct (Z_lt_ge_dec k (lo + 2 ^ Z.of_nat b)).
    + apply (IH lo Hl). lia.
    + apply (IH _ Hr). lia.
Qed.

(** One 400-year era, checked day by day. *)
Lemma era_checked : allBelow 18 0 eraCheck = true.
Proof. vm_compute. reflexivity. Qed.

Lemma civilOfDayOfEra_spec (doe : Z) :
  0 <= doe < 146097 ->
  let '(y, m, d) := JsDate.civilOfDayOfEra doe in
  0 <= y <= 400 /\ 1 <= m <= 12 /\ 1 <= d <= JsDate.daysInMonth y m
  /\ JsDate.daysFromCivil y m d = doe - 719468.
Proof.
  intros H.
  assert (Hc : eraCheck doe = true).
  { apply (allBelow_spec 18 0 eraCheck era_checked).
    change (2 ^ Z.of_nat 18) with 262144. lia. }
  unfold eraCheck in Hc.
  destruct (146097 <=? doe) eqn:E; [apply Z.leb_le in E; lia|].
  cbn [orb] in Hc.
  destruct (JsDate.civilOfDayOfEra doe) as [[y m] d].
  repeat (apply andb_true_iff in Hc as [Hc ?]).
  repeat match goal with
         | H : (_ <=? _) = true |- _ => apply Z.leb_le in H
         | H : (_ =? _) = true |- _ => apply Z.eqb_eq in H
         end.
  lia.
Qed.

End CalendarFacts.

Section CalendarShift.

Lemma daysFromCivil_shift (y m d e : Z) :
  JsDate.daysFromCivil (y + 400 * e) m d = JsDate.daysFromCivil y m d + 146097 * e.
Proof.
  unfold JsDate.daysFromCivil.
  destruct (m <=? 2).
  - replace (y + 400 * e - 1) with (y - 1 + e * 400) by lia.
    rewrite Z_div_plus_full, Z_mod_plus_full by lia. lia.
  - replace (y + 400 * e) with (y + e * 400) by lia.
    rewrite Z_div_plus_full, Z_mod_plus_full by lia. lia.
Qed.

Lemma isLeap_shift (y e : Z) : JsDate.isLeap (y + 400 * e) = JsDate.isLeap y.
Proof.
  unfold JsDate.isLeap.
  replace ((y + 400 * e) mod 4) with (y mod 4)
    by (replace (y + 400 * e) with (y + (100 * e) * 4) by lia;
        now rewrite Z_mod_plus_full).
  replace ((y + 400 * e) mod 100) with (y mod 100)
    by (replace (y + 400 * e) with (y + (4 * e) * 100) by lia;
        now rewrite Z_mod_plus_full).
  replace ((y + 400 * e) mod 400) with (y mod 400)
    by (replace (y + 400 * e) with (y + e * 400) by lia;
        now rewrite Z_mod_plus_full).
  reflexivity.
Qed.

Lemma daysInMonth_shift (y m e : Z) :
  JsDate.daysInMonth (y + 400 * e) m = JsDate.daysInMonth y m.
Proof. unfold JsDate.daysInMonth. now rewrite isLeap_shift. Qed.

Lemma daysInMonth_le (y m : Z) : JsDate.daysInMonth y m <= 31.
Proof.
  unfold JsDate.daysInMonth.
  destruct (m =? 2); [destruct (JsDate.isLeap y); lia|].
  destruct ((m =? 4) || (m =? 6) || (m =? 9) || (m =? 11)); lia.
Qed.

(** The calendar fields of any day are in range, and [daysFromCivil]
    gives the day back. *)
Lemma civilFromDays_spec (day : Z) :
  let '(y, m, d) := JsDate.civilFromDays day in
  1 <= m <= 12 /\ 1 <= d <= JsDate.daysInMonth y m
  /\ JsDate.daysFromCivil y m d = day
  /\ 400 * ((day + 719468) / 146097) <= y <= 400 * ((day + 719468) / 146097) + 400.
Proof.
  unfold JsDate.civilFromDays.
  pose proof (Z.mod_pos_bound (day + 719468) 146097 ltac:(lia)) as Hm.
  pose proof (civilOfDayOfEra_spec _ Hm) as Hc.
  destruct (JsDate.civilOfDayOfEra ((day + 719468) mod 146097)) as [[y m] d].
  destruct Hc as (Hy & Hmo & Hd & Hr).
  rewrite daysInMonth_shift, daysFromCivil_shift, Hr.
  pose proof (Z.div_mod (day + 719468) 146097 ltac:(lia)).
  repeat split; lia.
Qed.

End CalendarShift.

Section DigitFacts.

Lemma digit_cases (d : Z) :
  0 <= d <= 9 ->
  d = 0 \/ d = 1 \/ d = 2 \/ d = 3 \/ d = 4 \/ d = 5 \/ d = 6 \/ d = 7 \/ d = 8 \/ d = 9.
Proof. lia. Qed.

Lemma digitChar_spec (d : Z) :
  0 <= d <= 9 ->
  JsDate.isDigit (JsDate.digitChar d) = true
  /\ JsDate.digitVal (JsDate.digitChar d) = d
  /\ Ascii.eqb (JsDate.digitChar d) "+" = false
  /\ Ascii.eqb (JsDate.digitChar d) "-" = false.
Proof.
  intros H.
  destruct (digit_cases d H) as [->|[->|[->|[->|[->|[->|[->|[->|[->| ->]]]]]]]]];
    repeat split; reflexivity.
Qed.

(** Reading [S w] digits is reading [w] digits and one more. *)
Lemma readDigits_snoc (w : nat) (acc : Z) (s : string) :
  JsDate.readDigits (S w) acc s
  = match JsDate.readDigits w acc s with
    | Some (a, String c r) =>
        if JsDate.isDigit c then Some (10 * a + JsDate.digitVal c, r) else None
    | _ => None
    end.
Proof.
  revert acc s. induction w as [|w IH]; intros acc s.
  - simpl. destruct s as [|c r]; [reflexivity|].
    destruct (JsDate.isDigit c); reflexivity.
  - change (JsDate.readDigits (S (S w)) acc s)
      with (match s with
            | String c r =>
                if JsDate.isDigit c
                then JsDate.readDigits (S w) (10 * acc + JsDate.digitVal c) r
                else None
            | EmptyString => None
            end).
    destruct s as [|c r]; [reflexivity|].
    destruct (JsDate.isDigit c) eqn:E; [|simpl; now rewrite E].
    rewrite IH. simpl. rewrite E. reflexivity.
Qed.

Lemma append_assoc (a b c : string) : (a ++ b) ++ c = a ++ (b ++ c).
Proof. induction a as [|x a IH]; simpl; [reflexivity | now rewrite IH]. Qed.

(** [readDigits] reads back what [pad] wrote. *)
Lemma readDigits_pad (w : nat) (n acc : Z) (rest : string) :
  0 <= n < 10 ^ Z.of_nat w ->
  JsDate.readDigits w acc (JsDate.pad w n ++ rest)
  = Some (acc * 10 ^ Z.of_nat w + n, rest).
Proof.
  revert n rest. induction w as [|w IH]; intros n rest Hn.
  - change (10 ^ Z.of_nat 0) with 1 in *. simpl. f_equal. f_equal. lia.
  - rewrite Nat2Z.inj_succ, Z.pow_succ_r in * by lia.
    rewrite readDigits_snoc.
    change (JsDate.pad (S w) n)
      with (JsDate.pad w (n / 10) ++ String (JsDate.digitChar (n mod 10)) EmptyString).
    rewrite append_assoc. simpl append at 2.
    pose proof (Z.div_mod n 10 ltac:(lia)) as Hdm.
    pose proof (Z.mod_pos_bound n 10 ltac:(lia)) as Hmb.
    rewrite IH by (split; [apply Z.div_pos; lia | apply Z.div_lt_upper_bound; lia]).
    destruct (digitChar_spec (n mod 10) ltac:(lia)) as (Hd & Hv & _).
    rewrite Hd, Hv. f_equal. f_equal. lia.
Qed.

End DigitFacts.

Section IsoFacts.

Lemma readDigits_pad0 (w : nat) (n : Z) (rest : string) :
  0 <= n < 10 ^ Z.of_nat w ->
  JsDate.readDigits w 0 (JsDate.pad w n ++ rest) = Some (n, rest).
Proof. intros H. rewrite readDigits_pad by exact H. reflexivity. Qed.

(** A padded number starts with a digit. *)
Lemma pad_head (w : nat) (n : Z) (rest : string) :
  exists d r, 0 <= d <= 9 /\ JsDate.pad (S w) n ++ rest = String (JsDate.digitChar d) r.
Proof.
  revert n rest. induction w as [|w IH]; intros n rest.
  - exists (n mod 10), rest. split; [|reflexivity].
    pose proof (Z.mod_pos_bound n 10 ltac:(lia)). lia.
  - change (JsDate.pad (S (S w)) n)
      with (JsDate.pad (S w) (n / 10)
            ++ String (JsDate.digitChar (n mod 10)) EmptyString).
    rewrite append_assoc. apply IH.
Qed.

Lemma expect_lit (c : ascii) (rest : string) :
  JsDate.expect c (String c EmptyString ++ rest) = Some rest.
Proof. simpl. now rewrite Ascii.eqb_refl. Qed.

Lemma readYear_formatYear (y : Z) (rest : string) :
  -999999 <= y <= 999999 ->
  JsDate.readYear (JsDate.formatYear y ++ rest) = Some (y, rest).
Proof.
  intros Hy. unfold JsDate.formatYear.
  destruct ((0 <=? y) && (y <=? 9999)) eqn:E.
  - apply andb_true_iff in E as [E1 E2]. apply Z.leb_le in E1, E2.
    pose proof (readDigits_pad0 4 y rest ltac:(change (10 ^ Z.of_nat 4) with 10000; lia))
      as Hr.
    destruct (pad_head 3 y rest) as (d & r & Hd & Hp).
    rewrite Hp in *. unfold JsDate.readYear.
    destruct (digitChar_spec d Hd) as (_ & _ & Hplus & Hminus).
    rewrite Hplus, Hminus. exact Hr.
  - destruct (Z.ltb_spec y 0) as [Hneg|Hpos].
    + rewrite append_assoc.
      change (JsDate.readYear ("-" ++ JsDate.pad 6 (Z.abs y) ++ rest))
        with (match JsDate.readDigits 6 0 (JsDate.pad 6 (Z.abs y) ++ rest) with
              | Some (y', r') => if y' =? 0 then None else Some (- y', r')
              | None => None
              end).
      rewrite readDigits_pad0 by (change (10 ^ Z.of_nat 6) with 1000000; lia).
      destruct (Z.eqb_spec (Z.abs y) 0); [lia|].
      f_equal. f_equal. lia.
    + rewrite append_assoc.
      change (JsDate.readYear ("+" ++ JsDate.pad 6 (Z.abs y) ++ rest))
        with (JsDate.readDigits 6 0 (JsDate.pad 6 (Z.abs y) ++ rest)).
      rewrite readDigits_pad0 by (change (10 ^ Z.of_nat 6) with 1000000; lia).
      f_equal. f_equal. lia.
Qed.

Lemma truthy_app_cons (a b : string) (c : ascii) : Js.truthy (a ++ String c b) = true.
Proof. destruct a; reflexivity. Qed.

(** [toISOString] succeeds on every valid date, and the string it writes
    is read back as the same time value. *)
Lemma parseIso_toISOString (t : Z) :
  Z.abs t <= JsDate.maxTime ->
  exists s,
    JsDate.toISOString (JsDate.Valid t) = inr s
    /\ JsDate.parseIso s = Some t
    /\ Js.truthy s = true.
Proof.
  unfold JsDate.maxTime. intros Ht. unfold JsDate.toISOString.
  pose proof (civilFromDays_spec (t / JsDate.msPerDay)) as Hc.
  destruct (JsDate.civilFromDays (t / JsDate.msPerDay)) as [[y m] d].
  destruct Hc as (Hm & Hd & Hday & Hy).
  pose proof (daysInMonth_le y m) as Hdim.
  unfold JsDate.msPerDay in *.
  set (ms := t mod 86400000) in *.
  assert (Hms : 0 <= ms < 86400000) by (apply Z.mod_pos_bound; lia).
  assert (Hsplit : t = 86400000 * (t / 86400000) + ms) by (apply Z.div_mod; lia).
  eexists. split; [reflexivity|]. split; [|apply truthy_app_cons].
  unfold JsDate.parseIso.
  rewrite readYear_formatYear
    by (clear - Ht Hy Hsplit Hms; Z.div_mod_to_equations; lia).
  cbv beta iota. rewrite expect_lit. cbv beta iota.
  rewrite readDigits_pad0 by (change (10 ^ Z.of_nat 2) with 100; lia).
  cbv beta iota. rewrite expect_lit. cbv beta iota.
  rewrite readDigits_pad0 by (change (10 ^ Z.of_nat 2) with 100; lia).
  cbv beta iota. rewrite expect_lit. cbv beta iota.
  rewrite readDigits_pad0
    by (change (10 ^ Z.of_nat 2) with 100; clear - Hms; Z.div_mod_to_equations; lia).
  cbv beta iota. rewrite expect_lit. cbv beta iota.
  rewrite readDigits_pad0
    by (change (10 ^ Z.of_nat 2) with 100; clear - Hms; Z.div_mod_to_equations; lia).
  cbv beta iota. rewrite expect_lit. cbv beta iota.
  rewrite readDigits_pad0
    by (change (10 ^ Z.of_nat 2) with 100; clear - Hms; Z.div_mod_to_equations; lia).
  cbv beta iota. rewrite expect_lit. cbv beta iota.
  rewrite readDigits_pad0
    by (change (10 ^ Z.of_nat 3) with 1000; clear - Hms; Z.div_mod_to_equations; lia).
  cbv beta iota.
  change (JsDate.expect "Z" "Z") with (Some EmptyString). cbv beta iota.
  replace ((1 <=? m) && (m <=? 12) && (1 <=? d) && (d <=? JsDate.daysInMonth y m)
           && (ms / 3600000 <=? 23) && (ms / 60000 mod 60 <=? 59)
           && (ms / 1000 mod 60 <=? 59)) with true.
  - f_equal. rewrite Hday. unfold JsDate.msPerDay.
    clear - Hms Hsplit. Z.div_mod_to_equations. lia.
  - symmetry. repeat (apply andb_true_iff; split); apply Z.leb_le;
      try lia; clear - Hms; Z.div_mod_to_equations; lia.
Qed.

Lemma ofString_toISOString (other : string -> Date) (t : Z) :
  Z.abs t <= JsDate.maxTime ->
  exists s,
    JsDate.toISOString (JsDate.Valid t) = inr s
    /\ Js.truthy s = true
    /\ JsDate.ofString other s = JsDate.Valid t.
Proof.
  intros Ht. destruct (parseIso_toISOString t Ht) as (s & Hs & Hp & Hn).
  exists s. split; [exact Hs|]. split; [exact Hn|].
  unfold JsDate.ofString, JsDate.TimeClip. rewrite Hp.
  destruct (Z.leb_spec (Z.abs t) JsDate.maxTime); [reflexivity | lia].
Qed.

End IsoFacts.

(** C8, as stated: a message whose timestamp is an Invalid Date exists
    (the constructor does not look at the timestamp, and [fromJSON] builds
    one from a string that is not a date), and [toJSON] throws on it. *)
Lemma Message_toJSON_throws_on_invalid_date :
  Message.fromJSON strictEngine (JsDate.Valid 0)
    (MkMessageData USER "hello" (Some (inl "yesterday")) None)
  = inr (Message.Mk USER "hello" JsDate.Invalid None)
  /\ Message.toJSON (Message.Mk USER "hello" JsDate.Invalid None)
     = inl (ThrownError (MkError RangeErrorC "Invalid time value" None))
  /\ forall j, Message.toJSON (Message.Mk USER "hello" JsDate.Invalid None) <> inr j.
Proof. split; [reflexivity|]. split; [reflexivity | discriminate]. Qed.

(** C8, amended.  A message built by the constructor with a valid
    timestamp is serialized by [toJSON], and [fromJSON] on that object
    builds a message equal to it: same role, same content, same instant,
    same persona or none. *)
Theorem Message_fromJSON_toJSON
    (other : string -> Date) (current : Date) (role : MessageRole) (content : string)
    (time : Z) (persona : option AgentPersona) (m : Message.t) :
  Message.new role content (JsDate.Valid time) persona = inr m ->
  Z.abs time <= JsDate.maxTime ->
  exists j,
    Message.toJSON m = inr j
    /\ Message.fromJSON other current (Message.dataOfJSON j) = inr m.
Proof.
  intros Hnew Ht.
  apply Message_new_inv in Hnew as [-> Hlen].
  destruct (ofString_toISOString other time Ht) as (s & Hs & Hn & Hp).
  exists (Message.MkJSON role (Js.trim content) s persona). split.
  - unfold Message.toJSON. simpl Message.timestamp. rewrite Hs. reflexivity.
  - unfold Message.fromJSON, Message.dataOfJSON. simpl.
    rewrite Hn, Hp.
    rewrite Message_new_accepts by (rewrite trim_idempotent; exact Hlen).
    rewrite trim_idempotent. reflexivity.
Qed.

Lemma Message_fromJSON_toJSON_witness :
  exists j,
    Message.toJSON (Message.Mk ASSISTANT "Recursion is self-reference."
                      (JsDate.Valid 1704067200123) (Some EXPLAINER)) = inr j
    /\ Message.fromJSON strictEngine (JsDate.Valid 0) (Message.dataOfJSON j)
       = inr (Message.Mk ASSISTANT "Recursion is self-reference."
                (JsDate.Valid 1704067200123) (Some EXPLAINER)).
Proof.
  apply (Message_fromJSON_toJSON strictEngine (JsDate.Valid 0) ASSISTANT
           "  Recursion is self-reference.  " 1704067200123 (Some EXPLAINER)).
  - reflexivity.
  - vm_compute. discriminate.
Defined.

(* ===================================================================== *)
(** * Further properties of the code *)
(* ===================================================================== *)

(** ** Message *)

(** X1.  The constructor succeeds exactly when the trimmed content has 1
    to 10000 characters, and the message then holds the trimmed content
    with the role, the timestamp and the persona it was given. *)
Theorem Message_new_succeeds_iff
    (role : MessageRole) (content : string) (timestamp : Date)
    (persona : option AgentPersona) :
  ((exists m, Message.new role content timestamp persona = inr m)
   <-> 1 <= Js.length (Js.trim content) <= 10000)
  /\ (forall m,
        Message.new role content timestamp persona = inr m ->
        m = Message.Mk role (Js.trim content) timestamp persona).
Proof.
  split; [split|].
  - intros [m H]. apply Message_new_inv in H as [_ H]. exact H.
  - intros H. eexists. apply Message_new_accepts. exact H.
  - intros m H. apply Message_new_inv in H as [H _]. exact H.
Qed.

(** X2.  Every message the constructor builds has a content without
    white space at either end, of 1 to 10000 characters, and building a
    message again from that content gives the same message. *)
Theorem Message_new_content_invariant
    (role : MessageRole) (content : string) (timestamp : Date)
    (persona : option AgentPersona) (m : Message.t) :
  Message.new role content timestamp persona = inr m ->
  Js.trim (Message.content m) = Message.content m
  /\ 1 <= Js.length (Message.content m) <= 10000
  /\ Message.new (Message.role m) (Message.content m) (Message.timestamp m)
       (Message.agentPersona m) = inr m.
Proof.
  intros H. apply Message_new_inv in H as [-> Hlen]. simpl.
  rewrite trim_idempotent. split; [reflexivity|]. split; [exact Hlen|].
  rewrite Message_new_accepts by (rewrite trim_idempotent; exact Hlen).
  rewrite trim_idempotent. reflexivity.
Qed.

Lemma Message_new_content_invariant_witness :
  Js.trim "Hello" = "Hello"
  /\ 1 <= Js.length "Hello" <= 10000
  /\ Message.new USER "Hello" (JsDate.Valid 0) None
     = inr (Message.Mk USER "Hello" (JsDate.Valid 0) None).
Proof.
  apply (Message_new_content_invariant USER "  Hello  " (JsDate.Valid 0) None
           (Message.Mk USER "Hello" (JsDate.Valid 0) None)).
  reflexivity.
Defined.

(** X3.  The three errors of the constructor: the empty string is "not a
    non-empty string"; a content that is not empty but blank "cannot be
    empty"; a content of more than 10000 characters once trimmed "exceeds
    the maximum length". *)
Theorem Message_new_error_messages
    (role : MessageRole) (content : string) (timestamp : Date)
    (persona : option AgentPersona) :
  (content = EmptyString ->
   Message.new role content timestamp persona
   = inl (ThrownError (MkError ErrorC "Message content must be a non-empty string" None)))
  /\ (content <> EmptyString -> Js.length (Js.trim content) = 0 ->
      Message.new role content timestamp persona
      = inl (ThrownError (MkError ErrorC "Message content cannot be empty" None)))
  /\ (Js.length (Js.trim content) > 10000 ->
      Message.new role content timestamp persona
      = inl (ThrownError
               (MkError ErrorC "Message content exceeds maximum length of 10000 characters"
                  None))).
Proof.
  unfold Message.new, Message.validateContent, Message.maxLength.
  split; [|split].
  - intros ->. reflexivity.
  - intros Hne H0. destruct content as [|c r]; [congruence|].
    cbn [Js.truthy negb]. rewrite H0. reflexivity.
  - intros Hlong.
    destruct content as [|c r]; [exfalso; change (0 > 10000) in Hlong; lia|].
    cbn [Js.truthy negb].
    destruct (Z.eqb_spec (Js.length (Js.trim (String c r))) 0); [lia|].
    rewrite Z.gtb_ltb.
    destruct (Z.ltb_spec 10000 (Js.length (Js.trim (String c r)))); [reflexivity | lia].
Qed.

Lemma Message_new_error_messages_witness :
  Message.new USER "" (JsDate.Valid 0) None
  = inl (ThrownError (MkError ErrorC "Message content must be a non-empty string" None))
  /\ Message.new USER "   " (JsDate.Valid 0) None
     = inl (ThrownError (MkError ErrorC "Message content cannot be empty" None))
  /\ Message.new USER (Js.repeat "a" (Z.to_nat 10001)) (JsDate.Valid 0) None
     = inl (ThrownError
              (MkError ErrorC "Message content exceeds maximum length of 10000 characters"
                 None)).
Proof.
  split; [|split].
  - apply (proj1 (Message_new_error_messages USER "" (JsDate.Valid 0) None)).
    reflexivity.
  - apply (proj1 (proj2 (Message_new_error_messages USER "   " (JsDate.Valid 0) None))).
    + discriminate.
    + reflexivity.
  - apply (proj2 (proj2 (Message_new_error_messages USER (Js.repeat "a" (Z.to_nat 10001))
                           (JsDate.Valid 0) None))).
    vm_compute. reflexivity.
Defined.

(** X4.  [fromJSON] fails for the content only: it succeeds exactly when
    the trimmed content has 1 to 10000 characters, whatever the timestamp;
    a missing timestamp or an empty string gives the current date, a
    [Date] is kept as it is. *)
Theorem Message_fromJSON_timestamp
    (other : string -> Date) (current : Date) (data : MessageData) :
  ((exists m, Message.fromJSON other current data = inr m)
   <-> 1 <= Js.length (Js.trim (dataContent data)) <= 10000)
  /\ (forall m,
        Message.fromJSON other current data = inr m ->
        (dataTimestamp data = None \/ dataTimestamp data = Some (inl EmptyString) ->
         Message.timestamp m = current)
        /\ (forall d, dataTimestamp data = Some (inr d) -> Message.timestamp m = d)
        /\ Message.role m = dataRole data
        /\ Message.content m = Js.trim (dataContent data)
        /\ Message.agentPersona m = dataAgentPersona data).
Proof.
  unfold Message.fromJSON. split; [split|].
  - intros [m H]. apply Message_new_inv in H as [_ H]. exact H.
  - intros H. eexists. apply Message_new_accepts. exact H.
  - intros m H. apply Message_new_inv in H as [-> _]. simpl.
    split; [|split; [|repeat split]].
    + intros [-> | ->]; reflexivity.
    + intros d ->. reflexivity.
Qed.

Lemma Message_fromJSON_timestamp_witness :
  Message.timestamp (Message.Mk USER "Test" (JsDate.Valid 7) None) = JsDate.Valid 7
  /\ Message.content (Message.Mk USER "Test" (JsDate.Valid 7) None) = "Test".
Proof.
  pose proof (proj2 (Message_fromJSON_timestamp strictEngine (JsDate.Valid 7)
                       (MkMessageData USER " Test " None None))
                (Message.Mk USER "Test" (JsDate.Valid 7) None) eq_refl) as H.
  split.
  - apply (proj1 H). left. reflexivity.
  - apply (proj1 (proj2 (proj2 (proj2 H)))).
Defined.

(** ** Conversation *)

(** X5.  [getRecentMessages] with a count of 1 or more returns the end of
    the sequence: the messages are some older ones followed by the result,
    which has [count] elements, or all of them when there are fewer.  With
    a negative count, [slice] gets a positive start and the result is the
    sequence without its first [- count] messages. *)
Theorem getRecentMessages_suffix (count : Z) (self : Conversation.t) :
  (1 <= count ->
   exists older,
     Conversation.messages self
     = (older ++ Conversation.getRecentMessages count self)%list
     /\ Z.of_nat (List.length (Conversation.getRecentMessages count self))
        = Z.min count (size self))
  /\ (count < 0 ->
      Conversation.getRecentMessages count self
      = skipn (Z.to_nat (- count)) (Conversation.messages self)).
Proof.
  unfold Conversation.getRecentMessages, Array_slice_from, size. split.
  - intros H. destruct (Z.ltb_spec (- count) 0) as [_|?]; [|lia].
    set (k := Z.to_nat (Z.max (Z.of_nat (List.length (Conversation.messages self)) + - count) 0)).
    exists (firstn k (Conversation.messages self)). split.
    + symmetry. apply firstn_skipn.
    + rewrite length_skipn. unfold k. lia.
  - intros H. destruct (Z.ltb_spec (- count) 0) as [?|_]; [lia|].
    destruct (Z_le_gt_dec (- count) (Z.of_nat (List.length (Conversation.messages self)))).
    + rewrite Z.min_l by lia. reflexivity.
    + rewrite Z.min_r by lia. rewrite Nat2Z.id.
      rewrite !skipn_all2; [reflexivity | lia | lia].
Qed.

Lemma getRecentMessages_suffix_witness :
  (exists older,
     [sampleMessage "a"; sampleMessage "b"; sampleMessage "c"]
     = (older ++ Conversation.getRecentMessages 2
                   (Conversation.new [sampleMessage "a"; sampleMessage "b"; sampleMessage "c"]
                      None None None (JsDate.Valid 0)))%list
     /\ Z.of_nat (List.length
                    (Conversation.getRecentMessages 2
                       (Conversation.new
                          [sampleMessage "a"; sampleMessage "b"; sampleMessage "c"]
                          None None None (JsDate.Valid 0)))) = 2)
  /\ Conversation.getRecentMessages (- 1)
       (Conversation.new [sampleMessage "a"; sampleMessage "b"; sampleMessage "c"]
          None None None (JsDate.Valid 0))
     = [sampleMessage "b"; sampleMessage "c"].
Proof.
  split.
  - apply (proj1 (getRecentMessages_suffix 2
                    (Conversation.new [sampleMessage "a"; sampleMessage "b"; sampleMessage "c"]
                       None None None (JsDate.Valid 0)))).
    lia.
  - apply (proj2 (getRecentMessages_suffix (- 1)
                    (Conversation.new [sampleMessage "a"; sampleMessage "b"; sampleMessage "c"]
                       None None None (JsDate.Valid 0)))).
    lia.
Defined.

(** X6.  After an [addMessage] that succeeds, the provider's format of the
    conversation is the format it had before followed by one turn for the
    new message: role ["user"] for a user message and ["model"] for any
    other, with the content as its single part. *)
Theorem getGeminiFormat_after_addMessage
    (self self' : Conversation.t) (message : Message.t) (current : Date) :
  Conversation.addMessage message current self = (inr tt, self') ->
  Conversation.getGeminiFormat self'
  = (Conversation.getGeminiFormat self ++ [turnOf message])%list
  /\ (turnRole (turnOf message) = "user" <-> Message.role message = USER)
  /\ (turnRole (turnOf message) = "model" <-> Message.role message <> USER).
Proof.
  intros H.
  destruct (Z_lt_ge_dec (size self) Conversation.maxHistory) as [Hlt|Hge].
  - rewrite addMessage_room in H by exact Hlt. injection H as <-.
    split; [|split].
    + unfold Conversation.getGeminiFormat. simpl. rewrite map_app. reflexivity.
    + unfold turnOf. destruct (Message.role message); simpl; split;
        intros; congruence.
    + unfold turnOf. destruct (Message.role message); simpl; split;
        intros; congruence.
  - rewrite addMessage_full in H by exact Hge. discriminate.
Qed.

Lemma getGeminiFormat_after_addMessage_witness :
  Conversation.getGeminiFormat
    (Conversation.touch (JsDate.Valid 1)
       (Conversation.push (Message.Mk SYSTEM "Be kind." (JsDate.Valid 1) None)
          (sampleConversation 1)))
  = [MkGeminiTurn "user" ["hello"]; MkGeminiTurn "model" ["Be kind."]].
Proof.
  apply (proj1 (getGeminiFormat_after_addMessage (sampleConversation 1)
                  (Conversation.touch (JsDate.Valid 1)
                     (Conversation.push (Message.Mk SYSTEM "Be kind." (JsDate.Valid 1) None)
                        (sampleConversation 1)))
                  (Message.Mk SYSTEM "Be kind." (JsDate.Valid 1) None) (JsDate.Valid 1)
                  eq_refl)).
Defined.

(** X7.  A client that keeps calling [addMessage] on a conversation
    within the bound, catching the errors, ends with the messages it had
    followed by the first ones added, up to 100 in all: every later
    message is refused. *)
Theorem addAll_keeps_first (l : list (Message.t * Date)) (self : Conversation.t) :
  size self <= 100 ->
  Conversation.messages (Conversation.addAll l self)
  = (Conversation.messages self
     ++ firstn (Z.to_nat (100 - size self)) (map fst l))%list.
Proof.
  revert self. induction l as [|[m d] l IH]; intros self H.
  - simpl. rewrite firstn_nil, app_nil_r. reflexivity.
  - cbn [Conversation.addAll fold_left fst snd map].
    change (fold_left _ l ?c) with (Conversation.addAll l c).
    destruct (Z_lt_ge_dec (size self) Conversation.maxHistory) as [Hlt|Hge].
    + rewrite addMessage_room by exact Hlt. cbn [snd].
      assert (Hs : size (Conversation.touch d (Conversation.push m self)) = size self + 1).
      { unfold size. simpl. rewrite length_app. simpl. lia. }
      unfold Conversation.maxHistory in Hlt.
      rewrite IH by lia. rewrite Hs. simpl Conversation.messages.
      replace (Z.to_nat (100 - size self)) with (S (Z.to_nat (100 - (size self + 1)))) by lia.
      cbn [firstn]. rewrite <- app_assoc. reflexivity.
    + rewrite addMessage_full by exact Hge. cbn [snd].
      unfold Conversation.maxHistory in Hge.
      rewrite IH by lia.
      replace (Z.to_nat (100 - size self)) with O by lia.
      rewrite !firstn_O. reflexivity.
Qed.

Lemma addAll_keeps_first_witness :
  Conversation.messages
    (Conversation.addAll [(sampleMessage "one", JsDate.Valid 1);
                          (sampleMessage "two", JsDate.Valid 2)]
       (sampleConversation 99))
  = (Conversation.messages (sampleConversation 99) ++ [sampleMessage "one"])%list.
Proof.
  apply (addAll_keeps_first [(sampleMessage "one", JsDate.Valid 1);
                             (sampleMessage "two", JsDate.Valid 2)]
           (sampleConversation 99)).
  vm_compute. discriminate.
Defined.

Section SerializationFacts.

Variable other : string -> Date.

Lemma constructed_restores (current : Date) (m : Message.t) :
  constructed m ->
  exists j,
    Message.toJSON m = inr j
    /\ Message.fromJSON other current (Message.dataOfJSON j) = inr m.
Proof.
  intros (role & content & time & persona & Hnew & Ht).
  apply Message_new_inv in Hnew as [-> Hlen].
  destruct (ofString_toISOString other time Ht) as (s & Hs & Hn & Hp).
  exists (Message.MkJSON role (Js.trim content) s persona). split.
  - unfold Message.toJSON. simpl Message.timestamp. rewrite Hs. reflexivity.
  - unfold Message.fromJSON, Message.dataOfJSON. simpl.
    rewrite Hn, Hp.
    rewrite Message_new_accepts by (rewrite trim_idempotent; exact Hlen).
    rewrite trim_idempotent. reflexivity.
Qed.

Lemma MessageData_eta (d : MessageData) :
  {| dataRole := dataRole d;
     dataContent := dataContent d;
     dataTimestamp := dataTimestamp d;
     dataAgentPersona := dataAgentPersona d |} = d.
Proof. destruct d; reflexivity. Qed.

Lemma mapThrowing_toJSON_restores (current : Date) (l : list Message.t) :
  Forall constructed l ->
  exists js,
    Array_mapThrowing Message.toJSON l = inr js
    /\ List.length js = List.length l
    /\ ChatUseCase.mapResult
         (fun msg =>
            Message.fromJSON other current
              {| dataRole := dataRole msg;
                 dataContent := dataContent msg;
                 dataTimestamp := dataTimestamp msg;
                 dataAgentPersona := dataAgentPersona msg |})
         (map Message.dataOfJSON js) = inr l.
Proof.
  induction 1 as [|m l Hm _ IH].
  - exists []. repeat split.
  - destruct IH as (js & Hjs & Hlen & Hback).
    destruct (constructed_restores current m Hm) as (j & Hj & Hr).
    exists (j :: js). split; [|split].
    + simpl. rewrite Hj. simpl. rewrite Hjs. reflexivity.
    + simpl. now rewrite Hlen.
    + cbn [map ChatUseCase.mapResult]. rewrite MessageData_eta, Hr.
      cbn [andThen]. rewrite Hback. reflexivity.
Qed.

Lemma toISOString_valid (d : Date) :
  validDate d -> exists s, JsDate.toISOString d = inr s.
Proof.
  intros (time & -> & Ht).
  destruct (parseIso_toISOString time Ht) as (s & Hs & _). now exists s.
Qed.

Lemma toISOString_throws (d : Date) (t : Thrown) :
  JsDate.toISOString d = inl t ->
  t = ThrownError (MkError RangeErrorC "Invalid time value" None).
Proof.
  destruct d as [time|]; simpl.
  - destruct (JsDate.civilFromDays (time / JsDate.msPerDay)) as [[y m] d]. discriminate.
  - now intros [= <-].
Qed.

Lemma Message_toJSON_throws (m : Message.t) (t : Thrown) :
  Message.toJSON m = inl t ->
  t = ThrownError (MkError RangeErrorC "Invalid time value" None).
Proof.
  unfold Message.toJSON.
  destruct (JsDate.toISOString (Message.timestamp m)) as [t0|s] eqn:E; simpl.
  - intros [= <-]. eapply toISOString_throws, E.
  - discriminate.
Qed.

Lemma mapThrowing_toJSON_throws (l : list Message.t) (t : Thrown) :
  Array_mapThrowing Message.toJSON l = inl t ->
  t = ThrownError (MkError RangeErrorC "Invalid time value" None).
Proof.
  induction l as [|m l IH]; simpl; [discriminate|].
  destruct (Message.toJSON m) as [t0|j] eqn:E; simpl.
  - intros [= <-]. eapply Message_toJSON_throws, E.
  - destruct (Array_mapThrowing Message.toJSON l) as [t1|js]; simpl; [|discriminate].
    intros [= <-]. now apply IH.
Qed.

Lemma mapThrowing_toJSON_invalid (l : list Message.t) :
  Exists (fun m => Message.timestamp m = JsDate.Invalid) l ->
  Array_mapThrowing Message.toJSON l
  = inl (ThrownError (MkError RangeErrorC "Invalid time value" None)).
Proof.
  induction 1 as [m l Hm|m l _ IH]; simpl.
  - unfold Message.toJSON at 1. rewrite Hm. reflexivity.
  - destruct (Message.toJSON m) as [t0|j] eqn:E; simpl.
    + now rewrite (Message_toJSON_throws m t0 E).
    + rewrite IH. reflexivity.
Qed.

End SerializationFacts.

(** X8.  A conversation whose messages were built by the constructor with
    valid timestamps, and whose own dates are valid, is serialized by
    [toJSON] with one entry per message; restoring a conversation from
    those entries, as [createConversation] does with the history of a
    request, gives the same messages in the same order, and the subject and
    the topic when they are not empty. *)
Theorem Conversation_toJSON_restored
    (other : string -> Date) (self : Conversation.t) (message : string) (w : World) :
  Forall constructed (Conversation.messages self) ->
  validDate (Conversation.createdAt self) ->
  validDate (Conversation.updatedAt self) ->
  exists j conversation,
    Conversation.toJSON self = inr j
    /\ List.length (Conversation.jsonMessages j) = List.length (Conversation.messages self)
    /\ ChatUseCase.createConversation other (requestOfJSON message j) w = (inr conversation, w)
    /\ Conversation.messages conversation = Conversation.messages self
    /\ Conversation.subject conversation = Conversation.spread (Conversation.subject self)
    /\ Conversation.topic conversation = Conversation.spread (Conversation.topic self).
Proof.
  intros Hm Hc Hu.
  destruct (mapThrowing_toJSON_restores other (now w) _ Hm) as (js & Hjs & Hlen & Hback).
  destruct (toISOString_valid _ Hc) as (sc & Hsc).
  destruct (toISOString_valid _ Hu) as (su & Hsu).
  eexists. eexists. split; [|split; [|split; [|split; [|split]]]].
  - unfold Conversation.toJSON. rewrite Hjs. simpl. rewrite Hsc. simpl. rewrite Hsu.
    simpl. reflexivity.
  - exact Hlen.
  - unfold ChatUseCase.createConversation, requestOfJSON. simpl.
    rewrite Hback. reflexivity.
  - reflexivity.
  - reflexivity.
  - reflexivity.
Qed.

Lemma Conversation_toJSON_restored_witness :
  exists j conversation,
    Conversation.toJSON (sampleConversation 2) = inr j
    /\ List.length (Conversation.jsonMessages j)
       = List.length (Conversation.messages (sampleConversation 2))
    /\ ChatUseCase.createConversation strictEngine (requestOfJSON "Next question" j)
         sampleWorld = (inr conversation, sampleWorld)
    /\ Conversation.messages conversation = Conversation.messages (sampleConversation 2)
    /\ Conversation.subject conversation
       = Conversation.spread (Conversation.subject (sampleConversation 2))
    /\ Conversation.topic conversation
       = Conversation.spread (Conversation.topic (sampleConversation 2)).
Proof.
  apply (Conversation_toJSON_restored strictEngine (sampleConversation 2) "Next question"
           sampleWorld).
  - change (Forall constructed [sampleMessage "hello"; sampleMessage "hello"]).
    repeat (apply Forall_cons;
            [exists USER, "hello", 0, None; split;
               [reflexivity | vm_compute; discriminate]|]).
    apply Forall_nil.
  - exists 0. split; [reflexivity | vm_compute; discriminate].
  - exists 0. split; [reflexivity | vm_compute; discriminate].
Defined.

(** X9.  [toJSON] throws the [RangeError] of [toISOString] as soon as the
    timestamp of one message, the creation date or the update date is an
    Invalid Date. *)
Theorem Conversation_toJSON_invalid_date (self : Conversation.t) :
  Exists (fun m => Message.timestamp m = JsDate.Invalid) (Conversation.messages self)
  \/ Conversation.createdAt self = JsDate.Invalid
  \/ Conversation.updatedAt self = JsDate.Invalid ->
  Conversation.toJSON self
  = inl (ThrownError (MkError RangeErrorC "Invalid time value" None)).
Proof.
  intros H. unfold Conversation.toJSON.
  destruct (Array_mapThrowing Message.toJSON (Conversation.messages self)) as [t|js] eqn:Em.
  - simpl. now rewrite (mapThrowing_toJSON_throws _ _ Em).
  - destruct H as [H|H].
    + rewrite (mapThrowing_toJSON_invalid _ H) in Em. discriminate.
    + simpl.
      destruct (JsDate.toISOString (Conversation.createdAt self)) as [t|sc] eqn:Ec.
      * simpl. now rewrite (toISOString_throws _ _ Ec).
      * destruct H as [H|H]; [rewrite H in Ec; discriminate|].
        simpl. rewrite H. reflexivity.
Qed.

Lemma Conversation_toJSON_invalid_date_witness :
  Conversation.toJSON
    (Conversation.new [sampleMessage "a"; Message.Mk USER "b" JsDate.Invalid None]
       None None None (JsDate.Valid 0))
  = inl (ThrownError (MkError RangeErrorC "Invalid time value" None)).
Proof.
  apply (Conversation_toJSON_invalid_date
           (Conversation.new [sampleMessage "a"; Message.Mk USER "b" JsDate.Invalid None]
              None None None (JsDate.Valid 0))).
  left. right. left. reflexivity.
Defined.

(** ** GeminiService *)

(** X10.  [isNonRetryableError] holds exactly of the [Error]s whose
    message, put in lower case, contains one of the six markers; a thrown
    value that is not an [Error] is never non-retryable, whatever its
    text. *)
Theorem isNonRetryableError_iff (error : Thrown) :
  GeminiService.isNonRetryableError error = true
  <-> exists e marker pre post,
        error = ThrownError e
        /\ In marker ["api key"; "authentication"; "unauthorized"; "quota"; "billing";
                      "invalid"]
        /\ Js.toLowerCase (errMessage e) = pre ++ marker ++ post.
Proof.
  split.
  - destruct error as [e|text]; [|discriminate].
    unfold GeminiService.isNonRetryableError. intros H.
    apply existsb_exists in H as (marker & Hin & Hinc).
    apply includes_spec in Hinc as (pre & post & Heq).
    exists e, marker, pre, post. repeat split; assumption.
  - intros (e & marker & pre & post & -> & Hin & Heq).
    unfold GeminiService.isNonRetryableError.
    apply existsb_exists. exists marker. split; [exact Hin|].
    apply includes_spec. now exists pre, post.
Qed.

Section LoopFacts.

Variable provider : Provider.
Variables (prompt : string) (history : list GeminiTurn).

(** The loop calls the provider at most once per remaining attempt,
    always with the same call, and throws [GeminiApiError]s only. *)
Lemma retryLoop_bounded (remaining : nat) :
  forall (attempt : Z) (lastError : option JsError) (w : World),
  exists k,
    (k <= remaining)%nat
    /\ (1 <= remaining -> 1 <= k)%nat
    /\ calls (snd (GeminiService.retryLoop provider prompt history remaining attempt
                     lastError w))
       = (calls w ++ List.repeat (sdkCallFor prompt history) k)%list
    /\ forall t,
         fst (GeminiService.retryLoop provider prompt history remaining attempt
                lastError w) = inl t ->
         exists message cause,
           t = ThrownError (AppError.GeminiApiError message cause)
           /\ (cause = None -> lastError = None /\ remaining = O).
Proof.
  induction remaining as [|remaining IH]; intros attempt lastError w.
  - exists O. split; [lia|]. split; [lia|]. split.
    + simpl. now rewrite app_nil_r.
    + simpl. intros t [= <-]. eexists. eexists. split; [reflexivity|].
      intros ->. now split.
  - destruct (provider w (sdkCallFor prompt history)) as [[error|text] elapsed] eqn:E.
    + destruct (GeminiService.isNonRetryableError error) eqn:N.
      * rewrite (retryLoop_non_retryable provider prompt history _ _ _ _ _ _ E N).
        exists 1%nat. split; [lia|]. split; [lia|]. split; [reflexivity|].
        simpl. intros t [= <-]. eexists. eexists. split; [reflexivity|]. discriminate.
      * rewrite (retryLoop_retry provider prompt history _ _ _ _ _ _ E N).
        match goal with
        | |- context [GeminiService.retryLoop _ _ _ remaining ?a ?l ?w'] =>
            destruct (IH a l w') as (k & Hk & _ & Hc & Ht);
            assert (Hw : calls w' = (calls w ++ [sdkCallFor prompt history])%list)
              by (destruct (attempt <? GeminiService.maxRetries); reflexivity)
        end.
        exists (S k). split; [lia|]. split; [lia|]. split.
        -- rewrite Hc, Hw, <- app_assoc. reflexivity.
        -- intros t Hf. destruct (Ht t Hf) as (message & cause & -> & Hcause).
           exists message, cause. split; [reflexivity|].
           intros ->. destruct (Hcause eq_refl) as [? _]. discriminate.
    + rewrite (retryLoop_success provider prompt history _ _ _ _ _ _ E).
      exists 1%nat. split; [lia|]. split; [lia|]. split; [reflexivity|].
      simpl. discriminate.
Qed.

End LoopFacts.

(** X11.  Whatever the provider does, [generateResponse] calls it at
    least once and at most three times, each time with the same prompt and
    history, and what it throws is always a [GeminiApiError] that carries
    a cause. *)
Theorem generateResponse_bounded
    (provider : Provider) (prompt : string) (history : list GeminiTurn) (w : World) :
  exists k,
    (1 <= k <= 3)%nat
    /\ calls (snd (GeminiService.generateResponse provider prompt history w))
       = (calls w ++ List.repeat (sdkCallFor prompt history) k)%list
    /\ forall t,
         fst (GeminiService.generateResponse provider prompt history w) = inl t ->
         exists message cause,
           t = ThrownError (MkError GeminiApiErrorC ("Gemini API Error: " ++ message)
                              (Some cause)).
Proof.
  unfold GeminiService.generateResponse.
  change (Z.to_nat GeminiService.maxRetries) with 3%nat.
  destruct (retryLoop_bounded provider prompt history 3 1 None w) as (k & Hk & H1 & Hc & Ht).
  exists k. split; [lia|]. split; [exact Hc|].
  intros t Hf. destruct (Ht t Hf) as (message & cause & -> & Hcause).
  destruct cause as [cause|].
  - exists message, cause. reflexivity.
  - destruct (Hcause eq_refl) as [_ ?]. discriminate.
Qed.

(** X12.  An attempt that succeeds ends the loop with the text of the
    provider: at the first attempt after a single call and no delay; after
    one failure that may be retried, at the second call, 1000 ms after the
    first; after two, at the third call, 2000 ms after the second. *)
Theorem generateResponse_recovers
    (provider : Provider) (prompt : string) (history : list GeminiTurn) (w : World) :
  (forall text d,
     provider w (sdkCallFor prompt history) = (inr text, d) ->
     GeminiService.generateResponse provider prompt history w
     = (inr text, afterCall (sdkCallFor prompt history) d w))
  /\ (forall e1 d1 text d2,
        provider w (sdkCallFor prompt history) = (inl e1, d1) ->
        GeminiService.isNonRetryableError e1 = false ->
        provider (afterDelay 1000 (afterCall (sdkCallFor prompt history) d1 w))
          (sdkCallFor prompt history) = (inr text, d2) ->
        GeminiService.generateResponse provider prompt history w
        = (inr text,
           afterCall (sdkCallFor prompt history) d2
             (afterDelay 1000 (afterCall (sdkCallFor prompt history) d1 w))))
  /\ (forall e1 d1 e2 d2 text d3,
        provider w (sdkCallFor prompt history) = (inl e1, d1) ->
        GeminiService.isNonRetryableError e1 = false ->
        provider (afterDelay 1000 (afterCall (sdkCallFor prompt history) d1 w))
          (sdkCallFor prompt history) = (inl e2, d2) ->
        GeminiService.isNonRetryableError e2 = false ->
        provider (afterDelay 2000 (afterCall (sdkCallFor prompt history) d2
                   (afterDelay 1000 (afterCall (sdkCallFor prompt history) d1 w))))
          (sdkCallFor prompt history) = (inr text, d3) ->
        GeminiService.generateResponse provider prompt history w
        = (inr text,
           afterCall (sdkCallFor prompt history) d3
             (afterDelay 2000 (afterCall (sdkCallFor prompt history) d2
                (afterDelay 1000 (afterCall (sdkCallFor prompt history) d1 w)))))).
Proof.
  unfold GeminiService.generateResponse.
  change (Z.to_nat GeminiService.maxRetries) with 3%nat.
  split; [|split].
  - intros text d H.
    now rewrite (retryLoop_success provider prompt history _ _ _ _ _ _ H).
  - intros e1 d1 text d2 H1 N1 H2.
    rewrite (retryLoop_retry provider prompt history _ _ _ _ _ _ H1 N1).
    change (1 <? GeminiService.maxRetries) with true. cbv iota.
    change (GeminiService.retryDelay * 1) with 1000.
    now rewrite (retryLoop_success provider prompt history _ _ _ _ _ _ H2).
  - intros e1 d1 e2 d2 text d3 H1 N1 H2 N2 H3.
    rewrite (retryLoop_retry provider prompt history _ _ _ _ _ _ H1 N1).
    change (1 <? GeminiService.maxRetries) with true. cbv iota.
    change (GeminiService.retryDelay * 1) with 1000.
    rewrite (retryLoop_retry provider prompt history _ _ _ _ _ _ H2 N2).
    change (1 + 1 <? GeminiService.maxRetries) with true. cbv iota.
    change (GeminiService.retryDelay * (1 + 1)) with 2000.
    now rewrite (retryLoop_success provider prompt history _ _ _ _ _ _ H3).
Qed.

Lemma generateResponse_recovers_witness :
  GeminiService.generateResponse (scriptedProvider [failure "fetch failed"])
    "What is recursion?" [] sampleWorld
  = (inr "An answer.",
     {| calls := [GenerateContent "What is recursion?"; GenerateContent "What is recursion?"];
        clock := clock sampleWorld + 10 + 1000 + 10 |}).
Proof.
  apply (proj1 (proj2 (generateResponse_recovers (scriptedProvider [failure "fetch failed"])
                         "What is recursion?" [] sampleWorld))
           (ThrownError (MkError ErrorC "fetch failed" None)) 10 "An answer." 10);
    reflexivity.
Defined.

(** X13.  A non-retryable error ends the loop at whatever attempt it
    comes: after one failure that may be retried, a non-retryable error at
    the second attempt is reported at once, the provider having been
    called twice and never a third time. *)
Theorem generateResponse_stops_at_non_retryable
    (provider : Provider) (prompt : string) (history : list GeminiTurn) (w : World)
    (e1 e2 : Thrown) (d1 d2 : Z) :
  provider w (sdkCallFor prompt history) = (inl e1, d1) ->
  GeminiService.isNonRetryableError e1 = false ->
  provider (afterDelay 1000 (afterCall (sdkCallFor prompt history) d1 w))
    (sdkCallFor prompt history) = (inl e2, d2) ->
  GeminiService.isNonRetryableError e2 = true ->
  GeminiService.generateResponse provider prompt history w
  = (inl (ThrownError
            (MkError GeminiApiErrorC
               ("Gemini API Error: Non-retryable error: " ++ errMessage (asError e2))
               (Some (asError e2)))),
     {| calls := (calls w ++ [sdkCallFor prompt history; sdkCallFor prompt history])%list;
        clock := clock w + d1 + 1000 + d2 |}).
Proof.
  intros H1 N1 H2 N2. unfold GeminiService.generateResponse.
  change (Z.to_nat GeminiService.maxRetries) with 3%nat.
  rewrite (retryLoop_retry provider prompt history _ _ _ _ _ _ H1 N1).
  change (1 <? GeminiService.maxRetries) with true. cbv iota.
  change (GeminiService.retryDelay * 1) with 1000.
  rewrite (retryLoop_non_retryable provider prompt history _ _ _ _ _ _ H2 N2).
  unfold afterCall, afterDelay. simpl. rewrite <- app_assoc. reflexivity.
Qed.

Lemma generateResponse_stops_at_non_retryable_witness :
  GeminiService.generateResponse
    (scriptedProvider [failure "fetch failed"; failure "API key not valid"])
    "What is recursion?" [] sampleWorld
  = (inl (ThrownError
            (MkError GeminiApiErrorC "Gemini API Error: Non-retryable error: API key not valid"
               (Some (MkError ErrorC "API key not valid" None)))),
     {| calls := [GenerateContent "What is recursion?"; GenerateContent "What is recursion?"];
        clock := clock sampleWorld + 10 + 1000 + 10 |}).
Proof.
  apply (generateResponse_stops_at_non_retryable
           (scriptedProvider [failure "fetch failed"; failure "API key not valid"])
           "What is recursion?" [] sampleWorld
           (ThrownError (MkError ErrorC "fetch failed" None))
           (ThrownError (MkError ErrorC "API key not valid" None)) 10 10);
    reflexivity.
Defined.

(** ** ChatUseCase *)

Section RestoreFacts.

Variable other : string -> Date.
Variable current : Date.

Let restore (msg : MessageData) : JsResult Message.t :=
  Message.fromJSON other current
    {| dataRole := dataRole msg;
       dataContent := dataContent msg;
       dataTimestamp := dataTimestamp msg;
       dataAgentPersona := dataAgentPersona msg |}.

Lemma restore_valid (d : MessageData) :
  validEntry d -> exists m, restore d = inr m /\ restoredFrom d m.
Proof.
  intros H. unfold restore, Message.fromJSON. simpl.
  rewrite Message_new_accepts by exact H.
  eexists. split; [reflexivity|]. repeat split.
Qed.

Lemma restore_invalid (d : MessageData) :
  ~ validEntry d -> exists text, restore d = inl (ThrownError (MkError ErrorC text None)).
Proof.
  intros H. unfold restore, Message.fromJSON. simpl.
  apply Message_new_rejects. unfold validEntry in H.
  pose proof (length_nonneg (Js.trim (dataContent d))).
  unfold Message.maxLength. lia.
Qed.

Lemma restore_throws (d : MessageData) (t : Thrown) :
  restore d = inl t -> exists text, t = ThrownError (MkError ErrorC text None).
Proof. unfold restore, Message.fromJSON. apply Message_new_throws. Qed.

Lemma mapResult_restore_valid (history : list MessageData) :
  Forall validEntry history ->
  exists ms, ChatUseCase.mapResult restore history = inr ms
             /\ Forall2 restoredFrom history ms.
Proof.
  induction 1 as [|d history Hd _ IH].
  - exists []. split; [reflexivity | constructor].
  - destruct IH as (ms & Hms & Hf).
    destruct (restore_valid d Hd) as (m & Hm & Hr).
    exists (m :: ms). split.
    + cbn [ChatUseCase.mapResult]. rewrite Hm. cbn [andThen]. rewrite Hms. reflexivity.
    + now constructor.
Qed.

Lemma mapResult_restore_invalid (history : list MessageData) :
  Exists (fun d => ~ validEntry d) history ->
  exists text,
    ChatUseCase.mapResult restore history = inl (ThrownError (MkError ErrorC text None)).
Proof.
  induction 1 as [d history Hd|d history _ IH]; cbn [ChatUseCase.mapResult].
  - destruct (restore_invalid d Hd) as (text & ->). now exists text.
  - destruct (restore d) as [t|m] eqn:E.
    + destruct (restore_throws d t E) as (text & ->). now exists text.
    + destruct IH as (text & ->). now exists text.
Qed.

End RestoreFacts.

(** X14.  [createConversation] restores the history of a request entry by
    entry.  Without a history the conversation is empty.  When the content
    of every entry is accepted by the [Message] constructor (1 to 10000
    characters once trimmed), the conversation has one message per entry,
    in the same order, with the role and the persona of the entry and its
    content trimmed.  When one entry is not accepted, the whole restoration
    fails with a plain [Error].  The world is left as it was. *)
Theorem createConversation_restores
    (other : string -> Date) (request : ChatRequest) (w : World) :
  (conversationHistory request = None ->
   exists conversation,
     ChatUseCase.createConversation other request w = (inr conversation, w)
     /\ Conversation.messages conversation = [])
  /\ (forall history,
        conversationHistory request = Some history ->
        Forall validEntry history ->
        exists conversation,
          ChatUseCase.createConversation other request w = (inr conversation, w)
          /\ Forall2 restoredFrom history (Conversation.messages conversation)
          /\ Conversation.subject conversation = reqSubject request
          /\ Conversation.topic conversation = reqTopic request)
  /\ (forall history,
        conversationHistory request = Some history ->
        Exists (fun d => ~ validEntry d) history ->
        exists text,
          ChatUseCase.createConversation other request w
          = (inl (ThrownError (MkError ErrorC text None)), w)).
Proof.
  unfold ChatUseCase.createConversation. split; [|split].
  - intros ->. eexists. split; reflexivity.
  - intros history -> Hv.
    destruct (mapResult_restore_valid other (now w) history Hv) as (ms & Hms & Hf).
    cbv zeta. rewrite Hms. eexists. split; [reflexivity|]. repeat split. exact Hf.
  - intros history -> Hi.
    destruct (mapResult_restore_invalid other (now w) history Hi) as (text & Ht).
    cbv zeta. rewrite Ht. exists text. reflexivity.
Qed.

Lemma createConversation_restores_witness :
  (exists conversation,
     ChatUseCase.createConversation strictEngine
       (sampleRequest "What is recursion?" (Some sampleHistory)) sampleWorld
     = (inr conversation, sampleWorld)
     /\ Forall2 restoredFrom sampleHistory (Conversation.messages conversation)
     /\ Conversation.subject conversation = None
     /\ Conversation.topic conversation = None)
  /\ (exists text,
        ChatUseCase.createConversation strictEngine
          (sampleRequest "What is recursion?"
             (Some [MkMessageData USER "fine" None None; MkMessageData USER "  " None None]))
          sampleWorld
        = (inl (ThrownError (MkError ErrorC text None)), sampleWorld)).
Proof.
  split.
  - apply (proj1 (proj2 (createConversation_restores strictEngine
                           (sampleRequest "What is recursion?" (Some sampleHistory))
                           sampleWorld)) sampleHistory eq_refl).
    repeat constructor; vm_compute; discriminate.
  - apply (proj2 (proj2 (createConversation_restores strictEngine
                           (sampleRequest "What is recursion?"
                              (Some [MkMessageData USER "fine" None None;
                                     MkMessageData USER "  " None None]))
                           sampleWorld)) _ eq_refl).
    apply Exists_cons_tl, Exists_cons_hd. vm_compute. intros [H _]. apply H. reflexivity.
Defined.

(** X15.  A request with a valid message is refused before any remote
    call when its history cannot be used: if the restored conversation
    already holds 100 messages or more, or if the restoration itself
    throws, [execute] fails with the [GeminiApiError] "Failed to process
    chat request", whose cause is the error of the entity, and the world
    is the one it started in, whatever the service. *)
Theorem execute_rejects_unusable_history
    (geminiService : IGeminiService) (other : string -> Date) (request : ChatRequest)
    (w : World) :
  ChatUseCase.validateRequest request = inr tt ->
  (forall conversation,
     ChatUseCase.createConversation other request w = (inr conversation, w) ->
     size conversation >= 100 ->
     ChatUseCase.execute geminiService other request w
     = (inl (ThrownError
               (MkError GeminiApiErrorC "Gemini API Error: Failed to process chat request"
                  (Some (MkError ErrorC "Conversation history limit of 100 messages reached"
                           None)))), w))
  /\ (forall t,
        ChatUseCase.createConversation other request w = (inl t, w) ->
        exists text,
          t = ThrownError (MkError ErrorC text None)
          /\ ChatUseCase.execute geminiService other request w
             = (inl (ThrownError
                       (MkError GeminiApiErrorC
                          "Gemini API Error: Failed to process chat request"
                          (Some (MkError ErrorC text None)))), w)).
Proof.
  intros Hv. split.
  - intros conversation Hc Hs. rewrite execute_catch.
    unfold ChatUseCase.executeBody.
    unfold bind at 1. unfold lift at 1. rewrite Hv.
    unfold bind at 1. rewrite Hc.
    unfold bind at 1. unfold get at 1.
    unfold bind at 1. unfold lift at 1.
    apply validateRequest_inv in Hv. unfold trimmedLength in Hv.
    rewrite Message_new_accepts by (unfold Message.maxLength; lia).
    unfold bind at 1. unfold get at 1.
    unfold bind at 1. unfold ChatUseCase.invoke.
    rewrite addMessage_full by exact Hs. reflexivity.
  - intros t Hc. destruct (createConversation_throws other request w w t Hc) as (text & ->).
    exists text. split; [reflexivity|]. rewrite execute_catch.
    unfold ChatUseCase.executeBody.
    unfold bind at 1. unfold lift at 1. rewrite Hv.
    unfold bind at 1. rewrite Hc. reflexivity.
Qed.

Lemma execute_rejects_unusable_history_witness :
  ChatUseCase.execute (sampleService []) strictEngine
    (sampleRequest "What is recursion?"
       (Some (List.repeat (MkMessageData USER "hello" None None) 100)))
    sampleWorld
  = (inl (ThrownError
            (MkError GeminiApiErrorC "Gemini API Error: Failed to process chat request"
               (Some (MkError ErrorC "Conversation history limit of 100 messages reached"
                        None)))), sampleWorld).
Proof.
  eapply (proj1 (execute_rejects_unusable_history (sampleService []) strictEngine
                   (sampleRequest "What is recursion?"
                      (Some (List.repeat (MkMessageData USER "hello" None None) 100)))
                   sampleWorld eq_refl)).
  - vm_compute. reflexivity.
  - vm_compute. discriminate.
Defined.

Section ShapeFacts.

Context (geminiService : IGeminiService).
Variable other : string -> Date.

(** A [try]/[catch] block around one agent leaves the responses as they
    were or adds one response of its persona at the end. *)
Lemma tryAgent_shape (conversation : Conversation.t) (persona : AgentPersona)
    (responses : list ChatResponse) (w : World) :
  exists w',
    ChatUseCase.tryAgent geminiService conversation persona responses w
    = (inr responses, w')
    \/ exists r,
        respAgentPersona r = persona
        /\ ChatUseCase.tryAgent geminiService conversation persona responses w
           = (inr (responses ++ [r])%list, w').
Proof.
  unfold ChatUseCase.tryAgent, tryCatch, bind.
  unfold ChatUseCase.generateAgentResponse, tryCatch, bind, lift.
  destruct (ChatUseCase.buildPrompt conversation (ChatUseCase.systemPrompt persona))
    as [t|prompt].
  - eexists. left. reflexivity.
  - destruct (generateResponse prompt _ w) as [[t|text] w'].
    + exists w'. left. reflexivity.
    + exists w'. right. eexists. split; [|reflexivity]. reflexivity.
Qed.

Lemma generateAgentResponses_shape (conversation : Conversation.t) (w w' : World)
    (responses : list ChatResponse) :
  ChatUseCase.generateAgentResponses geminiService conversation w = (inr responses, w') ->
  In (map respAgentPersona responses)
     [[EXPLAINER; EXAMPLE_PROVIDER]; [EXPLAINER]; [EXAMPLE_PROVIDER]].
Proof.
  unfold ChatUseCase.generateAgentResponses, bind.
  destruct (tryAgent_shape conversation EXPLAINER [] w) as [w1 [->|(r1 & Hp1 & ->)]];
    match goal with
    | |- context [ChatUseCase.tryAgent _ _ EXAMPLE_PROVIDER ?rs ?w0] =>
        destruct (tryAgent_shape conversation EXAMPLE_PROVIDER rs w0)
          as [w2 [->|(r2 & Hp2 & ->)]]
    end; simpl.
  - discriminate.
  - intros [= <- _]. simpl. rewrite Hp2. auto.
  - intros [= <- _]. simpl. rewrite Hp1. auto.
  - intros [= <- _]. simpl. rewrite Hp1, Hp2. auto.
Qed.

Lemma executeBody_shape (request : ChatRequest) (w w' : World)
    (responses : list ChatResponse) :
  ChatUseCase.executeBody geminiService other request w = (inr responses, w') ->
  In (map respAgentPersona responses)
     [[EXPLAINER; EXAMPLE_PROVIDER]; [EXPLAINER]; [EXAMPLE_PROVIDER]].
Proof.
  unfold ChatUseCase.executeBody.
  unfold bind at 1. unfold lift at 1.
  destruct (ChatUseCase.validateRequest request) as [t0|[]]; [discriminate|].
  unfold bind at 1.
  destruct (ChatUseCase.createConversation other request w) as [[t0|conversation] w0];
    [discriminate|].
  unfold bind at 1. unfold get at 1.
  unfold bind at 1. unfold lift at 1.
  destruct (Message.new USER (reqMessage request) (now w0) None) as [t0|m];
    [discriminate|].
  unfold bind at 1. unfold get at 1.
  unfold bind at 1. unfold ChatUseCase.invoke.
  destruct (Conversation.addMessage m (now w0) conversation) as [[t0|[]] c'];
    [discriminate|].
  cbv beta iota. simpl snd. rewrite bind_ret_r.
  apply generateAgentResponses_shape.
Qed.

Lemma validateRequest_messages (request : ChatRequest) (t : Thrown) :
  ChatUseCase.validateRequest request = inl t ->
  exists text,
    t = ThrownError (AppError.ValidationError text)
    /\ In text ["Invalid request: message is required and must be a string";
                "Invalid request: message cannot be empty";
                "Invalid request: message exceeds maximum length of 5000 characters"].
Proof.
  unfold ChatUseCase.validateRequest.
  destruct (Js.truthy (reqMessage request)); simpl.
  - destruct (Js.length (Js.trim (reqMessage request)) =? 0).
    + intros [= <-]. eexists. split; [reflexivity|]. simpl. auto.
    + destruct (Js.length (Js.trim (reqMessage request)) >? 5000).
      * intros [= <-]. eexists. split; [reflexivity|]. simpl. auto.
      * discriminate.
  - intros [= <-]. eexists. split; [reflexivity|]. simpl. auto.
Qed.

(** What [execute] throws, error by error. *)
Lemma execute_throws (request : ChatRequest) (w w' : World) (t : Thrown) :
  ChatUseCase.execute geminiService other request w = (inl t, w') ->
  (exists text,
     t = ThrownError (AppError.ValidationError text)
     /\ In text ["Invalid request: message is required and must be a string";
                 "Invalid request: message cannot be empty";
                 "Invalid request: message exceeds maximum length of 5000 characters"]
     /\ ChatUseCase.validateRequest request = inl t)
  \/ (ChatUseCase.validateRequest request = inr tt
      /\ exists text cause,
           t = ThrownError (AppError.GeminiApiError text cause)
           /\ In text ["Failed to generate responses from all agents";
                       "Failed to process chat request"]).
Proof.
  rewrite execute_catch. unfold ChatUseCase.executeBody.
  unfold bind at 1. unfold lift at 1.
  destruct (ChatUseCase.validateRequest request) as [t0|[]] eqn:Hv.
  { destruct (validateRequest_messages request t0 Hv) as (text & -> & Hin).
    simpl. intros [= <- _]. left. exists text. auto. }
  intros H. right. split; [reflexivity|]. revert H.
  unfold bind at 1.
  destruct (ChatUseCase.createConversation other request w) as [[t0|conversation] w0] eqn:Hc.
  { destruct (createConversation_throws other request w w0 t0 Hc) as (text & ->).
    simpl. intros [= <- _]. eexists. eexists. split; [reflexivity|]. simpl. auto. }
  unfold bind at 1. unfold get at 1.
  unfold bind at 1. unfold lift at 1.
  destruct (Message.new USER (reqMessage request) (now w0) None) as [t0|m] eqn:Hm.
  { destruct (Message_new_throws _ _ _ _ _ Hm) as (text & ->).
    simpl. intros [= <- _]. eexists. eexists. split; [reflexivity|]. simpl. auto. }
  unfold bind at 1. unfold get at 1.
  unfold bind at 1. unfold ChatUseCase.invoke.
  destruct (Conversation.addMessage m (now w0) conversation) as [[t0|[]] c'] eqn:Ha.
  { destruct (addMessage_throws _ _ _ _ _ Ha) as (text & ->).
    simpl. intros [= <- _]. eexists. eexists. split; [reflexivity|]. simpl. auto. }
  cbv beta iota. simpl snd. rewrite bind_ret_r.
  destruct (generateAgentResponses_outcome geminiService c' w0) as [w1 [H|(rs & _ & H)]];
    rewrite H; [|discriminate].
  simpl. intros [= <- _]. eexists. eexists. split; [reflexivity|]. simpl. auto.
Qed.

End ShapeFacts.

(** X16.  Whatever the service, the responses of a successful [execute]
    are the explainer's and the example provider's in that order, or one
    of the two alone: never more than two, never two of the same persona,
    never the example provider's before the explainer's. *)
Theorem execute_response_personas
    (geminiService : IGeminiService) (other : string -> Date) (request : ChatRequest)
    (w w' : World) (responses : list ChatResponse) :
  ChatUseCase.execute geminiService other request w = (inr responses, w') ->
  In (map respAgentPersona responses)
     [[EXPLAINER; EXAMPLE_PROVIDER]; [EXPLAINER]; [EXAMPLE_PROVIDER]].
Proof.
  rewrite execute_catch.
  destruct (ChatUseCase.executeBody geminiService other request w) as [[t|r] w0] eqn:E.
  - destruct (isValidationError t || isGeminiApiError t); discriminate.
  - intros [= <- _]. eapply executeBody_shape, E.
Qed.

Lemma execute_response_personas_witness :
  In (map respAgentPersona
        [MkChatResponse "An answer." EXAMPLE_PROVIDER (JsDate.Valid 1704067203040)])
     [[EXPLAINER; EXAMPLE_PROVIDER]; [EXPLAINER]; [EXAMPLE_PROVIDER]].
Proof.
  eapply (execute_response_personas (sampleService ["expert teacher"]) strictEngine
            (sampleRequest "  What is recursion?  " (Some sampleHistory)) sampleWorld).
  vm_compute. reflexivity.
Defined.

Section BudgetFacts.

Variable provider : Provider.

Lemma generateResponse_always_failing (prompt : string) (history : list GeminiTurn)
    (w : World) :
  alwaysFailing provider ->
  exists t w',
    GeminiService.generateResponse provider prompt history w = (inl t, w')
    /\ calls w' = (calls w ++ [sdkCallFor prompt history; sdkCallFor prompt history;
                               sdkCallFor prompt history])%list.
Proof.
  intros Hf. unfold GeminiService.generateResponse.
  change (Z.to_nat GeminiService.maxRetries) with 3%nat.
  destruct (Hf w (sdkCallFor prompt history)) as (e1 & d1 & H1 & N1).
  rewrite (retryLoop_retry provider prompt history _ _ _ _ _ _ H1 N1).
  change (1 <? GeminiService.maxRetries) with true. cbv iota.
  match goal with
  | |- context [GeminiService.retryLoop _ _ _ _ _ _ ?w1] =>
      destruct (Hf w1 (sdkCallFor prompt history)) as (e2 & d2 & H2 & N2)
  end.
  rewrite (retryLoop_retry provider prompt history _ _ _ _ _ _ H2 N2).
  change (1 + 1 <? GeminiService.maxRetries) with true. cbv iota.
  match goal with
  | |- context [GeminiService.retryLoop _ _ _ _ _ _ ?w2] =>
      destruct (Hf w2 (sdkCallFor prompt history)) as (e3 & d3 & H3 & N3)
  end.
  rewrite (retryLoop_retry provider prompt history _ _ _ _ _ _ H3 N3).
  change (1 + 1 + 1 <? GeminiService.maxRetries) with false. cbv iota.
  eexists. eexists. split; [reflexivity|].
  simpl. rewrite <- !app_assoc. reflexivity.
Qed.

Lemma generateResponse_always_answering (prompt : string) (history : list GeminiTurn)
    (w : World) :
  alwaysAnswering provider ->
  exists text w',
    GeminiService.generateResponse provider prompt history w = (inr text, w')
    /\ calls w' = (calls w ++ [sdkCallFor prompt history])%list.
Proof.
  intros Ha. unfold GeminiService.generateResponse.
  change (Z.to_nat GeminiService.maxRetries) with 3%nat.
  destruct (Ha w (sdkCallFor prompt history)) as (text & d & H).
  rewrite (retryLoop_success provider prompt history _ _ _ _ _ _ H).
  eexists. eexists. split; reflexivity.
Qed.

End BudgetFacts.

(** X17.  With the service of the application, each persona has its own
    three attempts: when the provider fails at every call with errors that
    may be retried, a request that reaches the agents costs exactly six
    calls, three with the explainer's prompt and then three with the
    example provider's, before [execute] fails with the aggregate error. *)
Theorem execute_six_calls_when_provider_down
    (provider : Provider) (other : string -> Date) (request : ChatRequest)
    (conversation : Conversation.t) (w : World) :
  alwaysFailing provider ->
  ChatUseCase.validateRequest request = inr tt ->
  ChatUseCase.createConversation other request w = (inr conversation, w) ->
  size conversation < 100 ->
  exists w',
    ChatUseCase.execute (GeminiService_implements provider) other request w
    = (inl (ThrownError
              (AppError.GeminiApiError "Failed to generate responses from all agents" None)),
       w')
    /\ calls w'
       = (calls w
          ++ List.repeat (sdkCallFor (promptFor EXPLAINER request)
                            (Conversation.getGeminiFormat conversation)) 3
          ++ List.repeat (sdkCallFor (promptFor EXAMPLE_PROVIDER request)
                            (Conversation.getGeminiFormat conversation)) 3)%list.
Proof.
  intros Hf Hv Hc Hs.
  rewrite execute_catch.
  rewrite (executeBody_run (GeminiService_implements provider) other request conversation
             w Hv Hc Hs).
  unfold ChatUseCase.generateAgentResponses.
  unfold bind at 1. rewrite tryAgent_run.
  change (@generateResponse (GeminiService_implements provider))
    with (GeminiService.generateResponse provider).
  destruct (generateResponse_always_failing provider (promptFor EXPLAINER request)
              (Conversation.getGeminiFormat conversation) w Hf) as (t1 & w1 & -> & Hc1).
  unfold bind at 1. rewrite tryAgent_run.
  change (@generateResponse (GeminiService_implements provider))
    with (GeminiService.generateResponse provider).
  destruct (generateResponse_always_failing provider (promptFor EXAMPLE_PROVIDER request)
              (Conversation.getGeminiFormat conversation) w1 Hf) as (t2 & w2 & -> & Hc2).
  exists w2. split; [reflexivity|].
  rewrite Hc2, Hc1, <- app_assoc. reflexivity.
Qed.

Lemma execute_six_calls_when_provider_down_witness :
  exists w',
    ChatUseCase.execute (GeminiService_implements (downProvider "fetch failed"))
      strictEngine (sampleRequest "Why?" None) sampleWorld
    = (inl (ThrownError
              (AppError.GeminiApiError "Failed to generate responses from all agents" None)),
       w')
    /\ calls w'
       = (calls sampleWorld
          ++ List.repeat (sdkCallFor (promptFor EXPLAINER (sampleRequest "Why?" None))
                            (Conversation.getGeminiFormat
                               (Conversation.new [] None None None (now sampleWorld)))) 3
          ++ List.repeat (sdkCallFor (promptFor EXAMPLE_PROVIDER (sampleRequest "Why?" None))
                            (Conversation.getGeminiFormat
                               (Conversation.new [] None None None (now sampleWorld)))) 3)%list.
Proof.
  apply (execute_six_calls_when_provider_down (downProvider "fetch failed")
           strictEngine (sampleRequest "Why?" None)
           (Conversation.new [] None None None (now sampleWorld)) sampleWorld).
  - intros w call. eexists. eexists. split; reflexivity.
  - reflexivity.
  - reflexivity.
  - reflexivity.
Defined.

(** X18.  With the service of the application and a provider that
    answers, a request that reaches the agents costs exactly two calls: the
    explainer's prompt, then the example provider's, each with the history
    restored from the request (the new message is in the prompt, not in the
    history), as a chat session when that history is not empty and as a
    single prompt otherwise; the two answers come back in that order. *)
Theorem execute_two_calls_when_provider_answers
    (provider : Provider) (other : string -> Date) (request : ChatRequest)
    (conversation : Conversation.t) (w : World) :
  alwaysAnswering provider ->
  ChatUseCase.validateRequest request = inr tt ->
  ChatUseCase.createConversation other request w = (inr conversation, w) ->
  size conversation < 100 ->
  exists text1 text2 w1 w2,
    ChatUseCase.execute (GeminiService_implements provider) other request w
    = (inr [MkChatResponse text1 EXPLAINER (now w1);
            MkChatResponse text2 EXAMPLE_PROVIDER (now w2)], w2)
    /\ calls w2
       = (calls w
          ++ [sdkCallFor (promptFor EXPLAINER request)
                (Conversation.getGeminiFormat conversation);
              sdkCallFor (promptFor EXAMPLE_PROVIDER request)
                (Conversation.getGeminiFormat conversation)])%list
    /\ (Conversation.messages conversation = [] ->
        sdkCallFor (promptFor EXPLAINER request) (Conversation.getGeminiFormat conversation)
        = GenerateContent (promptFor EXPLAINER request))
    /\ (Conversation.messages conversation <> [] ->
        sdkCallFor (promptFor EXPLAINER request) (Conversation.getGeminiFormat conversation)
        = SendMessage (map turnOf (Conversation.messages conversation))
            (promptFor EXPLAINER request)).
Proof.
  intros Ha Hv Hc Hs.
  rewrite execute_catch.
  rewrite (executeBody_run (GeminiService_implements provider) other request conversation
             w Hv Hc Hs).
  unfold ChatUseCase.generateAgentResponses.
  unfold bind at 1. rewrite tryAgent_run.
  change (@generateResponse (GeminiService_implements provider))
    with (GeminiService.generateResponse provider).
  destruct (generateResponse_always_answering provider (promptFor EXPLAINER request)
              (Conversation.getGeminiFormat conversation) w Ha) as (t1 & w1 & -> & Hc1).
  unfold bind at 1. rewrite tryAgent_run.
  change (@generateResponse (GeminiService_implements provider))
    with (GeminiService.generateResponse provider).
  destruct (generateResponse_always_answering provider (promptFor EXAMPLE_PROVIDER request)
              (Conversation.getGeminiFormat conversation) w1 Ha) as (t2 & w2 & -> & Hc2).
  exists t1, t2, w1, w2. split; [reflexivity|]. split; [|split].
  - rewrite Hc2, Hc1, <- app_assoc. reflexivity.
  - unfold Conversation.getGeminiFormat. intros ->. reflexivity.
  - unfold Conversation.getGeminiFormat, sdkCallFor.
    destruct (Conversation.messages conversation) as [|m ms]; [congruence|].
    reflexivity.
Qed.

Lemma execute_two_calls_when_provider_answers_witness :
  exists text1 text2 w1 w2,
    ChatUseCase.execute (GeminiService_implements (answeringProvider "Like this."))
      strictEngine (sampleRequest "Why?" (Some sampleHistory)) sampleWorld
    = (inr [MkChatResponse text1 EXPLAINER (now w1);
            MkChatResponse text2 EXAMPLE_PROVIDER (now w2)], w2)
    /\ calls w2
       = [SendMessage [MkGeminiTurn "model" ["Welcome!"]]
            (promptFor EXPLAINER (sampleRequest "Why?" (Some sampleHistory)));
          SendMessage [MkGeminiTurn "model" ["Welcome!"]]
            (promptFor EXAMPLE_PROVIDER (sampleRequest "Why?" (Some sampleHistory)))].
Proof.
  destruct (execute_two_calls_when_provider_answers (answeringProvider "Like this.")
              strictEngine (sampleRequest "Why?" (Some sampleHistory))
              (Conversation.new [Message.Mk ASSISTANT "Welcome!"
                                   (JsDate.Valid 1704067200000) (Some EXPLAINER)]
                 None None None (now sampleWorld))
              sampleWorld)
    as (text1 & text2 & w1 & w2 & He & Hc & _).
  - intros w call. eexists. eexists. reflexivity.
  - reflexivity.
  - reflexivity.
  - reflexivity.
  - exists text1, text2, w1, w2. split; [exact He | exact Hc].
Defined.

(** ** The chat route and the error handler *)

Section RouteFacts.

Context (geminiService : IGeminiService).
Variable other : string -> Date.
Variable nodeEnv : option string.

Lemma ChatRequest_eta (body : ChatRequest) :
  {| reqMessage := reqMessage body;
     conversationHistory := conversationHistory body;
     reqSubject := reqSubject body;
     reqTopic := reqTopic body |} = body.
Proof. destruct body; reflexivity. Qed.

(** The route answers 200 with the responses of [execute], or hands
    the error of [execute] to the error handler. *)
Lemma postChat_run (body : ChatRequest) (w : World) :
  ChatRoutes.postChat geminiService other nodeEnv body w
  = match ChatUseCase.execute geminiService other body w with
    | (inr responses, w') =>
        (Some (ErrorHandler.MkHttpResponse 200 (ErrorHandler.SuccessBody true responses)),
         w')
    | (inl (ThrownError error), w') =>
        (Some (ErrorHandler.errorHandler nodeEnv error w'), w')
    | (inl (ThrownValue _), w') => (None, w')
    end.
Proof. unfold ChatRoutes.postChat. cbv zeta. now rewrite ChatRequest_eta. Qed.

End RouteFacts.

(** X19.  For a request that reaches the handler of the chat route (the
    validation middleware in front of it is not modelled), the handler and
    the error handler always answer, with status 200, 400 or 502 and never
    500: 400 exactly when the trimmed message has no character or more
    than 5000, and then without any remote call; 200 with a body that
    carries [success: true] and at least one response. *)
Theorem postChat_status
    (geminiService : IGeminiService) (other : string -> Date) (nodeEnv : option string)
    (body : ChatRequest) (w : World) :
  exists response w',
    ChatRoutes.postChat geminiService other nodeEnv body w = (Some response, w')
    /\ In (ErrorHandler.status response) [200; 400; 502]
    /\ (ErrorHandler.status response = 400 <-> ~ 1 <= trimmedLength body <= 5000)
    /\ (ErrorHandler.status response = 400 -> w' = w)
    /\ (ErrorHandler.status response = 200 <->
        exists responses,
          ErrorHandler.body response = ErrorHandler.SuccessBody true responses
          /\ responses <> []).
Proof.
  rewrite postChat_run.
  destruct (ChatUseCase.execute geminiService other body w) as [[t|responses] w'] eqn:E.
  - destruct (execute_throws geminiService other body w w' t E)
      as [(text & -> & Hin & Hv)|(Hv & text & cause & -> & Hin)].
    + eexists. eexists. split; [reflexivity|]. simpl.
      split; [auto|]. split; [|split].
      * split; [|reflexivity]. intros _ Hl.
        rewrite (validateRequest_accepts body Hl) in Hv. discriminate.
      * intros _. rewrite execute_catch in E. unfold ChatUseCase.executeBody in E.
        unfold bind at 1 in E. unfold lift at 1 in E. rewrite Hv in E.
        simpl in E. now injection E as <-.
      * split; [discriminate|]. intros (rs & Hb & _). discriminate.
    + eexists. eexists. split; [reflexivity|]. simpl.
      split; [auto|]. split; [|split].
      * split; [discriminate|]. intros Hn. exfalso. apply Hn.
        now apply validateRequest_inv.
      * discriminate.
      * split; [discriminate|]. intros (rs & Hb & _). discriminate.
  - eexists. eexists. split; [reflexivity|]. simpl.
    split; [auto|]. split; [|split].
    + split; [discriminate|]. intros Hn. exfalso. apply Hn.
      apply validateRequest_inv.
      destruct (ChatUseCase.validateRequest body) as [t|[]] eqn:Hv; [|reflexivity].
      exfalso. rewrite execute_catch in E. unfold ChatUseCase.executeBody in E.
      unfold bind at 1 in E. unfold lift at 1 in E. rewrite Hv in E.
      destruct (isValidationError t || isGeminiApiError t); discriminate.
    + discriminate.
    + split; [|reflexivity]. intros _. exists responses. split; [reflexivity|].
      rewrite execute_catch in E.
      destruct (ChatUseCase.executeBody geminiService other body w) as [[t|r] w0] eqn:Eb.
      * destruct (isValidationError t || isGeminiApiError t); discriminate.
      * injection E as <- _. eapply executeBody_nonempty, Eb.
Qed.

(** X20.  For a request that reaches the handler of the chat route, an
    error response carries one of five fixed messages, under the code
    [VALIDATION_ERROR] with status 400 or [GEMINI_API_ERROR] with status
    502, whatever the environment: neither the text of an error of the
    provider nor that of an error of the entities reaches the client. *)
Theorem postChat_error_messages
    (geminiService : IGeminiService) (other : string -> Date) (nodeEnv : option string)
    (body : ChatRequest) (w w' : World) (response : ErrorHandler.HttpResponse)
    (e : ErrorHandler.ErrorResponse) :
  ChatRoutes.postChat geminiService other nodeEnv body w = (Some response, w') ->
  ErrorHandler.body response = ErrorHandler.ErrorBody e ->
  In (ErrorHandler.message e) routeErrorMessages
  /\ ((ErrorHandler.status response = 400 /\ ErrorHandler.error e = "VALIDATION_ERROR")
      \/ (ErrorHandler.status response = 502 /\ ErrorHandler.error e = "GEMINI_API_ERROR"))
  /\ ErrorHandler.timestamp e = now w'.
Proof.
  rewrite postChat_run.
  destruct (ChatUseCase.execute geminiService other body w) as [[t|responses] w0] eqn:E.
  - destruct (execute_throws geminiService other body w w0 t E)
      as [(text & -> & Hin & _)|(_ & text & cause & -> & Hin)].
    + intros [= <- <-]. simpl. intros [= <-]. simpl.
      split; [|split; [left; split; reflexivity | reflexivity]].
      destruct Hin as [<-|[<-|[<-|[]]]]; auto 6.
    + intros [= <- <-]. simpl. intros [= <-]. simpl.
      split; [|split; [right; split; reflexivity | reflexivity]].
      destruct Hin as [<-|[<-|[]]]; auto 6.
  - intros [= <- _]. simpl. discriminate.
Qed.

Lemma postChat_error_messages_witness :
  In (ErrorHandler.message allAgentsFailed) routeErrorMessages
  /\ ((502 = 400 /\ ErrorHandler.error allAgentsFailed = "VALIDATION_ERROR")
      \/ (502 = 502 /\ ErrorHandler.error allAgentsFailed = "GEMINI_API_ERROR"))
  /\ ErrorHandler.timestamp allAgentsFailed = now worldAfterSixCalls.
Proof.
  apply (postChat_error_messages
           (GeminiService_implements (downProvider "connect ECONNREFUSED"))
           strictEngine (Some "production") (sampleRequest "Why?" None) sampleWorld
           worldAfterSixCalls
           (ErrorHandler.MkHttpResponse 502 (ErrorHandler.ErrorBody allAgentsFailed))
           allAgentsFailed).
  - vm_compute. reflexivity.
  - reflexivity.
Defined.

(** ** The legacy parser, in general *)

Section MatchFacts.

Lemma startsWith_app_r (p a b : string) :
  Js.startsWith p a = true -> Js.startsWith p (a ++ b) = true.
Proof.
  revert a. induction p as [|c p IH]; intros a H; [reflexivity|].
  destruct a as [|x a]; [discriminate|]. simpl in *.
  apply andb_true_iff in H as [Hc Hp]. rewrite Hc. simpl. now apply IH.
Qed.

Lemma drop_app (a b : string) : Js.drop (String.length a) (a ++ b) = b.
Proof. induction a as [|c a IH]; simpl; [destruct b; reflexivity | exact IH]. Qed.

Lemma includes_cons (c : ascii) (s p : string) :
  Js.includes (String c s) p = Js.startsWith p (String c s) || Js.includes s p.
Proof. reflexivity. Qed.

(** The lazy group is followed by the stop text and does not contain
    it: the group ends at the first occurrence. *)
Lemma lazyUntil_spec (stop s capture : string) :
  stop <> EmptyString ->
  AgentLogic.lazyUntil stop s = Some capture ->
  (exists post, s = capture ++ stop ++ post)
  /\ Js.includes capture stop = false.
Proof.
  intros Hstop. revert capture. induction s as [|c r IH]; intros capture; simpl.
  - destruct (Js.startsWith stop EmptyString) eqn:Hs; [|discriminate].
    destruct stop; [congruence | discriminate].
  - destruct (Js.startsWith stop (String c r)) eqn:Hs.
    + intros [= <-]. split.
      * apply startsWith_inv in Hs as [post ->]. now exists post.
      * destruct stop; [congruence | reflexivity].
    + destruct (AgentLogic.lazyUntil stop r) as [cap|] eqn:Hl; [|discriminate].
      intros [= <-]. destruct (IH cap eq_refl) as [(post & Hr) Hni]. split.
      * exists post. simpl. now rewrite Hr.
      * rewrite includes_cons, Hni, orb_false_r.
        destruct (Js.startsWith stop (String c cap)) eqn:Hp; [|reflexivity].
        apply (startsWith_app_r _ _ (stop ++ post)) in Hp.
        simpl in Hp. rewrite <- Hr in Hp. congruence.
Qed.

Lemma matchLazy_spec (start stop s capture : string) :
  stop <> EmptyString ->
  AgentLogic.matchLazy start stop s = Some capture ->
  (exists pre post, s = pre ++ start ++ capture ++ stop ++ post)
  /\ Js.includes capture stop = false.
Proof.
  intros Hstop. revert capture.
  assert (Hhere : forall s capture,
             Js.startsWith start s = true ->
             AgentLogic.lazyUntil stop (Js.drop (String.length start) s) = Some capture ->
             (exists pre post, s = pre ++ start ++ capture ++ stop ++ post)
             /\ Js.includes capture stop = false).
  { intros s0 capture Hs Hl. apply startsWith_inv in Hs as [rest ->].
    rewrite drop_app in Hl.
    destruct (lazyUntil_spec stop rest capture Hstop Hl) as [(post & ->) Hni].
    split; [|exact Hni]. now exists EmptyString, post. }
  induction s as [|c r IH]; intros capture; simpl.
  - destruct (Js.startsWith start EmptyString) eqn:Hs; [|discriminate].
    destruct (AgentLogic.lazyUntil stop (Js.drop (String.length start) EmptyString))
      as [cap|] eqn:Hl; [|discriminate].
    intros [= <-]. now apply Hhere.
  - destruct (Js.startsWith start (String c r)) eqn:Hs.
    + destruct (AgentLogic.lazyUntil stop (Js.drop (String.length start) (String c r)))
        as [cap|] eqn:Hl.
      * intros [= <-]. now apply Hhere.
      * intros H. destruct (IH _ H) as [(pre & post & ->) Hni]. split; [|exact Hni].
        now exists (String c pre), post.
    + intros H. destruct (IH _ H) as [(pre & post & ->) Hni]. split; [|exact Hni].
      now exists (String c pre), post.
Qed.

(** The greedy group is all that follows the leftmost occurrence of the
    start text. *)
Lemma matchGreedy_spec (start s capture : string) :
  AgentLogic.matchGreedy start s = Some capture ->
  exists pre,
    s = pre ++ start ++ capture
    /\ forall pre' rest', s = pre' ++ start ++ rest' ->
                          (String.length pre <= String.length pre')%nat.
Proof.
  revert capture. induction s as [|c r IH]; intros capture; simpl.
  - destruct (Js.startsWith start EmptyString) eqn:Hs; [|discriminate].
    intros [= <-]. exists EmptyString. split.
    + destruct start; [reflexivity | discriminate].
    + intros. simpl. lia.
  - destruct (Js.startsWith start (String c r)) eqn:Hs.
    + intros [= <-]. exists EmptyString. split.
      * apply startsWith_inv in Hs as [post Hp]. rewrite Hp. now rewrite drop_app.
      * intros. simpl. lia.
    + intros H. destruct (IH _ H) as (pre & -> & Hleft).
      exists (String c pre). split; [reflexivity|].
      intros pre' rest' Heq. destruct pre' as [|c' pre'].
      * simpl in Heq. rewrite Heq, startsWith_app in Hs. discriminate.
      * simpl in Heq. injection Heq as _ Heq. simpl.
        apply le_n_S. eapply Hleft, Heq.
Qed.

Lemma matchGreedy_complete (start s : string) :
  Js.includes s start = true -> exists capture, AgentLogic.matchGreedy start s = Some capture.
Proof.
  induction s as [|c r IH]; simpl.
  - rewrite orb_false_r. intros ->. eexists; reflexivity.
  - destruct (Js.startsWith start (String c r)); [eexists; reflexivity|].
    simpl. exact IH.
Qed.

End MatchFacts.

(** X21.  When the explanation pattern matches, the text is made of
    something, the marker ["Explainer: "], the group, a line break with
    ["Example:"], and a rest; the group does not contain a line break
    followed by ["Example:"], so it stops at the first example marker even
    when others follow; and the explanation returned is the group trimmed
    unless the group is the empty string. *)
Theorem explanation_group_stops_at_first_example_marker (raw capture : string) :
  explainerCapture raw = Some capture ->
  (exists pre post,
     raw = pre ++ "Explainer: " ++ capture ++ AgentLogic.newline ++ "Example:" ++ post)
  /\ Js.includes capture (AgentLogic.newline ++ "Example:") = false
  /\ (capture <> EmptyString ->
      AgentLogic.explainerResponse (AgentLogic.parse raw) = Js.trim capture).
Proof.
  intros H.
  destruct (matchLazy_spec "Explainer: " (AgentLogic.newline ++ "Example:") raw capture
              ltac:(discriminate) H) as [(pre & post & Heq) Hni].
  split; [|split].
  - exists pre, post. rewrite Heq. now rewrite append_assoc.
  - exact Hni.
  - intros Hne.
    change (AgentLogic.explainerResponse (AgentLogic.parse raw))
      with (AgentLogic.orDefault AgentLogic.explainerFallback (explainerCapture raw)).
    rewrite H. destruct capture; [congruence | reflexivity].
Qed.

Lemma explanation_group_stops_at_first_example_marker_witness :
  (exists pre post,
     "Explainer: A" ++ AgentLogic.newline ++ "Example: B" ++ AgentLogic.newline ++ "Example: C"
     = pre ++ "Explainer: " ++ "A" ++ AgentLogic.newline ++ "Example:" ++ post)
  /\ Js.includes "A" (AgentLogic.newline ++ "Example:") = false
  /\ ("A" <> EmptyString ->
      AgentLogic.explainerResponse
        (AgentLogic.parse
           ("Explainer: A" ++ AgentLogic.newline ++ "Example: B" ++ AgentLogic.newline
            ++ "Example: C"))
      = Js.trim "A").
Proof.
  apply (explanation_group_stops_at_first_example_marker
           ("Explainer: A" ++ AgentLogic.newline ++ "Example: B" ++ AgentLogic.newline
            ++ "Example: C") "A").
  reflexivity.
Defined.

(** X22.  The example pattern matches exactly when the text contains
    ["Example: "]; the group is then everything that follows the leftmost
    occurrence of that marker, to the end of the text, and the example
    returned is the group trimmed unless the group is the empty string. *)
Theorem example_group_is_rest_after_first_marker (raw : string) :
  (exampleCapture raw = None <-> Js.includes raw "Example: " = false)
  /\ (forall capture,
        exampleCapture raw = Some capture ->
        (exists pre,
           raw = pre ++ "Example: " ++ capture
           /\ forall pre' rest', raw = pre' ++ "Example: " ++ rest' ->
                                 (String.length pre <= String.length pre')%nat)
        /\ (capture <> EmptyString ->
            AgentLogic.exampleResponse (AgentLogic.parse raw) = Js.trim capture)).
Proof.
  split; [split|].
  - intros H. destruct (Js.includes raw "Example: ") eqn:E; [|reflexivity].
    destruct (matchGreedy_complete "Example: " raw E) as (capture & Hc).
    unfold exampleCapture in H. congruence.
  - intros H. destruct (exampleCapture raw) as [capture|] eqn:E; [|reflexivity].
    apply matchGreedy_includes in E. congruence.
  - intros capture H. split.
    + now apply matchGreedy_spec.
    + intros Hne.
      change (AgentLogic.exampleResponse (AgentLogic.parse raw))
        with (AgentLogic.orDefault AgentLogic.exampleFallback (exampleCapture raw)).
      rewrite H. destruct capture; [congruence | reflexivity].
Qed.

(** X23.  Neither field that [parse] returns has white space at its
    start or at its end, whatever the text. *)
Theorem parse_fields_are_trimmed (raw : string) :
  Js.trim (AgentLogic.explainerResponse (AgentLogic.parse raw))
  = AgentLogic.explainerResponse (AgentLogic.parse raw)
  /\ Js.trim (AgentLogic.exampleResponse (AgentLogic.parse raw))
     = AgentLogic.exampleResponse (AgentLogic.parse raw).
Proof.
  change (AgentLogic.explainerResponse (AgentLogic.parse raw))
    with (AgentLogic.orDefault AgentLogic.explainerFallback (explainerCapture raw)).
  change (AgentLogic.exampleResponse (AgentLogic.parse raw))
    with (AgentLogic.orDefault AgentLogic.exampleFallback (exampleCapture raw)).
  unfold AgentLogic.orDefault. split.
  - destruct (explainerCapture raw) as [c|]; [|reflexivity].
    destruct (Js.truthy c); [apply trim_idempotent | reflexivity].
  - destruct (exampleCapture raw) as [c|]; [|reflexivity].
    destruct (Js.truthy c); [apply trim_idempotent | reflexivity].
Qed.

(** ** The history of the frontend *)

Section FrontendFacts.

Lemma slice_last50 {A} (l : list A) : Array_slice_from (- 50) l = last50 l.
Proof.
  unfold Array_slice_from, last50. change (- 50 <? 0) with true. cbv iota.
  f_equal. lia.
Qed.

Lemma addMessage_last50 (m : ChatInterface.ChatMessage)
    (history : list ChatInterface.ChatMessage) :
  ChatInterface.addMessage m history = last50 (history ++ [m])%list.
Proof.
  unfold ChatInterface.addMessage. rewrite slice_last50, Z.gtb_ltb.
  destruct (Z.ltb_spec 50 (Z.of_nat (List.length (history ++ [m])%list))) as [H|H];
    [reflexivity|].
  unfold last50. replace (List.length (history ++ [m])%list - 50)%nat with O by lia.
  reflexivity.
Qed.

Lemma last50_length {A} (l : list A) :
  List.length (last50 l) = Nat.min (List.length l) 50.
Proof. unfold last50. rewrite length_skipn. lia. Qed.

Lemma last50_snoc {A} (l : list A) (x : A) :
  last50 (last50 l ++ [x])%list = last50 (l ++ [x])%list.
Proof.
  unfold last50. rewrite !length_app, length_skipn. simpl.
  destruct (Nat.le_gt_cases (List.length l) 50) as [H|H].
  - replace (List.length l - 50)%nat with O by lia. simpl.
    rewrite Nat.sub_0_r. reflexivity.
  - replace (List.length l - (List.length l - 50) + 1 - 50)%nat with 1%nat by lia.
    replace (List.length l + 1 - 50)%nat with (S (List.length l - 50)) by lia.
    rewrite !skipn_app.
    rewrite length_skipn.
    replace (1 - (List.length l - (List.length l - 50)))%nat with O by lia.
    replace (S (List.length l - 50) - List.length l)%nat with O by lia.
    rewrite skipn_skipn. reflexivity.
Qed.

Lemma fold_addMessage_last50 (ms history : list ChatInterface.ChatMessage) :
  fold_left (fun h m => ChatInterface.addMessage m h) ms (last50 history)
  = last50 (history ++ ms)%list.
Proof.
  revert history. induction ms as [|m ms IH]; intros history; simpl.
  - now rewrite app_nil_r.
  - rewrite addMessage_last50, last50_snoc, IH, <- app_assoc. reflexivity.
Qed.

Lemma last50_small {A} (l : list A) : (List.length l <= 50)%nat -> last50 l = l.
Proof. intros H. unfold last50. now replace (List.length l - 50)%nat with O by lia. Qed.

End FrontendFacts.

(** X24.  [addMessage] of the chat interface leaves a history of at most
    50 messages, which is the end of the former history followed by the new
    message: the new message is always kept, and the oldest one is dropped
    once there are more than 50. *)
Theorem ChatInterface_addMessage_keeps_last_50
    (m : ChatInterface.ChatMessage) (history : list ChatInterface.ChatMessage) :
  (exists dropped,
     (history ++ [m])%list = (dropped ++ ChatInterface.addMessage m history)%list)
  /\ List.length (ChatInterface.addMessage m history)
     = Nat.min (List.length history + 1) 50
  /\ last (ChatInterface.addMessage m history) m = m
  /\ ChatInterface.addMessage m history <> [].
Proof.
  rewrite addMessage_last50.
  assert (Hlen : List.length (last50 (history ++ [m])%list)
                 = Nat.min (List.length history + 1) 50).
  { rewrite last50_length, length_app. reflexivity. }
  split; [|split; [exact Hlen|]].
  - exists (firstn (List.length (history ++ [m])%list - 50) (history ++ [m])%list).
    unfold last50. symmetry. apply firstn_skipn.
  - assert (Hne : last50 (history ++ [m])%list <> []).
    { intros E. rewrite E in Hlen. simpl in Hlen. lia. }
    split; [|exact Hne].
    unfold last50 in *. rewrite skipn_app in *.
    set (k := (List.length (history ++ [m])%list - 50)%nat) in *.
    assert (Hk : (k <= List.length history)%nat)
      by (unfold k; rewrite length_app; simpl; lia).
    replace (k - List.length history)%nat with O by lia. simpl.
    apply last_last.
Qed.

(** X25.  [handleSendMessage] does nothing while a request is in flight
    or when the input is blank.  Otherwise the request it builds carries
    the trimmed input, which is not empty, and the history of the
    component, whose last entry is already the user's message just typed;
    the input is cleared and the component is marked as processing, so
    that no second request can start before the first one ends. *)
Theorem beginSend_builds_request (current : Date) (st : ChatInterface.State) :
  (ChatInterface.isProcessing st = true \/ Js.trim (ChatInterface.inputValue st) = EmptyString ->
   ChatInterface.beginSend current st = (st, None))
  /\ (forall st' request,
        ChatInterface.beginSend current st = (st', Some request) ->
        ChatInterface.requestMessage request = Js.trim (ChatInterface.inputValue st)
        /\ ChatInterface.requestMessage request <> EmptyString
        /\ ChatInterface.requestHistory request = ChatInterface.conversationHistory st'
        /\ (exists older,
              ChatInterface.requestHistory request
              = (older ++ [ChatInterface.MkChatMessage ChatInterface.user
                             (ChatInterface.requestMessage request) current None])%list)
        /\ ChatInterface.inputValue st' = EmptyString
        /\ ChatInterface.isProcessing st' = true
        /\ forall current' input,
             snd (ChatInterface.beginSend current'
                    (ChatInterface.MkState (ChatInterface.conversationHistory st') true input))
             = None).
Proof.
  unfold ChatInterface.beginSend. split.
  - intros [H|H].
    + rewrite H, orb_true_r. reflexivity.
    + rewrite H. reflexivity.
  - intros st' request.
    destruct (Js.truthy (Js.trim (ChatInterface.inputValue st))) eqn:T;
      [|discriminate].
    destruct (ChatInterface.isProcessing st); [discriminate|].
    cbn [negb orb]. intros [= <- <-]. cbn.
    split; [reflexivity|]. split.
    { intros E. rewrite E in T. discriminate. }
    split; [reflexivity|]. split.
    { rewrite addMessage_last50. unfold last50. rewrite skipn_app.
      set (k := (List.length (ChatInterface.conversationHistory st ++ _)%list - 50)%nat).
      assert (Hk : (k <= List.length (ChatInterface.conversationHistory st))%nat)
        by (unfold k; rewrite length_app; simpl; lia).
      replace (k - List.length (ChatInterface.conversationHistory st))%nat with O by lia.
      eexists. reflexivity. }
    split; [reflexivity|]. split; [reflexivity|].
    intros current' input. rewrite orb_true_r. reflexivity.
Qed.

Lemma beginSend_builds_request_witness :
  ChatInterface.beginSend (JsDate.Valid 5)
    (ChatInterface.MkState [] true "Why?")
  = (ChatInterface.MkState [] true "Why?", None).
Proof.
  apply (proj1 (beginSend_builds_request (JsDate.Valid 5)
                  (ChatInterface.MkState [] true "Why?"))).
  left. reflexivity.
Defined.

Section ExchangeFacts.

Variable timestampOf : ChatResponse -> Date.

Lemma receive_history (responses : list ChatResponse) (st : ChatInterface.State) :
  ChatInterface.conversationHistory (ChatInterface.receive timestampOf responses st)
  = fold_left (fun h m => ChatInterface.addMessage m h)
      (map (assistantMessage timestampOf) responses)
      (ChatInterface.conversationHistory st).
Proof.
  unfold ChatInterface.receive. cbn [ChatInterface.conversationHistory].
  generalize (ChatInterface.conversationHistory st).
  induction responses as [|r rs IH]; intros h; [reflexivity|].
  simpl. apply IH.
Qed.

End ExchangeFacts.

(** X26.  One exchange of the chat interface: after a message is sent and
    the responses of the server are received, the history is the former
    history, the user's message and one assistant message per response, in
    that order, cut to its last 50 entries, and the component is no longer
    processing. *)
Theorem exchange_history
    (timestampOf : ChatResponse -> Date) (current : Date) (st st' : ChatInterface.State)
    (request : ChatInterface.Request) (responses : list ChatResponse) :
  ChatInterface.beginSend current st = (st', Some request) ->
  ChatInterface.conversationHistory (ChatInterface.receive timestampOf responses st')
  = last50 (ChatInterface.conversationHistory st
            ++ ChatInterface.MkChatMessage ChatInterface.user
                 (Js.trim (ChatInterface.inputValue st)) current None
               :: map (assistantMessage timestampOf) responses)%list
  /\ (List.length
        (ChatInterface.conversationHistory (ChatInterface.receive timestampOf responses st'))
      <= 50)%nat
  /\ ChatInterface.isProcessing (ChatInterface.receive timestampOf responses st') = false.
Proof.
  intros H. unfold ChatInterface.beginSend in H.
  destruct (negb (Js.truthy (Js.trim (ChatInterface.inputValue st)))
            || ChatInterface.isProcessing st); [discriminate|].
  injection H as <- _.
  assert (He : ChatInterface.conversationHistory
                 (ChatInterface.receive timestampOf responses
                    {| ChatInterface.conversationHistory :=
                         ChatInterface.addMessage
                           (ChatInterface.MkChatMessage ChatInterface.user
                              (Js.trim (ChatInterface.inputValue st)) current None)
                           (ChatInterface.conversationHistory st);
                       ChatInterface.isProcessing := true;
                       ChatInterface.inputValue := EmptyString |})
               = last50 (ChatInterface.conversationHistory st
                         ++ ChatInterface.MkChatMessage ChatInterface.user
                              (Js.trim (ChatInterface.inputValue st)) current None
                            :: map (assistantMessage timestampOf) responses)%list).
  { rewrite receive_history. cbn [ChatInterface.conversationHistory].
    rewrite addMessage_last50, fold_addMessage_last50, <- app_assoc. reflexivity. }
  split; [exact He|]. split; [|reflexivity].
  rewrite He, last50_length. lia.
Qed.

Lemma exchange_history_witness :
  ChatInterface.conversationHistory
    (ChatInterface.receive (fun r => respTimestamp r)
       [MkChatResponse "Because." EXPLAINER (JsDate.Valid 9)]
       (ChatInterface.MkState
          [ChatInterface.MkChatMessage ChatInterface.user "Why?" (JsDate.Valid 5) None]
          true EmptyString))
  = last50 ([] ++ [ChatInterface.MkChatMessage ChatInterface.user (Js.trim " Why? ")
                     (JsDate.Valid 5) None;
                   assistantMessage (fun r => respTimestamp r)
                     (MkChatResponse "Because." EXPLAINER (JsDate.Valid 9))])%list.
Proof.
  apply (proj1 (exchange_history (fun r => respTimestamp r) (JsDate.Valid 5)
                  (ChatInterface.MkState [] false " Why? ")
                  (ChatInterface.MkState
                     [ChatInterface.MkChatMessage ChatInterface.user "Why?" (JsDate.Valid 5)
                        None]
                     true EmptyString)
                  (ChatInterface.MkRequest "Why?"
                     [ChatInterface.MkChatMessage ChatInterface.user "Why?" (JsDate.Valid 5)
                        None])
                  [MkChatResponse "Because." EXPLAINER (JsDate.Valid 9)]
                  eq_refl)).
Defined.
